(** * Training-step orchestration of jiant's runner family

    A shallow embedding of [jiant/proj/main/runner.py]: the [TrainState]
    progress cursor, the base [JiantRunner] step and its two lazy training
    contexts, the Reptile, DDS and MultiDDS step algorithms, and the
    evaluation engine [run_val].

    The runners are effectful Python: they mutate a shared [TrainState],
    pull from a task sampler and from per-task batch streams, drive an
    optimizer and write log records.  The embedding threads one explicit
    [World] through a small state-and-exception monad and records every call
    made to an external collaborator in a chronological [trace].

    Conventions.
    - Python integers are [Z]; [range(n)] runs [Z.to_nat n] times.
    - Loss values are Python floats in the source.  They are idealised as
      rationals ([Q]); a division by an integer zero raises, as in Python.
    - The model, the sampler, the streams and [complex_backpropagate] live
      outside this file's source; what they return is supplied by the record
      [Collaborators], whose functions may depend on the whole history. *)

From Stdlib Require Import ZArith QArith List Lia.
From stdpp Require Import gmap strings list fin_maps pretty.

(* ===================================================================== *)
(** * Data model *)
(* ===================================================================== *)

(** Python exceptions that the modelled code can raise. *)
Inductive exn :=
| KeyError (key : string)
| ZeroDivisionError
| AssertionError
| UnboundLocalError (var : string)
| RuntimeError
| StopIteration.

(** Result of pure but fallible code. *)
Inductive result (A : Type) :=
| Return (a : A)
| Throw (e : exn).
Arguments Return {A} a.
Arguments Throw {A} e.

(** [TrainState]: the dataclass of step counters. *)
Record TrainState := mkTrainState {
  global_steps : Z;
  task_steps : gmap string Z
}.

(** [TrainState.from_task_name_list]: the dict comprehension
    [{task_name: 0 for task_name in task_name_list}]. *)
Definition from_task_name_list (task_name_list : list string) : TrainState :=
  {| global_steps := 0;
     task_steps := foldl (fun d task_name => <[task_name := 0%Z]> d) ∅ task_name_list |}.

(** [TrainState.step]: [self.task_steps[task_name] += 1] raises [KeyError]
    on an untracked name, before [self.global_steps += 1] is reached. *)
Definition step (task_name : string) (self : TrainState) : result TrainState :=
  match task_steps self !! task_name with
  | None => Throw (KeyError task_name)
  | Some n =>
      Return {| global_steps := global_steps self + 1;
                task_steps := <[task_name := (n + 1)%Z]> (task_steps self) |}
  end.

(** States a run can be in: created by [from_task_name_list] over
    [task_name_list], then advanced by successful calls to [step]. *)
Inductive created_over (task_name_list : list string) : TrainState -> Prop :=
| created_fresh : created_over task_name_list (from_task_name_list task_name_list)
| created_step ts task_name ts' :
    created_over task_name_list ts ->
    step task_name ts = Return ts' ->
    created_over task_name_list ts'.

(** A batch, as far as the runners look into it: [len(batch)], the first
    dimension of its [input_ids], its [label_id] column and the
    [example_id] list of the accompanying metadata. *)
Record Batch := mkBatch {
  batch_len : nat;
  input_ids_rows : nat;
  label_id : list Z;
  example_id : list Z
}.

(** A loss tensor, abstracted to its shape and the mean of its entries
    (for a scalar tensor the mean is the value [.item()] reads). *)
Record Tensor := mkTensor {
  shape : list nat;
  mean : Q
}.

(** The record handed to [log_writer.write_entry]. *)
Record LogRecord := mkLogRecord {
  log_task : string;
  log_task_step : Z;
  log_global_step : Z;
  log_loss_val : Q;
  log_rl_loss : option Q
}.

(** A line appended to one of the JSON-lines diagnostic files. *)
Inductive JsonLine :=
| DDSDetails (task_name : string) (global_steps : Z) (example_ids : list Z)
             (rewards : list Q) (dds_weights : list Q) (rl_loss : Q)
| SamplingProbabilities (task_name : string) (global_steps : Z).

(** Calls made to the external collaborators, in program order. *)
Inductive event :=
| ev_model_train
| ev_model_eval
| ev_weighting_eval
| ev_weighting_train
| ev_sampler_pop (task_name : string)
| ev_stream_pop (task_name : string) (index : nat)
| ev_forward (task_name : string) (batch : Batch) (unreduced_loss : bool)
| ev_dds_weights_forward (batch : Batch)
| ev_backpropagate (task_name : string) (loss : Q) (gradient_accumulation_steps : Z)
| ev_optimizer_step
| ev_zero_grad
| ev_inner_begin
| ev_inner_step
| ev_inner_end
| ev_get_shared_grad (copy : bool) (contributions : list string)
| ev_accumulate_target_grad
| ev_grad_sim
| ev_update_sampler
| ev_dds_optimizer_step (batch : Batch) (rewards : list Z)
| ev_accumulator_update (batch : Batch) (batch_loss : Q)
| ev_write_entry (category : string) (record : LogRecord)
| ev_file_append (file : string) (line : JsonLine).

(** What the collaborators answer.  Every answer may depend on the history
    so far, which covers weights that change between calls. *)
Record Collaborators := mkCollaborators {
  (** name returned by the [n]-th [task_sampler.pop()] *)
  sampler_draw : nat -> string;
  (** [n]-th batch of a task's infinite stream *)
  stream_batch : string -> nat -> Batch;
  (** loss of [wrap_jiant_forward(..., compute_loss=True)] *)
  model_loss : list event -> string -> Batch -> bool -> Tensor;
  (** value returned by [complex_backpropagate] for a loss and a factor *)
  backpropagated_loss : Q -> Z -> Q;
  (** logits of [dds_weights_forward(batch)] *)
  dds_weight_logits : list event -> Batch -> list Q;
  (** [(weights * loss).mean()] *)
  weighted_mean : list Q -> Tensor -> Q;
  (** loss of [dds_weights_forward(batch, rewards, compute_loss=True)] *)
  dds_rl_loss : list event -> Batch -> list Z -> Q
}.

(** [TaskSpecificConfig], reduced to the field the step algorithms read. *)
Record TaskSpecificConfig := mkTaskSpecificConfig {
  gradient_accumulation_steps : Z
}.

(** The parts of [JiantTaskContainer] a runner consults. *)
Record JiantTaskContainer := mkJiantTaskContainer {
  task_specific_configs : gmap string TaskSpecificConfig;
  train_task_list : list string;
  max_steps : Z;
  (** keys of [task_sampler.task_dict], in iteration order *)
  sampler_task_dict : list string
}.

(** A cache of the container, by handle. *)
Definition Cache := nat.

(** The fields of a task-specific config that evaluation reads. *)
Record EvalSpecificConfig := mkEvalSpecificConfig {
  eval_batch_size : Z;
  eval_subset_num : Z
}.

(** The tables of the task container that data loaders are built from:
    [task_dict] (a task stands for its [name]), [task_cache_dict] (task
    name, then phase), [task_specific_configs] through their evaluation
    fields, and [task_run_config.test_task_list].  Training reads the first
    two, evaluation all four. *)
Record EvalTaskContainer := mkEvalTaskContainer {
  task_dict : gmap string string;
  task_cache_dict : gmap string (gmap string Cache);
  eval_specific_configs : gmap string EvalSpecificConfig;
  test_task_list : list string
}.

(** Mutable state shared by a runner and its collaborators. *)
Record World := mkWorld {
  (** the one [TrainState] object of the run *)
  train_state : TrainState;
  (** how many times the sampler has been popped *)
  sampler_pos : nat;
  (** [train_dataloader_dict]: position in each task's stream *)
  stream_pos : gmap string nat;
  (** gradient buffers: which tasks' micro-batches were accumulated since
      the last clear *)
  grad_buf : list string;
  (** number of updates applied to the model weights *)
  weights_version : nat;
  trace : list event
}.

(* ===================================================================== *)
(** * The state-and-exception monad *)
(* ===================================================================== *)

Inductive Outcome (A : Type) :=
| Ok (a : A) (w : World)
| Raise (e : exn) (w : World)
| Diverge.
Arguments Ok {A} a w.
Arguments Raise {A} e w.
Arguments Diverge {A}.

Definition M (A : Type) := World -> Outcome A.

Definition ret {A} (a : A) : M A := fun w => Ok a w.

Definition bind {A B} (m : M A) (k : A -> M B) : M B :=
  fun w =>
    match m w with
    | Ok a w' => k a w'
    | Raise e w' => Raise e w'
    | Diverge => Diverge
    end.

Definition raise {A} (e : exn) : M A := fun w => Raise e w.

(** The monad is used through stdpp's [x ← m; k] and [m;; k]. *)
#[global] Instance M_ret : MRet M := @ret.
#[global] Instance M_bind : MBind M := fun A B k m => bind m k.

Definition set_train_state (ts : TrainState) (w : World) : World :=
  {| train_state := ts; sampler_pos := sampler_pos w; stream_pos := stream_pos w;
     grad_buf := grad_buf w; weights_version := weights_version w; trace := trace w |}.

Definition set_sampler_pos (n : nat) (w : World) : World :=
  {| train_state := train_state w; sampler_pos := n; stream_pos := stream_pos w;
     grad_buf := grad_buf w; weights_version := weights_version w; trace := trace w |}.

Definition set_stream_pos (d : gmap string nat) (w : World) : World :=
  {| train_state := train_state w; sampler_pos := sampler_pos w; stream_pos := d;
     grad_buf := grad_buf w; weights_version := weights_version w; trace := trace w |}.

Definition set_grad_buf (g : list string) (w : World) : World :=
  {| train_state := train_state w; sampler_pos := sampler_pos w; stream_pos := stream_pos w;
     grad_buf := g; weights_version := weights_version w; trace := trace w |}.

Definition set_weights_version (v : nat) (w : World) : World :=
  {| train_state := train_state w; sampler_pos := sampler_pos w; stream_pos := stream_pos w;
     grad_buf := grad_buf w; weights_version := v; trace := trace w |}.

Definition record_event (e : event) (w : World) : World :=
  {| train_state := train_state w; sampler_pos := sampler_pos w; stream_pos := stream_pos w;
     grad_buf := grad_buf w; weights_version := weights_version w;
     trace := trace w ++ [e] |}.

Definition emit (e : event) : M unit := fun w => Ok tt (record_event e w).

(** [d[key]] on a dict. *)
Definition getitem {V} (d : gmap string V) (key : string) : M V :=
  fun w =>
    match d !! key with
    | Some v => Ok v w
    | None => Raise (KeyError key) w
    end.

(** True division of a float by a Python integer. *)
Definition py_div (a : Q) (b : Z) : M Q :=
  fun w => if (b =? 0)%Z then Raise ZeroDivisionError w else Ok (a / inject_Z b)%Q w.

(** [a % b] on Python integers. *)
Definition py_mod (a b : Z) : M Z :=
  fun w => if (b =? 0)%Z then Raise ZeroDivisionError w else Ok (a mod b)%Z w.

Definition py_assert (b : bool) : M unit :=
  fun w => if b then Ok tt w else Raise AssertionError w.

(** Reading a local variable that may not have been assigned yet. *)
Definition read_local {A} (name : string) (v : option A) : M A :=
  fun w =>
    match v with
    | Some a => Ok a w
    | None => Raise (UnboundLocalError name) w
    end.

(** [for _ in range(n): acc = body(acc)]. *)
Fixpoint for_range {S} (n : nat) (body : S -> M S) (acc : S) : M S :=
  match n with
  | O => ret acc
  | Datatypes.S n' => acc' ← body acc; for_range n' body acc'
  end.

(** [for x in xs: acc = body(x, acc)]. *)
Fixpoint for_each {X S} (xs : list X) (body : X -> S -> M S) (acc : S) : M S :=
  match xs with
  | [] => ret acc
  | x :: xs' => acc' ← body x acc; for_each xs' body acc'
  end.

(* ===================================================================== *)
(** * Collaborator calls *)
(* ===================================================================== *)

Section Calls.
Context (E : Collaborators).

(** [task_sampler.pop()] (the task object travels with its name). *)
Definition task_sampler_pop : M string :=
  fun w =>
    let task_name := sampler_draw E (sampler_pos w) in
    Ok task_name
       (record_event (ev_sampler_pop task_name)
          (set_sampler_pos (S (sampler_pos w)) w)).

(** [train_dataloader_dict[task_name].pop()]. *)
Definition dataloader_pop (task_name : string) : M Batch :=
  fun w =>
    match stream_pos w !! task_name with
    | None => Raise (KeyError task_name) w
    | Some i =>
        Ok (stream_batch E task_name i)
           (record_event (ev_stream_pop task_name i)
              (set_stream_pos (<[task_name := S i]> (stream_pos w)) w))
    end.

(** [wrap_jiant_forward(jiant_model, batch, task, compute_loss=True,
    unreduced_loss=...)], returning [model_output.loss]. *)
Definition wrap_jiant_forward (task_name : string) (batch : Batch)
    (unreduced_loss : bool) : M Tensor :=
  fun w =>
    Ok (model_loss E (trace w) task_name batch unreduced_loss)
       (record_event (ev_forward task_name batch unreduced_loss) w).

(** Modelled from the spec: [complex_backpropagate] of
    [jiant.shared.runner] is absent from the source at hand.  By the spec
    it scales the loss for accumulation, runs the backward pass (so the
    gradient buffers receive this micro-batch's contribution), clips, and
    returns the possibly rescaled loss; it never steps the optimizer.  The
    task name only labels the contribution. *)
Definition complex_backpropagate (task_name : string) (loss : Q)
    (gradient_accumulation_steps : Z) : M Q :=
  fun w =>
    Ok (backpropagated_loss E loss gradient_accumulation_steps)
       (record_event (ev_backpropagate task_name loss gradient_accumulation_steps)
          (set_grad_buf (grad_buf w ++ [task_name]) w)).

(** [optimizer_scheduler.step()]: the weights move. *)
Definition optimizer_scheduler_step : M unit :=
  fun w =>
    Ok tt (record_event ev_optimizer_step
             (set_weights_version (S (weights_version w)) w)).

(** [optimizer_scheduler.optimizer.zero_grad()]. *)
Definition zero_grad : M unit :=
  fun w => Ok tt (record_event ev_zero_grad (set_grad_buf [] w)).

(** [optimizer_scheduler.get_shared_grad(copy=...)]: reads the buffers. *)
Definition get_shared_grad (copy : bool) : M (list string) :=
  fun w => Ok (grad_buf w) (record_event (ev_get_shared_grad copy (grad_buf w)) w).

(** [train_state.step(task_name=task_name)] on the shared object. *)
Definition train_state_step (task_name : string) : M unit :=
  fun w =>
    match step task_name (train_state w) with
    | Return ts' => Ok tt (set_train_state ts' w)
    | Throw e => Raise e w
    end.

Definition get_train_state : M TrainState := fun w => Ok (train_state w) w.

(** Binding a fresh [TrainState] / a fresh [train_dataloader_dict]. *)
Definition put_train_state (ts : TrainState) : M unit :=
  fun w => Ok tt (set_train_state ts w).

Definition put_dataloaders (d : gmap string nat) : M unit :=
  fun w => Ok tt (set_stream_pos d w).

Definition get_config (c : JiantTaskContainer) (task_name : string)
  : M TaskSpecificConfig :=
  getitem (task_specific_configs c) task_name.

(** [log_writer.write_entry("loss_train", {...})]. *)
Definition write_entry (category : string) (record : LogRecord) : M unit :=
  emit (ev_write_entry category record).
End Calls.

(* ===================================================================== *)
(** * Lazy training contexts (Python generators) *)
(* ===================================================================== *)

(** A generator object: not yet started, suspended at its [yield] with some
    iterations of its [for] loop left, or finished. *)
Inductive Generator :=
| gen_created
| gen_suspended (remaining : nat)
| gen_finished.

(** [for _ in generator: pass], counting the values yielded.  [fuel] bounds
    the number of [next] calls. *)
Fixpoint for_generator {A} (fuel : nat) (next : Generator -> M (A * Generator))
    (g : Generator) (yielded : nat) : M nat :=
  match fuel with
  | O => fun _ => Diverge
  | S fuel' =>
      fun w =>
        match next g w with
        | Ok (_, g') w' => for_generator fuel' next g' (S yielded) w'
        | Raise StopIteration w' => Ok yielded w'
        | Raise e w' => Raise e w'
        | Diverge => Diverge
        end
  end.

(** [n] successive [next] calls; the value is the last one yielded. *)
Fixpoint advance {A} (n : nat) (next : Generator -> M (A * Generator))
    (g : Generator) (last : option A) : M (option A * Generator) :=
  match n with
  | O => mret (last, g)
  | S n' => '(a, g') ← next g; advance n' next g' (Some a)
  end.

(* ===================================================================== *)
(** * JiantRunner *)
(* ===================================================================== *)

Module JiantRunner.
Section Methods.
Context (E : Collaborators) (c : JiantTaskContainer) (tables : EvalTaskContainer).

(** Body of the micro-batch loop: pop, forward, backpropagate, add. *)
Definition micro_batch (task_name : string) (accumulation : Z) (loss_val : Q) : M Q :=
  batch ← dataloader_pop E task_name;
  loss ← wrap_jiant_forward E task_name batch false;
  loss ← complex_backpropagate E task_name (mean loss) accumulation;
  mret (loss_val + loss)%Q.

Definition run_train_step : M unit :=
  emit ev_model_train;;
  task_name ← task_sampler_pop E;
  task_specific_config ← get_config c task_name;
  let accumulation := gradient_accumulation_steps task_specific_config in
  loss_val ← for_range (Z.to_nat accumulation) (micro_batch task_name accumulation) 0%Q;
  optimizer_scheduler_step;;
  zero_grad;;
  train_state_step task_name;;
  ts ← get_train_state;
  task_step ← getitem (task_steps ts) task_name;
  loss_mean ← py_div loss_val accumulation;
  write_entry "loss_train"
    {| log_task := task_name; log_task_step := task_step;
       log_global_step := global_steps ts; log_loss_val := loss_mean;
       log_rl_loss := None |}.

(** One iteration of the loop of [get_train_dataloader_dict]: the task, its
    ["train"] cache and its config are looked up, in this order, and a
    fresh stream is stored under the task's name. *)
Definition train_dataloader_entry (task_name : string)
    (train_dataloader_dict : gmap string nat) : M (gmap string nat) :=
  task ← getitem (task_dict tables) task_name;
  caches ← getitem (task_cache_dict tables) task_name;
  train_cache ← getitem caches "train";
  _ ← get_config c task_name;
  mret (<[task_name := 0]> train_dataloader_dict).

(** [get_train_dataloader_dict]: one fresh stream per training task; the
    dict becomes the runner's only when the loop is through. *)
Definition get_train_dataloader_dict : M unit :=
  d ← for_each (train_task_list c) train_dataloader_entry (∅ : gmap string nat);
  put_dataloaders d.

(** The [for ... in range(...)] loop shared by both contexts, resumed at
    its [yield].  The yielded value is the run's one [TrainState] object,
    read at the moment of the yield. *)
Definition context_loop (run_train_step : M unit) (remaining : nat)
  : M (TrainState * Generator) :=
  match remaining with
  | O => raise StopIteration
  | S remaining' =>
      run_train_step;;
      ts ← get_train_state;
      mret (ts, gen_suspended remaining')
  end.

(** [next] on [run_train_context()].  [run_train_step] is the method of
    the runner's class. *)
Definition run_train_context (run_train_step : M unit) (g : Generator)
  : M (TrainState * Generator) :=
  match g with
  | gen_created =>
      get_train_dataloader_dict;;
      put_train_state (from_task_name_list (train_task_list c));;
      context_loop run_train_step (Z.to_nat (max_steps c))
  | gen_suspended remaining => context_loop run_train_step remaining
  | gen_finished => raise StopIteration
  end.

(** [next] on [resume_train_context(train_state)]; the restored state is
    the world's [train_state]. *)
Definition resume_train_context (run_train_step : M unit) (g : Generator)
  : M (TrainState * Generator) :=
  match g with
  | gen_created =>
      get_train_dataloader_dict;;
      ts ← get_train_state;
      let start_position := global_steps ts in
      context_loop run_train_step (Z.to_nat (max_steps c - start_position))
  | gen_suspended remaining => context_loop run_train_step remaining
  | gen_finished => raise StopIteration
  end.

(** [run_train]: drain [run_train_context()]. *)
Definition run_train (fuel : nat) : M nat :=
  for_generator fuel (run_train_context run_train_step) gen_created 0.
End Methods.
End JiantRunner.

(* ===================================================================== *)
(** * ReptileRunner *)
(* ===================================================================== *)

Module ReptileRunner.
Section Methods.
Context (E : Collaborators) (c : JiantTaskContainer).
Context (inner_steps num_sampled_tasks : Z).

Definition run_train_step : M unit :=
  emit ev_model_train;;
  task_name ← task_sampler_pop E;
  task_specific_config ← get_config c task_name;
  let accumulation := gradient_accumulation_steps task_specific_config in
  emit ev_inner_begin;;
  loss_val ←
    for_range (Z.to_nat inner_steps)
      (fun loss_val =>
         loss_val ←
           for_range (Z.to_nat num_sampled_tasks)
             (fun loss_val =>
                for_range (Z.to_nat accumulation)
                  (JiantRunner.micro_batch E task_name accumulation) loss_val)
             loss_val;
         emit ev_inner_step;;
         mret loss_val)
      0%Q;
  emit ev_inner_end;;
  optimizer_scheduler_step;;
  zero_grad;;
  train_state_step task_name;;
  ts ← get_train_state;
  task_step ← getitem (task_steps ts) task_name;
  q1 ← py_div loss_val accumulation;
  q2 ← py_div q1 num_sampled_tasks;
  q3 ← py_div q2 inner_steps;
  write_entry "loss_train"
    {| log_task := task_name; log_task_step := task_step;
       log_global_step := global_steps ts; log_loss_val := q3;
       log_rl_loss := None |}.
End Methods.
End ReptileRunner.

(* ===================================================================== *)
(** * DDSRunner *)
(* ===================================================================== *)

(** [task_sampler.task_dict[task_name]]. *)
Definition sampler_task_lookup (c : JiantTaskContainer) (task_name : string) : M unit :=
  fun w =>
    if bool_decide (task_name ∈ sampler_task_dict c) then Ok tt w
    else Raise (KeyError task_name) w.

Module DDSRunner.
Section Methods.
Context (E : Collaborators) (c : JiantTaskContainer).
Context (dds_update_freq dds_update_steps : Z) (target_task : string).

(** The supervised update inside [DDSOptimizer.step]: the weighting loss
    is computed and backpropagated, an Adam optimizer built over all of
    the model's parameters steps, and that optimizer's [zero_grad] runs. *)
Definition weighting_update (batch : Batch) (rewards : list Z) : M Q :=
  fun w =>
    Ok (dds_rl_loss E (trace w) batch rewards)
       (record_event (ev_dds_optimizer_step batch rewards)
          (set_grad_buf [] (set_weights_version (S (weights_version w)) w))).

(** [DDSOptimizer.step(batch, rewards)].  Its
    [assert not rewards.requires_grad] holds for label ids. *)
Definition dds_optimizer_step (batch : Batch) (rewards : list Z) : M Q :=
  emit ev_weighting_train;;
  weighting_update batch rewards.

(** [jiant_model.dds_weights_forward(batch).logits] under [no_grad]. *)
Definition dds_weights_forward (batch : Batch) : M (list Q) :=
  fun w =>
    Ok (dds_weight_logits E (trace w) batch)
       (record_event (ev_dds_weights_forward batch) w).

(** [log_dds_details]: one line appended to [dds_details_logs.jsonl]. *)
Definition log_dds_details (task_name : string) (global_steps : Z)
    (example_ids : list Z) (rewards : list Q) (dds_weights : list Q)
    (rl_loss : Q) : M unit :=
  emit (ev_file_append "dds_details_logs.jsonl"
          (DDSDetails task_name global_steps example_ids rewards dds_weights rl_loss)).

(** Locals of [run_one_batch] carried round its loop: the last [batch]
    (unbound before the first iteration), [example_ids], [dds_weights],
    [loss_val]. *)
Definition batch_locals : Type := option Batch * list Z * list Q * Q.

Definition one_micro_batch (task_name : string) (is_target_task : bool)
    (accumulation : Z) (locals : batch_locals) : M batch_locals :=
  let '(_, example_ids, dds_weights, loss_val) := locals in
  batch ← dataloader_pop E task_name;
  loss_tensor ← wrap_jiant_forward E task_name batch true;
  py_assert (bool_decide (shape loss_tensor = [batch_len batch]));;
  '(loss, new_weights) ←
    (if negb is_target_task then
       weights ← dds_weights_forward batch;
       mret (weighted_mean E weights loss_tensor, weights)
     else
       mret (mean loss_tensor, repeat 1%Q (batch_len batch)));
  loss ← complex_backpropagate E task_name loss accumulation;
  mret (Some batch, example_ids ++ example_id batch,
        dds_weights ++ new_weights, (loss_val + loss)%Q).

Definition run_one_batch (task_name : string) (is_target_task : bool)
  : M (Batch * list Z * list Q * Q) :=
  task_specific_config ← get_config c task_name;
  let accumulation :=
    if is_target_task then 1%Z
    else gradient_accumulation_steps task_specific_config in
  emit ev_weighting_eval;;
  '(last_batch, example_ids, dds_weights, loss_val) ←
    for_range (Z.to_nat accumulation)
      (one_micro_batch task_name is_target_task accumulation)
      (None, [], [], 0%Q);
  batch ← read_local "batch" last_batch;
  mret (batch, example_ids, dds_weights, loss_val).

(** The [while True] loop: poll the sampler until the name drawn is not
    the target task.  [fuel] bounds the number of polls. *)
Fixpoint sample_non_target (fuel : nat) : M string :=
  match fuel with
  | O => fun _ => Diverge
  | S fuel' =>
      task_name ← task_sampler_pop E;
      if bool_decide (task_name ≠ target_task) then mret task_name
      else sample_non_target fuel'
  end.

(** One round of the periodic update; [rewards] and [rl_loss] are the
    locals it assigns. *)
Definition update_round (batch : Batch) (locals : option (list Z) * option Q)
  : M (option (list Z) * option Q) :=
  sampler_task_lookup c target_task;;
  _ ← run_one_batch target_task true;
  target_grad ← get_shared_grad true;
  zero_grad;;
  let rewards := label_id batch in
  rl_loss ← dds_optimizer_step batch rewards;
  mret (Some rewards, Some rl_loss).

(** The step once the [while True] loop has settled on [task_name]. *)
Definition after_sampling (task_name : string) : M unit :=
  task_specific_config ← get_config c task_name;
  '(batch, example_ids, dds_weights, loss_val) ← run_one_batch task_name false;
  py_assert (input_ids_rows batch =? length example_ids);;
  source_grad ← get_shared_grad true;
  optimizer_scheduler_step;;
  zero_grad;;
  train_state_step task_name;;
  ts ← get_train_state;
  m ← py_mod (global_steps ts) dds_update_freq;
  '(rewards, rl_loss) ←
    (if (m =? 0)%Z then
       for_range (Z.to_nat dds_update_steps) (update_round batch) (None, None)
     else mret (None, None));
  rewards ← read_local "rewards" rewards;
  rl_loss ← read_local "rl_loss" rl_loss;
  ts ← get_train_state;
  log_dds_details task_name (global_steps ts) example_ids
    (inject_Z <$> rewards) dds_weights rl_loss;;
  task_step ← getitem (task_steps ts) task_name;
  loss_mean ← py_div loss_val (gradient_accumulation_steps task_specific_config);
  write_entry "loss_train"
    {| log_task := task_name; log_task_step := task_step;
       log_global_step := global_steps ts; log_loss_val := loss_mean;
       log_rl_loss := Some rl_loss |}.

Definition run_train_step (fuel : nat) : M unit :=
  emit ev_model_train;;
  task_name ← sample_non_target fuel;
  after_sampling task_name.
End Methods.
End DDSRunner.

(* ===================================================================== *)
(** * MultiDDSRunner *)
(* ===================================================================== *)

Module MultiDDSRunner.
Section Methods.
Context (E : Collaborators) (c : JiantTaskContainer).
Context (sampler_update_freq : Z) (target_task : string)
        (accumulate_target_grad : bool).

(** The nested [run_one_batch(task_name, task)]. *)
Definition run_one_batch (task_name : string) : M Q :=
  task_specific_config ← get_config c task_name;
  let accumulation := gradient_accumulation_steps task_specific_config in
  for_range (Z.to_nat accumulation)
    (JiantRunner.micro_batch E task_name accumulation) 0%Q.

(** One probe of the [for task_idx, (task_name, task) in ...] loop.  The
    loop variable rebinds the enclosing [task_name]; the second component
    counts the entries of [task_grad_sim]. *)
Definition probe (task_name : string) (locals : string * nat) : M (string * nat) :=
  _ ← run_one_batch task_name;
  auxillary_grad ← get_shared_grad false;
  emit ev_grad_sim;;
  zero_grad;;
  mret (task_name, S (snd locals)).

(** [log_sampling_probabilities]: one line appended to
    [sampling_probabilities_logs.jsonl]. *)
Definition log_sampling_probabilities (task_name : string) (global_steps : Z) : M unit :=
  emit (ev_file_append "sampling_probabilities_logs.jsonl"
          (SamplingProbabilities task_name global_steps)).

(** Body of [if train_state.global_steps % sampler_update_freq == 0];
    returns the binding of [task_name] it leaves behind. *)
Definition sampler_update (task_name : string) : M string :=
  sampler_task_lookup c target_task;;
  _ ← run_one_batch target_task;
  current_target_grad ← get_shared_grad true;
  zero_grad;;
  (if accumulate_target_grad then emit ev_accumulate_target_grad else mret tt);;
  '(task_name, probes) ← for_each (sampler_task_dict c) probe (task_name, O);
  (* torch.stack refuses an empty list *)
  (if probes is O then raise RuntimeError else mret tt);;
  emit ev_update_sampler;;
  ts ← get_train_state;
  log_sampling_probabilities task_name (global_steps ts);;
  mret task_name.

Definition run_train_step : M unit :=
  emit ev_model_train;;
  task_name ← task_sampler_pop E;
  task_specific_config ← get_config c task_name;
  loss_val ← run_one_batch task_name;
  optimizer_scheduler_step;;
  zero_grad;;
  train_state_step task_name;;
  ts ← get_train_state;
  m ← py_mod (global_steps ts) sampler_update_freq;
  task_name ← (if (m =? 0)%Z then sampler_update task_name else mret task_name);
  ts ← get_train_state;
  task_step ← getitem (task_steps ts) task_name;
  loss_mean ← py_div loss_val (gradient_accumulation_steps task_specific_config);
  write_entry "loss_train"
    {| log_task := task_name; log_task_step := task_step;
       log_global_step := global_steps ts; log_loss_val := loss_mean;
       log_rl_loss := None |}.
End Methods.
End MultiDDSRunner.

(* ===================================================================== *)
(** * Evaluation engine *)
(* ===================================================================== *)

(** The dict [run_val] returns: its ["loss"], and whether ["preds"] was
    added.  The accumulator and the metrics are the evaluation scheme's. *)
Record EvalOutput := mkEvalOutput {
  eval_loss : Q;
  has_preds : bool
}.

Section Evaluation.
Context (E : Collaborators).

(** Locals of the evaluation loop: [total_eval_loss], [nb_eval_steps],
    [nb_eval_examples]. *)
Definition eval_body (task_name : string) (batch : Batch) (locals : Q * Z * Z)
  : M (Q * Z * Z) :=
  let '(total_eval_loss, nb_eval_steps, nb_eval_examples) := locals in
  loss ← wrap_jiant_forward E task_name batch false;
  let batch_loss := mean loss in
  emit (ev_accumulator_update batch batch_loss);;
  mret ((total_eval_loss + batch_loss)%Q, (nb_eval_steps + 1)%Z,
        (nb_eval_examples + Z.of_nat (batch_len batch))%Z).

(** Module-level [run_val]; [val_dataloader] is a finite stream. *)
Definition run_val (val_dataloader : list Batch) (task_name : string)
    (local_rank : Z) (return_preds : bool) : M (option EvalOutput) :=
  if negb (local_rank =? -1)%Z then mret None
  else
    emit ev_model_eval;;
    '(total_eval_loss, nb_eval_steps, _) ←
      for_each val_dataloader (eval_body task_name) (0%Q, 0%Z, 0%Z);
    eval_loss ← py_div total_eval_loss nb_eval_steps;
    mret (Some {| eval_loss := eval_loss; has_preds := return_preds |}).
End Evaluation.

(* ===================================================================== *)
(** * Observations on traces *)
(* ===================================================================== *)

Definition is_sampler_pop (e : event) : bool :=
  match e with ev_sampler_pop _ => true | _ => false end.
Definition is_stream_pop (e : event) : bool :=
  match e with ev_stream_pop _ _ => true | _ => false end.
Definition is_forward (e : event) : bool :=
  match e with ev_forward _ _ _ => true | _ => false end.
Definition is_backpropagate (e : event) : bool :=
  match e with ev_backpropagate _ _ _ => true | _ => false end.
Definition is_optimizer_step (e : event) : bool :=
  match e with ev_optimizer_step => true | _ => false end.
Definition is_zero_grad (e : event) : bool :=
  match e with ev_zero_grad => true | _ => false end.
Definition is_inner_step (e : event) : bool :=
  match e with ev_inner_step => true | _ => false end.
Definition is_write_entry (e : event) : bool :=
  match e with ev_write_entry _ _ => true | _ => false end.
Definition is_file_append (e : event) : bool :=
  match e with ev_file_append _ _ => true | _ => false end.
Definition is_weights_update (e : event) : bool :=
  match e with
  | ev_optimizer_step | ev_dds_optimizer_step _ _ => true
  | _ => false
  end.

(** Number of events of one kind. *)
Fixpoint count_events (p : event -> bool) (evs : list event) : nat :=
  match evs with
  | [] => 0
  | e :: evs' => (if p e then 1 else 0) + count_events p evs'
  end.

Fixpoint Qsum (l : list Q) : Q :=
  match l with
  | [] => 0%Q
  | x :: l' => (x + Qsum l')%Q
  end.

(** The values [complex_backpropagate] returned, in order: the
    per-micro-batch losses that a step adds up. *)
Fixpoint returned_losses (E : Collaborators) (evs : list event) : list Q :=
  match evs with
  | [] => []
  | ev_backpropagate _ loss accumulation :: evs' =>
      backpropagated_loss E loss accumulation :: returned_losses E evs'
  | _ :: evs' => returned_losses E evs'
  end.

(** The per-batch losses handed to the evaluation accumulator, in order. *)
Fixpoint batch_losses (evs : list event) : list Q :=
  match evs with
  | [] => []
  | ev_accumulator_update _ batch_loss :: evs' => batch_loss :: batch_losses evs'
  | _ :: evs' => batch_losses evs'
  end.

(** The gradient-buffer contents seen by each [get_shared_grad], in order. *)
Fixpoint shared_grad_reads (evs : list event) : list (list string) :=
  match evs with
  | [] => []
  | ev_get_shared_grad _ contributions :: evs' => contributions :: shared_grad_reads evs'
  | _ :: evs' => shared_grad_reads evs'
  end.

(** Events of the micro-batch loop of task [t]. *)
Definition micro_event (t : string) (e : event) : Prop :=
  match e with
  | ev_stream_pop t' _ | ev_forward t' _ _ | ev_backpropagate t' _ _ => t' = t
  | _ => False
  end.

(** [micro_batches E t k past i n evs]: [evs] is the trace of [n] rounds of
    the micro-batch loop of task [t] with accumulation factor [k], begun
    after the history [past] at position [i] of the stream.  Each round
    pops the next batch, runs the forward pass on that batch, and hands the
    loss of that pass to [complex_backpropagate], once. *)
Inductive micro_batches (E : Collaborators) (t : string) (k : Z)
  : list event -> nat -> nat -> list event -> Prop :=
| micro_batches_done past i : micro_batches E t k past i 0 []
| micro_batches_round past i n evs :
    let batch := stream_batch E t i in
    let loss := mean (model_loss E (past ++ [ev_stream_pop t i]) t batch false) in
    let round := [ev_stream_pop t i; ev_forward t batch false;
                  ev_backpropagate t loss k] in
    micro_batches E t k (past ++ round) (S i) n evs ->
    micro_batches E t k past i (S n) (round ++ evs).

(** What a loss-accumulating loop leaves untouched, and what it adds. *)
Record accumulates (E : Collaborators) (acc : Q) (w : World) (acc' : Q)
    (w' : World) (evs : list event) : Prop := mkAccumulates {
  acc_trace : trace w' = trace w ++ evs;
  acc_loss : (acc' == acc + Qsum (returned_losses E evs))%Q;
  acc_train_state : train_state w' = train_state w;
  acc_sampler_pos : sampler_pos w' = sampler_pos w;
  acc_weights : weights_version w' = weights_version w;
  acc_no_step : count_events is_weights_update evs = 0;
  acc_no_clear : count_events is_zero_grad evs = 0;
  acc_no_log : count_events is_write_entry evs = 0
}.

(** A container under which the base step cannot fail: every training task
    has a config with a non-zero accumulation factor, and the sampler only
    draws training tasks. *)
Definition well_configured (E : Collaborators) (c : JiantTaskContainer) : Prop :=
  (forall t, t ∈ train_task_list c ->
     exists cfg, task_specific_configs c !! t = Some cfg /\
                 gradient_accumulation_steps cfg ≠ 0%Z) /\
  (forall n, sampler_draw E n ∈ train_task_list c).

(** Every training task has its task object and its ["train"] cache in
    the container's tables. *)
Definition train_data_present (c : JiantTaskContainer) (tables : EvalTaskContainer)
  : Prop :=
  forall t, t ∈ train_task_list c ->
    is_Some (task_dict tables !! t) /\
    exists caches, task_cache_dict tables !! t = Some caches /\
                   is_Some (caches !! "train").

(** The key whose lookup fails when [get_train_dataloader_dict] reaches a
    task, if one does. *)
Definition train_entry_gap (c : JiantTaskContainer) (tables : EvalTaskContainer)
    (task_name : string) : option string :=
  match task_dict tables !! task_name, task_cache_dict tables !! task_name with
  | None, _ => Some task_name
  | Some _, None => Some task_name
  | Some _, Some caches =>
      match caches !! "train", task_specific_configs c !! task_name with
      | None, _ => Some "train"
      | Some _, None => Some task_name
      | Some _, Some _ => None
      end
  end.

(** A world in which training is under way: every training task has a
    stream and a counter. *)
Definition training (c : JiantTaskContainer) (w : World) : Prop :=
  forall t, t ∈ train_task_list c ->
    is_Some (stream_pos w !! t) /\ is_Some (task_steps (train_state w) !! t).

(** Every training task has a counter in the world's [TrainState]. *)
Definition tracked (c : JiantTaskContainer) (w : World) : Prop :=
  forall t, t ∈ train_task_list c -> is_Some (task_steps (train_state w) !! t).

(** No per-task counter of [ts] is lost or lowered in [ts']. *)
Definition never_decreases (ts ts' : TrainState) : Prop :=
  forall t a, task_steps ts !! t = Some a ->
    exists b, task_steps ts' !! t = Some b /\ (a <= b)%Z.

(** What a stretch of [n] base steps does to a world. *)
Record advanced (c : JiantTaskContainer) (n : nat) (w w' : World) : Prop := mkAdvanced {
  adv_training : training c w';
  adv_new : exists new,
    trace w' = trace w ++ new /\
    count_events is_optimizer_step new = n /\
    count_events is_write_entry new = n;
  adv_global : global_steps (train_state w') = (global_steps (train_state w) + Z.of_nat n)%Z;
  adv_tasks : never_decreases (train_state w) (train_state w');
  adv_created : forall T, created_over T (train_state w) -> created_over T (train_state w')
}.

(** [eval_rounds E task past batches evs]: [evs] is the trace of the
    evaluation loop over [batches], begun after the history [past]: for each
    batch one forward pass, whose mean loss goes to the accumulator. *)
Inductive eval_rounds (E : Collaborators) (task : string)
  : list event -> list Batch -> list event -> Prop :=
| eval_rounds_done past : eval_rounds E task past [] []
| eval_rounds_batch past batch batches evs :
    let batch_loss := mean (model_loss E past task batch false) in
    let round := [ev_forward task batch false; ev_accumulator_update batch batch_loss] in
    eval_rounds E task (past ++ round) batches evs ->
    eval_rounds E task past (batch :: batches) (round ++ evs).

(** The mean of per-batch losses weighted by batch size, for comparison
    with what [run_val] computes. *)
Definition size_weighted_mean (sized_losses : list (nat * Q)) : Q :=
  (Qsum (map (fun '(size, loss) => inject_Z (Z.of_nat size) * loss) sized_losses) /
   inject_Z (Z.of_nat (list_sum (map fst sized_losses))))%Q.

Definition is_inner_begin (e : event) : bool :=
  match e with ev_inner_begin => true | _ => false end.
Definition is_inner_end (e : event) : bool :=
  match e with ev_inner_end => true | _ => false end.

(** [inner_rounds E t k m past i n evs]: [evs] is the trace of [n] rounds of
    Reptile's inner loop on task [t], begun after [past] at stream position
    [i]: each round is [m] micro-batches followed by one [inner_step]. *)
Inductive inner_rounds (E : Collaborators) (t : string) (k : Z) (m : nat)
  : list event -> nat -> nat -> list event -> Prop :=
| inner_rounds_done past i : inner_rounds E t k m past i 0 []
| inner_rounds_round past i n batches evs :
    micro_batches E t k past i m batches ->
    inner_rounds E t k m (past ++ batches ++ [ev_inner_step]) (i + m) n evs ->
    inner_rounds E t k m past i (S n) (batches ++ ev_inner_step :: evs).

(** The names returned by [n] successive polls of the sampler, from
    position [pos] on. *)
Definition polled (E : Collaborators) (pos n : nat) : list string :=
  map (fun j => sampler_draw E (pos + j)) (seq 0 n).

(** [quiet w w']: from [w] to [w'] the [TrainState] was not touched, and
    nothing was logged and no optimizer step taken. *)
Definition quiet (w w' : World) : Prop :=
  train_state w' = train_state w /\
  exists evs,
    trace w' = trace w ++ evs /\
    count_events is_write_entry evs = 0 /\
    count_events is_file_append evs = 0 /\
    count_events is_optimizer_step evs = 0.

(** Number of micro-batches [run_one_batch] runs for a task. *)
Definition accumulation_of (c : JiantTaskContainer) (t : string) : nat :=
  match task_specific_configs c !! t with
  | Some cfg => Z.to_nat (gradient_accumulation_steps cfg)
  | None => 0
  end.

(** [probe_rounds c tasks evs]: [evs] is the trace of the MultiDDS probe
    loop over [tasks].  Each probe runs the micro-batches of its task, reads
    gradient buffers that hold that task's contributions and nothing else,
    scores them against the target gradient, and clears the buffers. *)
Inductive probe_rounds (c : JiantTaskContainer) : list string -> list event -> Prop :=
| probe_rounds_done : probe_rounds c [] []
| probe_rounds_probe t tasks batches evs :
    Forall (micro_event t) batches ->
    count_events is_backpropagate batches = accumulation_of c t ->
    probe_rounds c tasks evs ->
    probe_rounds c (t :: tasks)
      (batches ++
       [ev_get_shared_grad false (repeat t (accumulation_of c t)); ev_grad_sim;
        ev_zero_grad] ++ evs).

(** Every task of [tasks] has a stream in [w]. *)
Definition streams_cover (tasks : list string) (w : World) : Prop :=
  forall t, t ∈ tasks -> is_Some (stream_pos w !! t).

Definition is_dds_optimizer_step (e : event) : bool :=
  match e with ev_dds_optimizer_step _ _ => true | _ => false end.
Definition is_model_eval (e : event) : bool :=
  match e with ev_model_eval => true | _ => false end.
Definition is_accumulator_update (e : event) : bool :=
  match e with ev_accumulator_update _ _ => true | _ => false end.

(** The [example_id]s of [n] successive batches of a stream, from position
    [i] on. *)
Definition stream_example_ids (E : Collaborators) (t : string) (i n : nat) : list Z :=
  concat (map (fun j => example_id (stream_batch E t (i + j))) (seq 0 n)).

(** The model's unreduced loss on task [t] has one entry per example. *)
Definition well_shaped (E : Collaborators) (t : string) : Prop :=
  forall past i,
    shape (model_loss E past t (stream_batch E t i) true) =
    [batch_len (stream_batch E t i)].

(** Events that log nothing and move no weights. *)
Definition steady_event (e : event) : Prop :=
  is_write_entry e = false /\ is_file_append e = false /\ is_weights_update e = false.

(** [steady w w']: from [w] to [w'] neither the [TrainState] nor the
    weights moved and nothing was logged. *)
Definition steady (w w' : World) : Prop :=
  train_state w' = train_state w /\
  weights_version w' = weights_version w /\
  exists evs, trace w' = trace w ++ evs /\ Forall steady_event evs.

(* ===================================================================== *)
(** * Evaluation over the container's tasks *)
(* ===================================================================== *)

(** The dict module-level [run_test] returns: whether ["preds"] was added
    beside the accumulator. *)
Record TestOutput := mkTestOutput {
  test_has_preds : bool
}.

(** [wrap_jiant_forward(..., compute_loss=False)]: the forward pass runs and
    only the logits of its output are read. *)
Definition wrap_jiant_forward_logits (task_name : string) (batch : Batch) : M unit :=
  emit (ev_forward task_name batch false).

(** Body of the test loop; the accumulator is updated with [batch_loss=0]. *)
Definition test_body (task_name : string) (batch : Batch) (_ : unit) : M unit :=
  wrap_jiant_forward_logits task_name batch;;
  emit (ev_accumulator_update batch 0%Q).

(** Module-level [run_test]; [test_dataloader] is a finite stream. *)
Definition run_test (test_dataloader : list Batch) (task_name : string)
    (local_rank : Z) (return_preds : bool) : M (option TestOutput) :=
  if negb (local_rank =? -1)%Z then mret None
  else
    emit ev_model_eval;;
    for_each test_dataloader (test_body task_name) tt;;
    mret (Some {| test_has_preds := return_preds |}).

(** What is read from a cache: the batches
    [get_eval_dataloader_from_cache(eval_cache, task, eval_batch_size,
    subset_num)] iterates over, and the labels of [get_all()]. *)
Record CacheReaders := mkCacheReaders {
  get_eval_dataloader_from_cache : Cache -> string -> Z -> option Z -> list Batch;
  get_all : Cache -> list Z
}.

(** [xs[:stop]] on a list. *)
Definition py_slice_to {A} (stop : Z) (xs : list A) : list A :=
  if (0 <=? stop)%Z then take (Z.to_nat stop) xs
  else take (length xs - Z.to_nat (- stop)) xs.

Module JiantRunnerEvaluation.
Section Methods.
Context (E : Collaborators) (R : CacheReaders) (c : EvalTaskContainer).
Context (PHASE_TEST : string) (local_rank : Z).

(** One iteration of the loop of [_get_eval_dataloader_dict]. *)
Definition eval_dataloader_entry (phase : string) (use_subset : bool)
    (task_name : string) (val_dataloader_dict : gmap string (list Batch))
  : M (gmap string (list Batch)) :=
  task ← getitem (task_dict c) task_name;
  caches ← getitem (task_cache_dict c) task_name;
  eval_cache ← getitem caches phase;
  task_specific_config ← getitem (eval_specific_configs c) task_name;
  mret (<[task_name :=
            get_eval_dataloader_from_cache R eval_cache task
              (eval_batch_size task_specific_config)
              (if use_subset then Some (eval_subset_num task_specific_config)
               else None)]> val_dataloader_dict).

Definition _get_eval_dataloader_dict (phase : string) (task_name_list : list string)
    (use_subset : bool) : M (gmap string (list Batch)) :=
  for_each task_name_list (eval_dataloader_entry phase use_subset) ∅.

Definition get_val_dataloader_dict (task_name_list : list string) (use_subset : bool)
  : M (gmap string (list Batch)) :=
  _get_eval_dataloader_dict "val" task_name_list use_subset.

(** One iteration of the loop of [get_val_labels_dict]. *)
Definition val_labels_entry (use_subset : bool) (task_name : string)
    (val_labels_dict : gmap string (list Z)) : M (gmap string (list Z)) :=
  task_specific_config ← getitem (eval_specific_configs c) task_name;
  caches ← getitem (task_cache_dict c) task_name;
  val_labels_cache ← getitem caches "val_labels";
  let val_labels := get_all R val_labels_cache in
  let val_labels :=
    if use_subset then py_slice_to (eval_subset_num task_specific_config) val_labels
    else val_labels in
  mret (<[task_name := val_labels]> val_labels_dict).

Definition get_val_labels_dict (task_name_list : list string) (use_subset : bool)
  : M (gmap string (list Z)) :=
  for_each task_name_list (val_labels_entry use_subset) ∅.

Definition get_test_dataloader_dict : M (gmap string (list Batch)) :=
  _get_eval_dataloader_dict PHASE_TEST (test_task_list c) false.

(** One iteration of the loop of the method [run_val]. *)
Definition run_val_entry (val_dataloader_dict : gmap string (list Batch))
    (val_labels_dict : gmap string (list Z)) (return_preds : bool)
    (task_name : string) (evaluate_dict : gmap string (option EvalOutput))
  : M (gmap string (option EvalOutput)) :=
  task ← getitem (task_dict c) task_name;
  val_dataloader ← getitem val_dataloader_dict task_name;
  _ ← getitem val_labels_dict task_name;
  output ← run_val E val_dataloader task local_rank return_preds;
  mret (<[task_name := output]> evaluate_dict).

(** The method [JiantRunner.run_val]. *)
Definition run_val (task_name_list : list string) (use_subset return_preds : bool)
  : M (gmap string (option EvalOutput)) :=
  val_dataloader_dict ← get_val_dataloader_dict task_name_list use_subset;
  val_labels_dict ← get_val_labels_dict task_name_list use_subset;
  for_each task_name_list (run_val_entry val_dataloader_dict val_labels_dict return_preds) ∅.

(** One iteration of the loop of the method [run_test]. *)
Definition run_test_entry (test_dataloader_dict : gmap string (list Batch))
    (task_name : string) (evaluate_dict : gmap string (option TestOutput))
  : M (gmap string (option TestOutput)) :=
  task ← getitem (task_dict c) task_name;
  test_dataloader ← getitem test_dataloader_dict task_name;
  output ← run_test test_dataloader task local_rank true;
  mret (<[task_name := output]> evaluate_dict).

(** The method [JiantRunner.run_test]. *)
Definition run_test (task_name_list : list string)
  : M (gmap string (option TestOutput)) :=
  test_dataloader_dict ← get_test_dataloader_dict;
  for_each task_name_list (run_test_entry test_dataloader_dict) ∅.
End Methods.
End JiantRunnerEvaluation.

(** Events of an evaluation: the switch to evaluation mode, forward passes
    and accumulator updates. *)
Definition is_eval_event (e : event) : bool :=
  match e with
  | ev_model_eval | ev_forward _ _ _ | ev_accumulator_update _ _ => true
  | _ => false
  end.

(** [evaluates w w' evs]: from [w] to [w'] only evaluation events [evs]
    happened; the [TrainState], the weights, the gradient buffers, the
    sampler and the training streams are as before. *)
Record evaluates (w w' : World) (evs : list event) : Prop := mkEvaluates {
  evl_trace : trace w' = trace w ++ evs;
  evl_events : forallb is_eval_event evs = true;
  evl_train_state : train_state w' = train_state w;
  evl_weights : weights_version w' = weights_version w;
  evl_grad_buf : grad_buf w' = grad_buf w;
  evl_sampler_pos : sampler_pos w' = sampler_pos w;
  evl_stream_pos : stream_pos w' = stream_pos w
}.

(** The stream [_get_eval_dataloader_dict] builds for a task, when the
    container has all it looks up. *)
Definition eval_dataloader_of (R : CacheReaders) (c : EvalTaskContainer)
    (phase : string) (use_subset : bool) (task_name : string) : option (list Batch) :=
  match task_dict c !! task_name, task_cache_dict c !! task_name,
        eval_specific_configs c !! task_name with
  | Some task, Some caches, Some cfg =>
      match caches !! phase with
      | Some eval_cache =>
          Some (get_eval_dataloader_from_cache R eval_cache task (eval_batch_size cfg)
                  (if use_subset then Some (eval_subset_num cfg) else None))
      | None => None
      end
  | _, _, _ => None
  end.

(** The labels [get_val_labels_dict] stores for a task, when the container
    has all it looks up. *)
Definition val_labels_of (R : CacheReaders) (c : EvalTaskContainer)
    (use_subset : bool) (task_name : string) : option (list Z) :=
  match eval_specific_configs c !! task_name, task_cache_dict c !! task_name with
  | Some cfg, Some caches =>
      match caches !! "val_labels" with
      | Some val_labels_cache =>
          Some (if use_subset
                then py_slice_to (eval_subset_num cfg) (get_all R val_labels_cache)
                else get_all R val_labels_cache)
      | None => None
      end
  | _, _ => None
  end.

(** The events of the test loop over a stream. *)
Definition test_rounds (task : string) (batches : list Batch) : list event :=
  flat_map (fun batch => [ev_forward task batch false; ev_accumulator_update batch 0%Q])
    batches.

(* ===================================================================== *)
(** * CheckpointSaver *)
(* ===================================================================== *)

(** [s.endswith("/")]. *)
Fixpoint endswith_sep (s : string) : bool :=
  match s with
  | EmptyString => false
  | String _ EmptyString => String.eqb s "/"
  | String _ s' => endswith_sep s'
  end.

(** [os.path.join(a, b)] on POSIX paths. *)
Definition path_join (a b : string) : string :=
  if String.prefix "/" b then b
  else if String.eqb a "" || endswith_sep a then a +:+ b
  else a +:+ "/" +:+ b.

Section Checkpoints.
Context (State Metadata : Type).

(** The dict [to_save] that one checkpoint file holds. *)
Record Checkpoint := mkCheckpoint {
  ckpt_runner_state : State;
  ckpt_metarunner_state : State;
  ckpt_metadata : Metadata
}.

Record CheckpointSaver := mkCheckpointSaver {
  metadata : Metadata;
  output_dir : string;
  multiple_checkpoints : bool;
  save_count : Z
}.

(** [CheckpointSaver.__init__]. *)
Definition CheckpointSaver_init (metadata : Metadata) (output_dir : string)
    (multiple_checkpoints : bool) : CheckpointSaver :=
  {| metadata := metadata; output_dir := output_dir;
     multiple_checkpoints := multiple_checkpoints; save_count := 0 |}.

(** Modelled from the spec: [torch_utils.safe_save] is absent from the
    source at hand.  By the spec a save persists the record at its
    destination, where it replaces what was there. *)
Definition safe_save (obj : Checkpoint) (path : string)
    (files : gmap string Checkpoint) : gmap string Checkpoint :=
  <[path := obj]> files.

(** [CheckpointSaver.save]; the saver after the call and the files. *)
Definition save (self : CheckpointSaver) (runner_state metarunner_state : State)
    (files : gmap string Checkpoint) : CheckpointSaver * gmap string Checkpoint :=
  let to_save :=
    {| ckpt_runner_state := runner_state; ckpt_metarunner_state := metarunner_state;
       ckpt_metadata := metadata self |} in
  if multiple_checkpoints self then
    let save_path :=
      path_join (output_dir self) ("checkpoint_" +:+ pretty (save_count self) +:+ ".p") in
    let self :=
      {| metadata := metadata self; output_dir := output_dir self;
         multiple_checkpoints := multiple_checkpoints self;
         save_count := save_count self + 1 |} in
    (self, safe_save to_save save_path files)
  else
    let save_path := path_join (output_dir self) "checkpoint.p" in
    (self, safe_save to_save save_path files).

(** Successive [save] calls on one saver, one per pair of states. *)
Definition save_all (self : CheckpointSaver) (states : list (State * State))
    (files : gmap string Checkpoint) : CheckpointSaver * gmap string Checkpoint :=
  foldl (fun '(self, files) '(runner_state, metarunner_state) =>
           save self runner_state metarunner_state files)
        (self, files) states.
End Checkpoints.

Arguments mkCheckpoint {State Metadata}.
Arguments metadata {Metadata}.
Arguments output_dir {Metadata}.
Arguments multiple_checkpoints {Metadata}.
Arguments save_count {Metadata}.
Arguments CheckpointSaver_init {Metadata}.
Arguments save {State Metadata}.
Arguments save_all {State Metadata}.

(** The file the [n]-th numbered save goes to. *)
Definition numbered_path (dir : string) (n : Z) : string :=
  path_join dir ("checkpoint_" +:+ pretty n +:+ ".p").

(** The per-task counters of a [TrainState], added up. *)
Definition total_task_steps (ts : TrainState) : Z :=
  map_fold (fun _ n acc => (n + acc)%Z) 0%Z (task_steps ts).

(* ===================================================================== *)
(** * A sample run *)
(* ===================================================================== *)

(** A two-task container with concrete collaborators, on which the
    theorems below are exercised. *)
Module Sample.
Definition batch (t : string) (i : nat) : Batch :=
  {| batch_len := 2; input_ids_rows := 2; label_id := [0; 1]%Z;
     example_id := [Z.of_nat (2 * i); Z.of_nat (2 * i + 1)] |}.

(** The sampler alternates between the two tasks; every forward pass
    yields a loss of one half per example. *)
Definition E : Collaborators :=
  {| sampler_draw := fun n => if Nat.even n then "mnli" else "rte";
     stream_batch := batch;
     model_loss := fun _ _ b unreduced =>
       {| shape := if unreduced then [batch_len b] else []; mean := 1 # 2 |};
     backpropagated_loss := fun loss k => (loss / inject_Z k)%Q;
     dds_weight_logits := fun _ b => repeat 1%Q (batch_len b);
     weighted_mean := fun _ loss => mean loss;
     dds_rl_loss := fun _ _ _ => 1 # 4 |}.

Definition configs (mnli_accumulation : Z) : gmap string TaskSpecificConfig :=
  <["mnli" := mkTaskSpecificConfig mnli_accumulation]>
    (<["rte" := mkTaskSpecificConfig 1]> ∅).

Definition container : JiantTaskContainer :=
  {| task_specific_configs := configs 2;
     train_task_list := ["mnli"; "rte"];
     max_steps := 3;
     sampler_task_dict := ["mnli"; "rte"] |}.

(** The same, without accumulation. *)
Definition plain_container : JiantTaskContainer :=
  {| task_specific_configs := configs 1;
     train_task_list := ["mnli"; "rte"];
     max_steps := 3;
     sampler_task_dict := ["mnli"; "rte"] |}.

(** A world at the start of training. *)
Definition world (ts : TrainState) (polls : nat) : World :=
  {| train_state := ts;
     sampler_pos := polls;
     stream_pos := <["mnli" := 0]> (<["rte" := 0]> ∅);
     grad_buf := [];
     weights_version := 0;
     trace := [] |}.

Definition fresh : World := world (from_task_name_list ["mnli"; "rte"]) 0.

(** A state restored from a checkpoint taken after the first step. *)
Definition restored : World :=
  world {| global_steps := 1;
           task_steps := <["mnli" := 1%Z]> (<["rte" := 0%Z]> ∅) |} 1.

(** An evaluation stream of a small and a large batch, and a model whose
    loss is 0 on the small one and 1 on the large one. *)
Definition val_dataloader : list Batch :=
  [ {| batch_len := 1; input_ids_rows := 1; label_id := [0]%Z; example_id := [0]%Z |};
    {| batch_len := 3; input_ids_rows := 3; label_id := [1; 1; 0]%Z;
       example_id := [1; 2; 3]%Z |} ].

Definition E_val : Collaborators :=
  {| sampler_draw := sampler_draw E;
     stream_batch := batch;
     model_loss := fun _ _ b _ =>
       {| shape := []; mean := if batch_len b =? 1 then 0 else 1 |};
     backpropagated_loss := backpropagated_loss E;
     dds_weight_logits := dds_weight_logits E;
     weighted_mean := weighted_mean E;
     dds_rl_loss := dds_rl_loss E |}.

(** Sizes and losses of the two batches of [val_dataloader]. *)
Definition val_sized_losses : list (nat * Q) := [(1, 0%Q); (3, 1%Q)].

(** A model that returns a reduced (scalar) loss even when asked for the
    per-example one. *)
Definition E_scalar : Collaborators :=
  {| sampler_draw := sampler_draw E;
     stream_batch := batch;
     model_loss := fun _ _ _ _ => {| shape := []; mean := 1 # 2 |};
     backpropagated_loss := backpropagated_loss E;
     dds_weight_logits := dds_weight_logits E;
     weighted_mean := weighted_mean E;
     dds_rl_loss := dds_rl_loss E |}.

(** A model whose unreduced loss has the right shape on the first batch of
    a stream only. *)
Definition E_late : Collaborators :=
  {| sampler_draw := sampler_draw E;
     stream_batch := batch;
     model_loss := fun _ _ b _ =>
       {| shape := match example_id b with
                   | 0%Z :: _ => [batch_len b]
                   | _ => []
                   end;
          mean := 1 # 2 |};
     backpropagated_loss := backpropagated_loss E;
     dds_weight_logits := dds_weight_logits E;
     weighted_mean := weighted_mean E;
     dds_rl_loss := dds_rl_loss E |}.

(** The evaluation side of the container: two tasks with validation data,
    of which only [rte] has a test set. *)
Definition eval_container : EvalTaskContainer :=
  {| task_dict := <["mnli" := "mnli"]> (<["rte" := "rte"]> ∅);
     task_cache_dict :=
       <["mnli" := <["val" := 0]> (<["val_labels" := 1]> ∅)]>
         (<["rte" := <["val" := 2]> (<["val_labels" := 3]> (<["test" := 4]> ∅))]> ∅);
     eval_specific_configs :=
       <["mnli" := mkEvalSpecificConfig 2 1]> (<["rte" := mkEvalSpecificConfig 2 1]> ∅);
     test_task_list := ["rte"] |}.

(** The tables of the container on the training side. *)
Definition tables : EvalTaskContainer :=
  {| task_dict := <["mnli" := "mnli"]> (<["rte" := "rte"]> ∅);
     task_cache_dict :=
       <["mnli" := <["train" := 5]> ∅]> (<["rte" := <["train" := 6]> ∅]> ∅);
     eval_specific_configs := ∅;
     test_task_list := [] |}.

(** Caches of two batches each, one when a subset is asked for. *)
Definition R : CacheReaders :=
  {| get_eval_dataloader_from_cache := fun _ task _ subset_num =>
       match subset_num with
       | Some _ => [batch task 0]
       | None => [batch task 0; batch task 1]
       end;
     get_all := fun _ => [0; 1; 0; 1]%Z |}.
End Sample.

(* ===================================================================== *)
(** * TrainState *)
(* ===================================================================== *)

Ltac unfold_monad :=
  unfold mbind, M_bind, bind, mret, M_ret, ret in *.

Lemma foldl_insert_lookup {V} (v : V) (l : list string) (d : gmap string V) (t : string) :
  foldl (fun d task_name => <[task_name := v]> d) d l !! t =
  if bool_decide (t ∈ l) then Some v else d !! t.
Proof.
  revert d. induction l as [|a l IH]; intros d; simpl.
  - reflexivity.
  - rewrite IH. destruct (decide (t = a)) as [->|Hne].
    + rewrite lookup_insert_eq.
      rewrite (bool_decide_eq_true_2 (a ∈ a :: l)) by apply list_elem_of_here.
      by destruct (bool_decide (a ∈ l)).
    + rewrite lookup_insert_ne by done.
      destruct (decide (t ∈ l)) as [Hin|Hnin].
      * rewrite (bool_decide_eq_true_2 (t ∈ l)) by done.
        rewrite (bool_decide_eq_true_2 (t ∈ a :: l)); [done|].
        by apply list_elem_of_further.
      * rewrite (bool_decide_eq_false_2 (t ∈ l)) by done.
        rewrite (bool_decide_eq_false_2 (t ∈ a :: l)); [done|].
        by apply not_elem_of_cons.
Qed.

Lemma from_task_name_list_lookup (l : list string) (t : string) :
  task_steps (from_task_name_list l) !! t = if bool_decide (t ∈ l) then Some 0%Z else None.
Proof. unfold from_task_name_list; simpl. by rewrite foldl_insert_lookup, lookup_empty. Qed.

Lemma step_lookup (t t' : string) (ts ts' : TrainState) :
  step t ts = Return ts' ->
  is_Some (task_steps ts' !! t') <-> is_Some (task_steps ts !! t').
Proof.
  unfold step. destruct (task_steps ts !! t) as [n|] eqn:Hn; [|done].
  intros [= <-]; simpl. destruct (decide (t = t')) as [->|Hne].
  - rewrite lookup_insert_eq, Hn. split; eauto.
  - by rewrite lookup_insert_ne.
Qed.

Lemma created_over_tracked (T : list string) (ts : TrainState) (t : string) :
  created_over T ts -> is_Some (task_steps ts !! t) <-> t ∈ T.
Proof.
  induction 1 as [|ts t0 ts' _ IH Hstep].
  - rewrite from_task_name_list_lookup. case_bool_decide; split; eauto.
    + by intros [? ?].
    + done.
  - rewrite <- IH. by eapply step_lookup.
Qed.

(* ===================================================================== *)
(** * Lemmas on traces and loops *)
(* ===================================================================== *)

Lemma count_events_app (p : event -> bool) (l1 l2 : list event) :
  count_events p (l1 ++ l2) = count_events p l1 + count_events p l2.
Proof. induction l1 as [|e l1 IH]; simpl; [done | rewrite IH; lia]. Qed.

Lemma returned_losses_app (E : Collaborators) (l1 l2 : list event) :
  returned_losses E (l1 ++ l2) = returned_losses E l1 ++ returned_losses E l2.
Proof.
  induction l1 as [|e l1 IH]; simpl; [done|].
  destruct e; simpl; try done. by rewrite IH.
Qed.

Lemma Qsum_app (l1 l2 : list Q) : (Qsum (l1 ++ l2) == Qsum l1 + Qsum l2)%Q.
Proof.
  induction l1 as [|x l1 IH]; simpl.
  - by rewrite Qplus_0_l.
  - rewrite IH. apply Qplus_assoc.
Qed.

Lemma count_events_excluded (P : event -> Prop) (p : event -> bool) (evs : list event) :
  Forall P evs -> (forall e, P e -> p e = false) -> count_events p evs = 0.
Proof.
  intros HP Hex. induction HP as [|e evs He _ IH]; simpl; [done|].
  by rewrite (Hex e He), IH.
Qed.

Lemma accumulates_refl (E : Collaborators) (acc : Q) (w : World) :
  accumulates E acc w acc w [].
Proof.
  split; simpl; try done.
  - by rewrite app_nil_r.
  - by rewrite Qplus_0_r.
Qed.

Lemma accumulates_trans (E : Collaborators) (a0 a1 a2 : Q) (w0 w1 w2 : World)
    (evs1 evs2 : list event) :
  accumulates E a0 w0 a1 w1 evs1 ->
  accumulates E a1 w1 a2 w2 evs2 ->
  accumulates E a0 w0 a2 w2 (evs1 ++ evs2).
Proof.
  intros [T1 L1 S1 P1 W1 N1 C1 G1] [T2 L2 S2 P2 W2 N2 C2 G2].
  split; try congruence.
  - by rewrite T2, T1, app_assoc.
  - rewrite L2, L1, returned_losses_app, Qsum_app. by rewrite Qplus_assoc.
  - rewrite count_events_app; lia.
  - rewrite count_events_app; lia.
  - rewrite count_events_app; lia.
Qed.

Lemma micro_event_quiet (t : string) (e : event) :
  micro_event t e ->
  is_weights_update e = false /\ is_zero_grad e = false /\ is_write_entry e = false /\
  is_sampler_pop e = false /\ is_file_append e = false /\ is_inner_step e = false /\
  is_optimizer_step e = false.
Proof. destruct e; simpl; intros; try done. Qed.

Lemma micro_batches_events (E : Collaborators) (t : string) (k : Z)
    (past : list event) (i n : nat) (evs : list event) :
  micro_batches E t k past i n evs ->
  Forall (micro_event t) evs /\
  count_events is_stream_pop evs = n /\
  count_events is_forward evs = n /\
  count_events is_backpropagate evs = n.
Proof.
  induction 1 as [|past i n evs batch loss round _ (IH1 & IH2 & IH3 & IH4)]; simpl.
  - by split_and!.
  - split_and!; [|lia..]. repeat constructor. done.
Qed.

Lemma micro_batch_run (E : Collaborators) (t : string) (gas : Z) (acc : Q)
    (w : World) (i : nat) :
  stream_pos w !! t = Some i ->
  let batch := stream_batch E t i in
  let loss := mean (model_loss E (trace w ++ [ev_stream_pop t i]) t batch false) in
  JiantRunner.micro_batch E t gas acc w =
  Ok (acc + backpropagated_loss E loss gas)%Q
     (record_event (ev_backpropagate t loss gas)
        (set_grad_buf (grad_buf w ++ [t])
           (record_event (ev_forward t batch false)
              (record_event (ev_stream_pop t i)
                 (set_stream_pos (<[t := S i]> (stream_pos w)) w))))).
Proof.
  intros Hpos. unfold JiantRunner.micro_batch, dataloader_pop. unfold_monad.
  by rewrite Hpos.
Qed.

Lemma micro_loop_spec (E : Collaborators) (t : string) (gas : Z) (n : nat) :
  forall (acc : Q) (w : World) (i : nat),
    stream_pos w !! t = Some i ->
    exists acc' w' evs,
      for_range n (JiantRunner.micro_batch E t gas) acc w = Ok acc' w' /\
      accumulates E acc w acc' w' evs /\
      micro_batches E t gas (trace w) i n evs /\
      stream_pos w' = <[t := i + n]> (stream_pos w) /\
      grad_buf w' = grad_buf w ++ repeat t n.
Proof.
  induction n as [|n IH]; intros acc w i Hpos.
  - exists acc, w, []. simpl. split_and!; try done.
    + apply accumulates_refl.
    + constructor.
    + rewrite Nat.add_0_r. by rewrite insert_id.
    + by rewrite app_nil_r.
  - simpl. unfold_monad. rewrite (micro_batch_run E t gas acc w i Hpos).
    set (batch := stream_batch E t i).
    set (loss := mean (model_loss E (trace w ++ [ev_stream_pop t i]) t batch false)).
    set (w1 := record_event (ev_backpropagate t loss gas) _).
    destruct (IH (acc + backpropagated_loss E loss gas)%Q w1 (S i))
      as (a2 & w2 & evs2 & Hrun2 & Hacc2 & Hmb2 & Hs2 & Hg2).
    { subst w1. simpl. apply lookup_insert_eq. }
    exists a2, w2,
      ([ev_stream_pop t i; ev_forward t batch false; ev_backpropagate t loss gas] ++ evs2).
    split; [exact Hrun2|].
    destruct (micro_batches_events _ _ _ _ _ _ _ Hmb2) as (Hev & _).
    destruct Hacc2 as [T2 L2 S2 P2 W2 N2 C2 G2].
    split_and!.
    + split; try done.
      * rewrite T2. subst w1. simpl. by rewrite <- !app_assoc.
      * rewrite L2. simpl. by rewrite Qplus_assoc.
    + apply micro_batches_round. subst w1. simpl in Hmb2.
      by rewrite <- !app_assoc in Hmb2.
    + rewrite Hs2. subst w1. simpl. rewrite insert_insert_eq. f_equal. lia.
    + rewrite Hg2. subst w1. simpl. by rewrite <- app_assoc.
Qed.

(* ===================================================================== *)
(** * The base training step *)
(* ===================================================================== *)

(** Full account of one successful base step. *)
Lemma base_step_spec (E : Collaborators) (c : JiantTaskContainer) (w : World)
    (t : string) (cfg : TaskSpecificConfig) (i : nat) (n : Z) :
  sampler_draw E (sampler_pos w) = t ->
  task_specific_configs c !! t = Some cfg ->
  gradient_accumulation_steps cfg ≠ 0%Z ->
  stream_pos w !! t = Some i ->
  task_steps (train_state w) !! t = Some n ->
  exists w' evs loss_val,
    JiantRunner.run_train_step E c w = Ok tt w' /\
    trace w' =
      trace w ++ [ev_model_train; ev_sampler_pop t] ++ evs ++
      [ev_optimizer_step; ev_zero_grad;
       ev_write_entry "loss_train"
         (mkLogRecord t (n + 1) (global_steps (train_state w) + 1) loss_val None)] /\
    micro_batches E t (gradient_accumulation_steps cfg)
      (trace w ++ [ev_model_train; ev_sampler_pop t]) i
      (Z.to_nat (gradient_accumulation_steps cfg)) evs /\
    (loss_val ==
       Qsum (returned_losses E evs) / inject_Z (gradient_accumulation_steps cfg))%Q /\
    train_state w' =
      {| global_steps := global_steps (train_state w) + 1;
         task_steps := <[t := (n + 1)%Z]> (task_steps (train_state w)) |} /\
    sampler_pos w' = S (sampler_pos w) /\
    stream_pos w' =
      <[t := i + Z.to_nat (gradient_accumulation_steps cfg)]> (stream_pos w) /\
    grad_buf w' = [] /\
    weights_version w' = S (weights_version w).
Proof.
  intros Hdraw Hcfg Hgas Hpos Hcount.
  unfold JiantRunner.run_train_step, get_config, getitem, task_sampler_pop, emit.
  unfold_monad. simpl. rewrite Hdraw, Hcfg.
  set (w1 := record_event (ev_sampler_pop t) _).
  destruct (micro_loop_spec E t (gradient_accumulation_steps cfg)
              (Z.to_nat (gradient_accumulation_steps cfg)) 0%Q w1 i)
    as (lv & w2 & evs & Hrun & Hacc & Hmb & Hs & Hg); [exact Hpos|].
  rewrite Hrun. destruct Hacc as [Htr Hloss Hts Hsp Hwv _ _ _].
  unfold optimizer_scheduler_step, zero_grad, train_state_step, get_train_state,
    py_div, write_entry, emit. simpl.
  rewrite Hts. simpl. unfold step. rewrite Hcount. simpl.
  rewrite lookup_insert_eq.
  destruct (Z.eqb_spec (gradient_accumulation_steps cfg) 0) as [|_]; [done|].
  eexists _, evs, (lv / inject_Z (gradient_accumulation_steps cfg))%Q.
  split; [reflexivity|]. simpl.
  split_and!; try done.
  - rewrite Htr. subst w1. simpl. by rewrite <- !app_assoc.
  - subst w1. simpl in Hmb. by rewrite <- !app_assoc in Hmb.
  - rewrite Hloss. by rewrite Qplus_0_l.
  - by rewrite Hwv.
Qed.

Lemma never_decreases_refl (ts : TrainState) : never_decreases ts ts.
Proof. intros t a Ha. exists a. split; [done | lia]. Qed.

Lemma never_decreases_trans (ts1 ts2 ts3 : TrainState) :
  never_decreases ts1 ts2 -> never_decreases ts2 ts3 -> never_decreases ts1 ts3.
Proof.
  intros H12 H23 t a Ha.
  destruct (H12 t a Ha) as (b & Hb & Hab).
  destruct (H23 t b Hb) as (d & Hd & Hbd).
  exists d. split; [done | lia].
Qed.

Lemma step_never_decreases (t : string) (ts ts' : TrainState) :
  step t ts = Return ts' -> never_decreases ts ts'.
Proof.
  unfold step. destruct (task_steps ts !! t) as [n|] eqn:Hn; [|done].
  intros [= <-] t' a Ha. simpl. destruct (decide (t = t')) as [->|Hne].
  - rewrite lookup_insert_eq. exists (n + 1)%Z. split; [done|].
    rewrite Hn in Ha. injection Ha as <-. lia.
  - rewrite lookup_insert_ne by done. exists a. split; [done | lia].
Qed.

(** One base step in a well-configured container, in the terms the
    training contexts need. *)
Lemma base_step_training (E : Collaborators) (c : JiantTaskContainer) (w : World) :
  well_configured E c ->
  training c w ->
  exists w' new,
    JiantRunner.run_train_step E c w = Ok tt w' /\
    training c w' /\
    trace w' = trace w ++ new /\
    count_events is_optimizer_step new = 1 /\
    count_events is_write_entry new = 1 /\
    global_steps (train_state w') = (global_steps (train_state w) + 1)%Z /\
    never_decreases (train_state w) (train_state w') /\
    step (sampler_draw E (sampler_pos w)) (train_state w) = Return (train_state w').
Proof.
  intros [Hcfgs Hdraws] Htr.
  set (t := sampler_draw E (sampler_pos w)).
  destruct (Hcfgs t (Hdraws _)) as (cfg & Hcfg & Hgas).
  destruct (Htr t (Hdraws _)) as ([i Hi] & [n Hn]).
  destruct (base_step_spec E c w t cfg i n eq_refl Hcfg Hgas Hi Hn)
    as (w' & evs & lv & Hrun & Htrace & Hmb & Hlv & Hts & Hsp & Hst & Hg & Hwv).
  destruct (micro_batches_events _ _ _ _ _ _ _ Hmb) as (Hev & _).
  assert (Hstep : step t (train_state w) = Return (train_state w')).
  { unfold step. by rewrite Hn, Hts. }
  eexists w', _. split_and!; [done| |exact Htrace| | | | |done].
  - intros t' Ht'. destruct (Htr t' Ht') as (Hs' & Hc'). split.
    + rewrite Hst. destruct (decide (t = t')) as [->|Hne].
      * rewrite lookup_insert_eq. eauto.
      * by rewrite lookup_insert_ne.
    + by apply (step_lookup _ t' _ _ Hstep).
  - rewrite !count_events_app.
    rewrite (count_events_excluded (micro_event t) _ evs Hev); [done|].
    intros e He. by apply micro_event_quiet in He as (?&?&?&?&?&?&?).
  - rewrite !count_events_app.
    rewrite (count_events_excluded (micro_event t) _ evs Hev); [done|].
    intros e He. by apply micro_event_quiet in He as (?&?&?&?&?&?&?).
  - by rewrite Hts.
  - by eapply step_never_decreases.
Qed.

Lemma train_dataloader_entry_ok (c : JiantTaskContainer) (tables : EvalTaskContainer)
    (t : string) (d : gmap string nat) (w : World) :
  train_entry_gap c tables t = None ->
  JiantRunner.train_dataloader_entry c tables t d w = Ok (<[t := 0]> d) w.
Proof.
  unfold train_entry_gap, JiantRunner.train_dataloader_entry, get_config, getitem.
  unfold_monad.
  destruct (task_dict tables !! t); [|done].
  destruct (task_cache_dict tables !! t) as [caches|]; [|done].
  destruct (caches !! "train"); [|done].
  by destruct (task_specific_configs c !! t).
Qed.

Lemma train_dataloader_entry_gap (c : JiantTaskContainer) (tables : EvalTaskContainer)
    (t k : string) (d : gmap string nat) (w : World) :
  train_entry_gap c tables t = Some k ->
  JiantRunner.train_dataloader_entry c tables t d w = Raise (KeyError k) w.
Proof.
  unfold train_entry_gap, JiantRunner.train_dataloader_entry, get_config, getitem.
  unfold_monad.
  destruct (task_dict tables !! t); [|by intros [= <-]].
  destruct (task_cache_dict tables !! t) as [caches|]; [|by intros [= <-]].
  destruct (caches !! "train"); [|by intros [= <-]].
  destruct (task_specific_configs c !! t); [done|by intros [= <-]].
Qed.

Lemma train_entry_complete (c : JiantTaskContainer) (tables : EvalTaskContainer)
    (t : string) :
  t ∈ train_task_list c ->
  train_data_present c tables ->
  is_Some (task_specific_configs c !! t) ->
  train_entry_gap c tables t = None.
Proof.
  intros Ht Hdata [cfg Hcfg].
  destruct (Hdata t Ht) as ([task Htask] & caches & Hcaches & [cache Hcache]).
  unfold train_entry_gap. by rewrite Htask, Hcaches, Hcache, Hcfg.
Qed.

Lemma train_dataloader_loop_ok (c : JiantTaskContainer) (tables : EvalTaskContainer)
    (l : list string) :
  forall (d : gmap string nat) (w : World),
    (forall t, t ∈ l -> train_entry_gap c tables t = None) ->
    for_each l (JiantRunner.train_dataloader_entry c tables) d w =
    Ok (foldl (fun d task_name => <[task_name := 0]> d) d l) w.
Proof.
  induction l as [|a l IH]; intros d w Hall; [done|].
  cbn [for_each foldl]. unfold_monad.
  rewrite train_dataloader_entry_ok by (apply Hall; left).
  apply IH. intros t Ht. apply Hall. by right.
Qed.

(** With every training task configured and present in the tables,
    [get_train_dataloader_dict] gives each of them a fresh stream and
    touches nothing else. *)
Lemma get_train_dataloader_dict_spec (E : Collaborators) (c : JiantTaskContainer)
    (tables : EvalTaskContainer) (w : World) :
  well_configured E c ->
  train_data_present c tables ->
  exists d,
    JiantRunner.get_train_dataloader_dict c tables w = Ok tt (set_stream_pos d w) /\
    forall t, t ∈ train_task_list c -> d !! t = Some 0.
Proof.
  intros [Hcfgs _] Hdata. unfold JiantRunner.get_train_dataloader_dict.
  exists (foldl (fun d task_name => <[task_name := 0]> d) ∅ (train_task_list c)).
  unfold_monad. rewrite train_dataloader_loop_ok.
  - split; [done|].
    intros t Ht. rewrite foldl_insert_lookup. by rewrite bool_decide_eq_true_2.
  - intros t Ht. apply train_entry_complete; [done..|].
    destruct (Hcfgs t Ht) as (cfg & -> & _). by eexists.
Qed.

(* ===================================================================== *)
(** * The training contexts *)
(* ===================================================================== *)

Lemma advanced_zero (c : JiantTaskContainer) (w : World) :
  training c w -> advanced c 0 w w.
Proof.
  intros Htr. split; [done| | |apply never_decreases_refl|done].
  - exists []. by rewrite app_nil_r.
  - simpl. lia.
Qed.

Lemma advanced_trans (c : JiantTaskContainer) (n m : nat) (w1 w2 w3 : World) :
  advanced c n w1 w2 -> advanced c m w2 w3 -> advanced c (n + m) w1 w3.
Proof.
  intros [_ (new1 & T1 & O1 & L1) G1 D1 C1] [Htr (new2 & T2 & O2 & L2) G2 D2 C2].
  split; [done| | |by eapply never_decreases_trans|by auto].
  - exists (new1 ++ new2). rewrite T2, T1, app_assoc, !count_events_app.
    split_and!; [done|lia..].
  - lia.
Qed.

Lemma context_loop_step (E : Collaborators) (c : JiantTaskContainer) (r : nat)
    (w : World) :
  well_configured E c ->
  training c w ->
  exists w',
    JiantRunner.context_loop (JiantRunner.run_train_step E c) (S r) w =
      Ok (train_state w', gen_suspended r) w' /\
    advanced c 1 w w'.
Proof.
  intros Hwf Htr.
  destruct (base_step_training E c w Hwf Htr)
    as (w' & new & Hrun & Htr' & Htrace & Ho & Hl & Hg & Hd & Hstep).
  exists w'. simpl. unfold_monad. rewrite Hrun. split; [done|].
  split; [done| |simpl; lia|done|].
  - by exists new.
  - intros T HT. by eapply created_step.
Qed.

Section Contexts.
Context (E : Collaborators) (c : JiantTaskContainer).
Context (next : Generator -> M (TrainState * Generator)).
Hypothesis next_suspended :
  forall r, next (gen_suspended r) =
            JiantRunner.context_loop (JiantRunner.run_train_step E c) r.
Hypothesis Hwf : well_configured E c.

Lemma advance_suspended (n : nat) :
  forall (r : nat) (w : World) (last : option TrainState),
    training c w -> n <= r ->
    exists w',
      advance n next (gen_suspended r) last w =
        Ok (match n with O => last | S _ => Some (train_state w') end,
            gen_suspended (r - n)) w' /\
      advanced c n w w'.
Proof.
  induction n as [|n IH]; intros r w last Htr Hle.
  - exists w. simpl. rewrite Nat.sub_0_r. split; [done | by apply advanced_zero].
  - destruct r as [|r]; [lia|].
    destruct (context_loop_step E c r w Hwf Htr) as (w1 & Hrun1 & Hadv1).
    destruct (IH r w1 (Some (train_state w1)) (adv_training _ _ _ _ Hadv1) ltac:(lia))
      as (w2 & Hrun2 & Hadv2).
    exists w2. simpl. unfold_monad. rewrite next_suspended, Hrun1, Hrun2.
    split.
    + destruct n; [|done].
      assert (w1 = w2) as -> by (simpl in Hrun2; unfold_monad; congruence).
      done.
    + apply (advanced_trans c 1 n w w1 w2); done.
Qed.

Lemma for_generator_suspended (r : nat) :
  forall (fuel : nat) (w : World) (yielded : nat),
    training c w -> r < fuel ->
    exists w',
      for_generator fuel next (gen_suspended r) yielded w = Ok (yielded + r) w' /\
      advanced c r w w'.
Proof.
  induction r as [|r IH]; intros fuel w yielded Htr Hlt.
  - destruct fuel as [|fuel]; [lia|]. exists w. simpl.
    rewrite next_suspended. simpl. rewrite Nat.add_0_r.
    split; [done | by apply advanced_zero].
  - destruct fuel as [|fuel]; [lia|].
    destruct (context_loop_step E c r w Hwf Htr) as (w1 & Hrun1 & Hadv1).
    destruct (IH fuel w1 (S yielded) (adv_training _ _ _ _ Hadv1) ltac:(lia))
      as (w2 & Hrun2 & Hadv2).
    exists w2. simpl. rewrite next_suspended, Hrun1, Hrun2.
    split; [f_equal; lia|].
    apply (advanced_trans c 1 r w w1 w2); done.
Qed.

(** Draining a context from the head of its loop with [R] iterations left:
    [R] values are yielded, by [R] base steps. *)
Lemma drain_loop (R : nat) (fuel : nat) (w : World) (yielded : nat) :
  training c w -> R < fuel ->
  exists w',
    match JiantRunner.context_loop (JiantRunner.run_train_step E c) R w with
    | Ok (_, g') w1 => for_generator fuel next g' (S yielded) w1
    | Raise StopIteration w1 => Ok yielded w1
    | Raise e w1 => Raise e w1
    | Diverge => Diverge
    end = Ok (yielded + R) w' /\
    advanced c R w w'.
Proof.
  intros Htr Hlt. destruct R as [|R].
  - exists w. simpl. rewrite Nat.add_0_r. split; [done | by apply advanced_zero].
  - destruct (context_loop_step E c R w Hwf Htr) as (w1 & Hrun1 & Hadv1).
    destruct (for_generator_suspended R fuel w1 (S yielded)
                (adv_training _ _ _ _ Hadv1) ltac:(lia)) as (w2 & Hrun2 & Hadv2).
    exists w2. rewrite Hrun1, Hrun2. split; [f_equal; lia|].
    apply (advanced_trans c 1 R w w1 w2); done.
Qed.

Lemma advance_split (n m : nat) :
  forall (g : Generator) (last : option TrainState) (w : World),
    advance (n + m) next g last w =
    match advance n next g last w with
    | Ok (l, g') w' => advance m next g' l w'
    | Raise e w' => Raise e w'
    | Diverge => Diverge
    end.
Proof.
  induction n as [|n IH]; intros g last w; simpl; [done|].
  unfold_monad. destruct (next g w) as [[a g'] w'|e w'|]; [|done..].
  apply IH.
Qed.
End Contexts.

(** C2.  One call to the base [run_train_step] that finds its task
    configured (accumulation factor [k >= 1]), streamed and tracked: it
    polls the sampler once, runs [k] micro-batch rounds on that task's
    stream (pop, forward, [complex_backpropagate], each batch once), then
    steps the optimizer once, clears the gradients, advances the
    [TrainState] once and writes one ["loss_train"] record holding the task
    name, its step count, the global step count and the sum of the
    per-micro-batch losses divided by [k]. *)
Theorem run_train_step_one_update (E : Collaborators) (c : JiantTaskContainer)
    (w : World) (cfg : TaskSpecificConfig) (i : nat) (n : Z)
    (Hcfg : task_specific_configs c !! sampler_draw E (sampler_pos w) = Some cfg)
    (Hgas : (0 < gradient_accumulation_steps cfg)%Z)
    (Hpos : stream_pos w !! sampler_draw E (sampler_pos w) = Some i)
    (Hcount : task_steps (train_state w) !! sampler_draw E (sampler_pos w) = Some n) :
  let t := sampler_draw E (sampler_pos w) in
  let k := gradient_accumulation_steps cfg in
  exists w' rounds record,
    let new := [ev_model_train; ev_sampler_pop t] ++ rounds ++
               [ev_optimizer_step; ev_zero_grad; ev_write_entry "loss_train" record] in
    JiantRunner.run_train_step E c w = Ok tt w' /\
    trace w' = trace w ++ new /\
    micro_batches E t k (trace w ++ [ev_model_train; ev_sampler_pop t]) i (Z.to_nat k) rounds /\
    count_events is_sampler_pop new = 1 /\
    count_events is_stream_pop new = Z.to_nat k /\
    count_events is_backpropagate new = Z.to_nat k /\
    count_events is_optimizer_step new = 1 /\
    count_events is_zero_grad new = 1 /\
    count_events is_write_entry new = 1 /\
    sampler_pos w' = S (sampler_pos w) /\
    stream_pos w' = <[t := i + Z.to_nat k]> (stream_pos w) /\
    weights_version w' = S (weights_version w) /\
    grad_buf w' = [] /\
    step t (train_state w) = Return (train_state w') /\
    log_task record = t /\
    task_steps (train_state w') !! t = Some (log_task_step record) /\
    log_task_step record = (n + 1)%Z /\
    log_global_step record = global_steps (train_state w') /\
    log_global_step record = (global_steps (train_state w) + 1)%Z /\
    (log_loss_val record == Qsum (returned_losses E new) / inject_Z k)%Q.
Proof.
  intros t k.
  destruct (base_step_spec E c w t cfg i n eq_refl Hcfg ltac:(lia) Hpos Hcount)
    as (w' & evs & lv & Hrun & Htr & Hmb & Hlv & Hts & Hsp & Hst & Hg & Hwv).
  destruct (micro_batches_events _ _ _ _ _ _ _ Hmb) as (Hev & Hp & _ & Hb).
  pose proof (fun p H => count_events_excluded (micro_event t) p evs Hev H) as Hzero.
  exists w', evs, (mkLogRecord t (n + 1) (global_steps (train_state w) + 1) lv None).
  cbv zeta.
  assert (Hq : forall p, count_events p
             ([ev_model_train; ev_sampler_pop t] ++ evs ++
              [ev_optimizer_step; ev_zero_grad;
               ev_write_entry "loss_train"
                 (mkLogRecord t (n + 1) (global_steps (train_state w) + 1) lv None)]) =
           count_events p [ev_model_train; ev_sampler_pop t] + count_events p evs +
           count_events p [ev_optimizer_step; ev_zero_grad;
               ev_write_entry "loss_train"
                 (mkLogRecord t (n + 1) (global_steps (train_state w) + 1) lv None)]).
  { intros p. rewrite !count_events_app. lia. }
  split_and!; try done.
  - rewrite Hq, Hzero; [done|]. intros e He. by apply micro_event_quiet in He as (?&?&?&?&?).
  - rewrite Hq, Hp. simpl. lia.
  - rewrite Hq, Hb. simpl. lia.
  - rewrite Hq, Hzero; [done|]. intros e He. by apply micro_event_quiet in He as (?&?&?&?&?&?&?).
  - rewrite Hq, Hzero; [done|]. intros e He. by apply micro_event_quiet in He as (?&?&?&?&?).
  - rewrite Hq, Hzero; [done|]. intros e He. by apply micro_event_quiet in He as (?&?&?&?&?).
  - unfold step. fold t in Hcount. by rewrite Hcount, Hts.
  - rewrite Hts. simpl. apply lookup_insert_eq.
  - by rewrite Hts.
  - cbn [log_loss_val]. rewrite !returned_losses_app.
    cbn [returned_losses app]. rewrite app_nil_r. exact Hlv.
Qed.

Lemma run_train_step_one_update_witness :
  exists w' record,
    JiantRunner.run_train_step Sample.E Sample.container Sample.fresh = Ok tt w' /\
    count_events is_backpropagate (trace w') = 2 /\
    count_events is_optimizer_step (trace w') = 1 /\
    count_events is_write_entry (trace w') = 1 /\
    log_task record = "mnli" /\
    log_global_step record = 1%Z.
Proof.
  destruct (run_train_step_one_update Sample.E Sample.container Sample.fresh
              (mkTaskSpecificConfig 2) 0 0%Z)
    as (w' & rounds & record & Hrun & Htr & _ & _ & _ & Hb & Ho & _ & Hl & _ & _ & _ & _ &
        _ & Ht & _ & _ & _ & Hg & _).
  - vm_compute. reflexivity.
  - simpl. lia.
  - vm_compute. reflexivity.
  - vm_compute. reflexivity.
  - exists w', record. rewrite Htr. split_and!; assumption.
Defined.

(** The first [N >= 1] advances of [run_train_context()]: the generator
    builds the streams and a fresh [TrainState], then takes [N] steps. *)
Lemma run_train_context_advance (E : Collaborators) (c : JiantTaskContainer)
    (tables : EvalTaskContainer) (w0 : World) (N : nat) :
  well_configured E c ->
  train_data_present c tables ->
  1 <= N <= Z.to_nat (max_steps c) ->
  exists w',
    advance N (JiantRunner.run_train_context c tables (JiantRunner.run_train_step E c))
      gen_created None w0 =
      Ok (Some (train_state w'), gen_suspended (Z.to_nat (max_steps c) - N)) w' /\
    training c w' /\
    global_steps (train_state w') = Z.of_nat N /\
    created_over (train_task_list c) (train_state w').
Proof.
  intros Hwf Hdata [HN1 HN2].
  destruct N as [|n]; [lia|].
  destruct (Z.to_nat (max_steps c)) as [|r] eqn:Hmax; [lia|].
  destruct (get_train_dataloader_dict_spec E c tables w0 Hwf Hdata) as (d & Hd & Hdall).
  set (w1 := set_train_state (from_task_name_list (train_task_list c))
               (set_stream_pos d w0)).
  assert (Htr1 : training c w1).
  { intros t Ht. subst w1; simpl. split.
    - rewrite (Hdall t Ht). eauto.
    - rewrite foldl_insert_lookup, bool_decide_eq_true_2 by done. eauto. }
  destruct (context_loop_step E c r w1 Hwf Htr1) as (w2 & Hrun2 & Hadv2).
  destruct (advance_suspended E c
              (JiantRunner.run_train_context c tables (JiantRunner.run_train_step E c))
              (fun _ => eq_refl) Hwf n r w2 (Some (train_state w2))
              (adv_training _ _ _ _ Hadv2) ltac:(lia)) as (w3 & Hrun3 & Hadv3).
  exists w3.
  pose proof (advanced_trans c 1 n w1 w2 w3 Hadv2 Hadv3) as Hadv.
  split_and!.
  - cbn [advance]. unfold_monad. cbn [JiantRunner.run_train_context].
    unfold_monad. rewrite Hd. unfold put_train_state. rewrite Hmax.
    fold w1. rewrite Hrun2, Hrun3. f_equal. f_equal.
    destruct n; [|done].
    assert (w2 = w3) as -> by (simpl in Hrun3; unfold_monad; congruence). done.
  - apply Hadv.
  - rewrite (adv_global _ _ _ _ Hadv). subst w1; simpl. lia.
  - apply (adv_created _ _ _ _ Hadv). subst w1; simpl. constructor.
Qed.

(** C1.  On a [TrainState] created by [from_task_name_list] over [T] (and
    advanced since), [step(t)] with [t] in [T] adds exactly 1 to
    [task_steps[t]] and to [global_steps] and leaves the other counters
    alone, and [step(t)] with [t] outside [T] raises [KeyError].  So, in a
    well-configured container whose tables hold the task and the ["train"]
    cache of every training task, [N] advances of [run_train_context()]
    ([1 <= N <= max_steps]) yield a state whose [global_steps] is [N], and no
    per-task counter is lower at any later advance. *)
Theorem train_state_counts (E : Collaborators) (c : JiantTaskContainer)
    (tables : EvalTaskContainer)
    (T : list string) (ts : TrainState) (w0 : World) (N : nat)
    (Hts : created_over T ts)
    (Hwf : well_configured E c)
    (Hdata : train_data_present c tables)
    (HN : 1 <= N <= Z.to_nat (max_steps c)) :
  (forall t, t ∈ T ->
     exists n ts',
       task_steps ts !! t = Some n /\
       step t ts = Return ts' /\
       task_steps ts' !! t = Some (n + 1)%Z /\
       global_steps ts' = (global_steps ts + 1)%Z /\
       (forall t', t' ≠ t -> task_steps ts' !! t' = task_steps ts !! t') /\
       created_over T ts') /\
  (forall t, t ∉ T -> step t ts = Throw (KeyError t)) /\
  (let next := JiantRunner.run_train_context c tables (JiantRunner.run_train_step E c) in
   exists g w,
     advance N next gen_created None w0 = Ok (Some (train_state w), g) w /\
     global_steps (train_state w) = Z.of_nat N /\
     created_over (train_task_list c) (train_state w) /\
     forall N', N <= N' <= Z.to_nat (max_steps c) ->
       exists g' w',
         advance N' next gen_created None w0 = Ok (Some (train_state w'), g') w' /\
         never_decreases (train_state w) (train_state w')).
Proof.
  split_and!.
  - intros t Ht. apply (created_over_tracked T ts t Hts) in Ht as [n Hn].
    exists n. eexists. split; [done|]. unfold step. rewrite Hn.
    split; [done|]. simpl. split_and!; try done.
    + apply lookup_insert_eq.
    + intros t' Hne. by rewrite lookup_insert_ne.
    + eapply created_step; [exact Hts|]. unfold step. by rewrite Hn.
  - intros t Ht. unfold step.
    destruct (task_steps ts !! t) as [n|] eqn:Hn; [|done].
    exfalso. apply Ht. apply (created_over_tracked T ts t Hts). eauto.
  - intros next. subst next.
    set (next := JiantRunner.run_train_context c tables (JiantRunner.run_train_step E c)).
    destruct (run_train_context_advance E c tables w0 N Hwf Hdata HN)
      as (w & Hrun & Htr & Hg & Hc).
    fold next in Hrun.
    eexists _, w. split_and!; [exact Hrun|done|done|].
    intros N' [HN1 HN2].
    destruct (advance_suspended E c next (fun _ => eq_refl) Hwf (N' - N)
                (Z.to_nat (max_steps c) - N) w (Some (train_state w)) Htr ltac:(lia))
      as (w' & Hrun' & Hadv').
    exists (gen_suspended (Z.to_nat (max_steps c) - N - (N' - N))), w'.
    split; [|apply Hadv'].
    replace N' with (N + (N' - N)) at 1 by lia.
    rewrite advance_split, Hrun, Hrun'. f_equal. f_equal.
    destruct (N' - N); [|done].
    assert (w = w') as -> by (simpl in Hrun'; unfold_monad; congruence). done.
Qed.

Lemma sample_well_configured : well_configured Sample.E Sample.container.
Proof.
  split.
  - intros t Ht. simpl in Ht.
    apply elem_of_cons in Ht as [->|Ht]; [|apply elem_of_cons in Ht as [->|Ht]].
    + exists (mkTaskSpecificConfig 2). split; [vm_compute; reflexivity | done].
    + exists (mkTaskSpecificConfig 1). split; [vm_compute; reflexivity | done].
    + by apply elem_of_nil in Ht.
  - intros n. simpl. destruct (Nat.even n).
    + apply list_elem_of_here.
    + apply list_elem_of_further, list_elem_of_here.
Qed.

Lemma sample_train_data_present : train_data_present Sample.container Sample.tables.
Proof.
  intros t Ht. simpl in Ht.
  apply elem_of_cons in Ht as [->|Ht]; [|apply elem_of_cons in Ht as [->|Ht]].
  - split; [by eexists|]. eexists. split; [vm_compute; reflexivity|by eexists].
  - split; [by eexists|]. eexists. split; [vm_compute; reflexivity|by eexists].
  - by apply elem_of_nil in Ht.
Qed.

Lemma train_state_counts_witness :
  (exists ts', step "rte" (from_task_name_list ["mnli"; "rte"]) = Return ts' /\
               task_steps ts' !! "rte" = Some 1%Z /\ global_steps ts' = 1%Z) /\
  step "sst" (from_task_name_list ["mnli"; "rte"]) = Throw (KeyError "sst") /\
  exists g w,
    advance 2
      (JiantRunner.run_train_context Sample.container Sample.tables
         (JiantRunner.run_train_step Sample.E Sample.container))
      gen_created None Sample.fresh = Ok (Some (train_state w), g) w /\
    global_steps (train_state w) = 2%Z.
Proof.
  destruct (train_state_counts Sample.E Sample.container Sample.tables ["mnli"; "rte"]
              (from_task_name_list ["mnli"; "rte"]) Sample.fresh 2)
    as (Hin & Hout & Hrun).
  - constructor.
  - exact sample_well_configured.
  - exact sample_train_data_present.
  - vm_compute. lia.
  - split_and!.
    + destruct (Hin "rte") as (n & ts' & Hn & Hstep & Ht & Hg & _).
      { apply list_elem_of_further, list_elem_of_here. }
      exists ts'. vm_compute in Hn. injection Hn as <-. split_and!; assumption.
    + apply Hout. intros H. vm_compute in H.
      apply elem_of_cons in H as [H|H]; [discriminate|].
      apply elem_of_cons in H as [H|H]; [discriminate|].
      by apply elem_of_nil in H.
    + destruct Hrun as (g & w & Hadv & Hg & _). by exists g, w.
Defined.

(* ===================================================================== *)
(** * Resuming *)
(* ===================================================================== *)

(** Draining [resume_train_context(train_state)] from a restored state. *)
Lemma resume_train_context_drain (E : Collaborators) (c : JiantTaskContainer)
    (tables : EvalTaskContainer) (w : World) (fuel : nat) :
  well_configured E c ->
  train_data_present c tables ->
  tracked c w ->
  Z.to_nat (max_steps c - global_steps (train_state w)) < fuel ->
  exists d w',
    for_generator (S fuel)
      (JiantRunner.resume_train_context c tables (JiantRunner.run_train_step E c))
      gen_created 0 w =
      Ok (Z.to_nat (max_steps c - global_steps (train_state w))) w' /\
    advanced c (Z.to_nat (max_steps c - global_steps (train_state w)))
      (set_stream_pos d w) w'.
Proof.
  intros Hwf Hdata Htk Hfuel.
  destruct (get_train_dataloader_dict_spec E c tables w Hwf Hdata) as (d & Hd & Hdall).
  assert (Htr : training c (set_stream_pos d w)).
  { intros t Ht. simpl. split; [rewrite (Hdall t Ht); eauto | by apply Htk]. }
  destruct (drain_loop E c
              (JiantRunner.resume_train_context c tables (JiantRunner.run_train_step E c))
              (fun _ => eq_refl) Hwf
              (Z.to_nat (max_steps c - global_steps (train_state w))) fuel
              (set_stream_pos d w) 0 Htr Hfuel) as (w' & Hrun & Hadv).
  exists d, w'. split; [|exact Hadv].
  cbn [for_generator JiantRunner.resume_train_context]. unfold_monad.
  rewrite Hd. unfold get_train_state. cbn [train_state set_stream_pos].
  exact Hrun.
Qed.

(** Draining [run_train_context()]: an uninterrupted run. *)
Lemma run_train_drain (E : Collaborators) (c : JiantTaskContainer)
    (tables : EvalTaskContainer) (w : World) (fuel : nat) :
  well_configured E c ->
  train_data_present c tables ->
  Z.to_nat (max_steps c) < fuel ->
  exists w',
    JiantRunner.run_train E c tables (S fuel) w = Ok (Z.to_nat (max_steps c)) w' /\
    global_steps (train_state w') = Z.of_nat (Z.to_nat (max_steps c)).
Proof.
  intros Hwf Hdata Hfuel.
  destruct (get_train_dataloader_dict_spec E c tables w Hwf Hdata) as (d & Hd & Hdall).
  set (w1 := set_train_state (from_task_name_list (train_task_list c))
               (set_stream_pos d w)).
  assert (Htr : training c w1).
  { intros t Ht. subst w1; simpl. split.
    - rewrite (Hdall t Ht). eauto.
    - rewrite foldl_insert_lookup, bool_decide_eq_true_2 by done. eauto. }
  destruct (drain_loop E c
              (JiantRunner.run_train_context c tables (JiantRunner.run_train_step E c))
              (fun _ => eq_refl) Hwf (Z.to_nat (max_steps c)) fuel w1 0 Htr Hfuel)
    as (w' & Hrun & Hadv).
  exists w'. split.
  - unfold JiantRunner.run_train.
    cbn [for_generator JiantRunner.run_train_context]. unfold_monad.
    rewrite Hd. unfold put_train_state. fold w1. exact Hrun.
  - rewrite (adv_global _ _ _ _ Hadv). subst w1; simpl. lia.
Qed.

(** C3.  From a restored [TrainState] with [global_steps = k], where
    [0 <= k <= max_steps], in a well-configured container whose tables hold
    the task and the ["train"] cache of every training task, draining
    [resume_train_context(train_state)] takes exactly [max_steps - k]
    further training steps and ends with [global_steps = max_steps], the
    count an uninterrupted [run_train] reaches. *)
Theorem resume_train_context_reaches_max_steps (E : Collaborators)
    (c : JiantTaskContainer) (tables : EvalTaskContainer) (w : World) (k : Z)
    (fuel : nat)
    (Hwf : well_configured E c)
    (Hdata : train_data_present c tables)
    (Htracked : tracked c w)
    (Hk : global_steps (train_state w) = k)
    (Hk0 : (0 <= k)%Z)
    (Hmax : (k <= max_steps c)%Z)
    (Hfuel : Z.to_nat (max_steps c - k) + 1 < fuel) :
  (exists w' new,
     for_generator fuel
       (JiantRunner.resume_train_context c tables (JiantRunner.run_train_step E c))
       gen_created 0 w = Ok (Z.to_nat (max_steps c - k)) w' /\
     trace w' = trace w ++ new /\
     count_events is_optimizer_step new = Z.to_nat (max_steps c - k) /\
     count_events is_write_entry new = Z.to_nat (max_steps c - k) /\
     global_steps (train_state w') = max_steps c /\
     never_decreases (train_state w) (train_state w')) /\
  (forall w0 fuel0, Z.to_nat (max_steps c) + 1 < fuel0 ->
     exists w0',
       JiantRunner.run_train E c tables fuel0 w0 = Ok (Z.to_nat (max_steps c)) w0' /\
       global_steps (train_state w0') = max_steps c).
Proof.
  split.
  - destruct fuel as [|fuel]; [lia|].
    destruct (resume_train_context_drain E c tables w fuel Hwf Hdata Htracked)
      as (d & w' & Hrun & [Htr (new & Hnew & Ho & Hl) Hg Hd Hc]).
    { rewrite Hk. lia. }
    rewrite Hk in *. exists w', new. split_and!; try done.
    simpl in Hg. rewrite Hg, Hk. lia.
  - intros w0 fuel0 Hf. destruct fuel0 as [|fuel0]; [lia|].
    destruct (run_train_drain E c tables w0 fuel0 Hwf Hdata ltac:(lia))
      as (w0' & Hrun & Hg).
    exists w0'. split; [done|]. rewrite Hg. lia.
Qed.

Lemma sample_restored_tracked : tracked Sample.container Sample.restored.
Proof.
  intros t Ht. simpl in Ht.
  apply elem_of_cons in Ht as [->|Ht]; [|apply elem_of_cons in Ht as [->|Ht]].
  - exists 1%Z. vm_compute. reflexivity.
  - exists 0%Z. vm_compute. reflexivity.
  - by apply elem_of_nil in Ht.
Qed.

Lemma resume_train_context_reaches_max_steps_witness :
  exists w',
    for_generator 5
      (JiantRunner.resume_train_context Sample.container Sample.tables
         (JiantRunner.run_train_step Sample.E Sample.container))
      gen_created 0 Sample.restored = Ok 2 w' /\
    count_events is_optimizer_step (trace w') = 2 /\
    global_steps (train_state w') = 3%Z.
Proof.
  destruct (resume_train_context_reaches_max_steps Sample.E Sample.container
              Sample.tables Sample.restored 1 5)
    as ((w' & new & Hrun & Htr & Ho & _ & Hg & _) & _).
  - exact sample_well_configured.
  - exact sample_train_data_present.
  - exact sample_restored_tracked.
  - reflexivity.
  - lia.
  - simpl. lia.
  - simpl. lia.
  - exists w'. rewrite Htr. split_and!; assumption.
Defined.

(* ===================================================================== *)
(** * Evaluation *)
(* ===================================================================== *)

Lemma batch_losses_app (l1 l2 : list event) :
  batch_losses (l1 ++ l2) = batch_losses l1 ++ batch_losses l2.
Proof.
  induction l1 as [|e l1 IH]; simpl; [done|].
  destruct e; simpl; try done. by rewrite IH.
Qed.

Lemma eval_rounds_losses (E : Collaborators) (task : string) (past : list event)
    (batches : list Batch) (evs : list event) :
  eval_rounds E task past batches evs ->
  length (batch_losses evs) = length batches /\
  count_events is_forward evs = length batches.
Proof.
  induction 1 as [|past batch batches evs batch_loss round _ [IH1 IH2]]; simpl.
  - done.
  - split; lia.
Qed.

Lemma eval_body_run (E : Collaborators) (task : string) (b : Batch)
    (total : Q) (steps examples : Z) (w : World) :
  let batch_loss := mean (model_loss E (trace w) task b false) in
  eval_body E task b (total, steps, examples) w =
  Ok ((total + batch_loss)%Q, (steps + 1)%Z, (examples + Z.of_nat (batch_len b))%Z)
     (record_event (ev_accumulator_update b batch_loss)
        (record_event (ev_forward task b false) w)).
Proof. reflexivity. Qed.

Lemma eval_loop_spec (E : Collaborators) (task : string) (batches : list Batch) :
  forall (total : Q) (steps examples : Z) (w : World),
    exists total' examples' w' evs,
      for_each batches (eval_body E task) (total, steps, examples) w =
        Ok (total', (steps + Z.of_nat (length batches))%Z, examples') w' /\
      trace w' = trace w ++ evs /\
      eval_rounds E task (trace w) batches evs /\
      (total' == total + Qsum (batch_losses evs))%Q.
Proof.
  induction batches as [|b batches IH]; intros total steps examples w.
  - exists total, examples, w, []. simpl. split_and!.
    + unfold_monad. do 3 f_equal. lia.
    + by rewrite app_nil_r.
    + constructor.
    + by rewrite Qplus_0_r.
  - cbn [for_each]. unfold_monad. rewrite eval_body_run.
    set (batch_loss := mean (model_loss E (trace w) task b false)).
    set (w1 := record_event (ev_accumulator_update b batch_loss) _).
    destruct (IH (total + batch_loss)%Q (steps + 1)%Z
                (examples + Z.of_nat (batch_len b))%Z w1)
      as (total' & examples' & w' & evs & Hrun & Htr & Hrounds & Htotal).
    exists total', examples', w',
      ([ev_forward task b false; ev_accumulator_update b batch_loss] ++ evs).
    split_and!.
    + rewrite Hrun. do 3 f_equal. cbn [length]. lia.
    + rewrite Htr. subst w1. simpl. by rewrite <- !app_assoc.
    + apply eval_rounds_batch. subst w1. simpl in Hrounds.
      by rewrite <- !app_assoc in Hrounds.
    + rewrite Htotal. simpl. by rewrite Qplus_assoc.
Qed.

(** C4.  On a non-empty evaluation stream of [k] batches, in the primary
    role, [run_val] returns as its loss the plain arithmetic mean of the
    per-batch mean losses: their sum divided by [k], whatever the batch
    sizes. *)
Theorem run_val_loss_is_plain_mean (E : Collaborators) (task : string)
    (val_dataloader : list Batch) (return_preds : bool) (w : World)
    (Hnonempty : val_dataloader ≠ []) :
  exists out w' evs,
    run_val E val_dataloader task (-1) return_preds w = Ok (Some out) w' /\
    trace w' = trace w ++ ev_model_eval :: evs /\
    eval_rounds E task (trace w ++ [ev_model_eval]) val_dataloader evs /\
    length (batch_losses evs) = length val_dataloader /\
    (eval_loss out ==
       Qsum (batch_losses evs) / inject_Z (Z.of_nat (length val_dataloader)))%Q.
Proof.
  unfold run_val, emit. simpl. unfold_monad.
  destruct (eval_loop_spec E task val_dataloader 0%Q 0%Z 0%Z
              (record_event ev_model_eval w))
    as (total & examples & w' & evs & Hrun & Htr & Hrounds & Htotal).
  rewrite Hrun. unfold py_div.
  destruct (Z.eqb_spec (0 + Z.of_nat (length val_dataloader)) 0) as [Hz|_].
  { destruct val_dataloader; [done | simpl in Hz; lia]. }
  eexists _, w', evs. split; [reflexivity|]. simpl in Htr, Hrounds.
  split_and!.
  - rewrite Htr. by rewrite <- app_assoc.
  - exact Hrounds.
  - by destruct (eval_rounds_losses _ _ _ _ _ Hrounds).
  - cbn [eval_loss]. rewrite Htotal, Qplus_0_l. by rewrite Z.add_0_l.
Qed.

Lemma run_val_loss_is_plain_mean_witness :
  exists out w',
    run_val Sample.E_val Sample.val_dataloader "mnli" (-1) false (Sample.world
      (from_task_name_list []) 0) = Ok (Some out) w' /\
    (eval_loss out == 1 # 2)%Q.
Proof.
  destruct (run_val_loss_is_plain_mean Sample.E_val "mnli" Sample.val_dataloader false
              (Sample.world (from_task_name_list []) 0))
    as (out & w' & evs & Hrun & Htr & Hrounds & Hlen & Hloss).
  - discriminate.
  - exists out, w'. split; [exact Hrun|].
    vm_compute in Hrun. injection Hrun as <- _. vm_compute. reflexivity.
Defined.

(** On that stream the batch-size-weighted mean would be 3/4, not the 1/2
    that [run_val] returns. *)
Example run_val_is_not_size_weighted :
  exists out w',
    run_val Sample.E_val Sample.val_dataloader "mnli" (-1) false (Sample.world
      (from_task_name_list []) 0) = Ok (Some out) w' /\
    (eval_loss out == 1 # 2)%Q /\
    (size_weighted_mean Sample.val_sized_losses == 3 # 4)%Q /\
    ~ (eval_loss out == size_weighted_mean Sample.val_sized_losses)%Q.
Proof.
  eexists _, _. split; [vm_compute; reflexivity|].
  split_and!; vm_compute; congruence.
Qed.

(* ===================================================================== *)
(** * Reptile *)
(* ===================================================================== *)

Lemma for_range_split {S} (body : S -> M S) (n m : nat) :
  forall (acc : S) (w : World),
    for_range (n + m) body acc w =
    match for_range n body acc w with
    | Ok acc' w' => for_range m body acc' w'
    | Raise e w' => Raise e w'
    | Diverge => Diverge
    end.
Proof.
  induction n as [|n IH]; intros acc w; simpl; [done|].
  unfold_monad. destruct (body acc w) as [a w'|e w'|]; [|done..].
  apply IH.
Qed.

Lemma for_range_nested {S} (body : S -> M S) (m n : nat) :
  forall (acc : S) (w : World),
    for_range m (fun acc => for_range n body acc) acc w =
    for_range (m * n) body acc w.
Proof.
  induction m as [|m IH]; intros acc w; simpl; [done|].
  rewrite for_range_split. unfold_monad.
  destruct (for_range n body acc w) as [a w'|e w'|]; [|done..].
  apply IH.
Qed.

Lemma inner_rounds_events (E : Collaborators) (t : string) (k : Z) (m : nat)
    (past : list event) (i n : nat) (evs : list event) :
  inner_rounds E t k m past i n evs ->
  count_events is_inner_step evs = n /\
  count_events is_backpropagate evs = n * m /\
  count_events is_stream_pop evs = n * m /\
  count_events is_optimizer_step evs = 0 /\
  count_events is_zero_grad evs = 0 /\
  count_events is_write_entry evs = 0 /\
  count_events is_inner_begin evs = 0 /\
  count_events is_inner_end evs = 0 /\
  count_events is_sampler_pop evs = 0.
Proof.
  induction 1 as [|past i n batches evs Hmb _ IH]; [by split_and!|].
  destruct IH as (I1 & I2 & I3 & I4 & I5 & I6 & I7 & I8 & I9).
  destruct (micro_batches_events _ _ _ _ _ _ _ Hmb) as (Hev & Hp & _ & Hb).
  assert (Hz : forall p, (forall e, micro_event t e -> p e = false) ->
                         count_events p batches = 0).
  { intros p Hp0. by eapply count_events_excluded. }
  rewrite !count_events_app. cbn [count_events].
  rewrite Hp, Hb, I1, I2, I3, I4, I5, I6, I7, I8, I9.
  rewrite !Hz by (by intros []). cbn. split_and!; lia.
Qed.

(** The inner loop of the Reptile step. *)
Lemma reptile_inner_loop (E : Collaborators) (t : string) (k : Z) (tasks accumulation : nat)
    (n : nat) :
  forall (acc : Q) (w : World) (i : nat),
    stream_pos w !! t = Some i ->
    exists acc' w' evs,
      for_range n
        (fun loss_val =>
           loss_val ←
             for_range tasks
               (fun loss_val =>
                  for_range accumulation (JiantRunner.micro_batch E t k) loss_val)
               loss_val;
           emit ev_inner_step;;
           mret loss_val)
        acc w = Ok acc' w' /\
      accumulates E acc w acc' w' evs /\
      inner_rounds E t k (tasks * accumulation) (trace w) i n evs /\
      stream_pos w' = <[t := i + n * (tasks * accumulation)]> (stream_pos w).
Proof.
  induction n as [|n IH]; intros acc w i Hpos.
  - exists acc, w, []. simpl. split_and!; try done.
    + apply accumulates_refl.
    + constructor.
    + rewrite Nat.add_0_r. by rewrite insert_id.
  - cbn [for_range]. unfold_monad. rewrite for_range_nested.
    destruct (micro_loop_spec E t k (tasks * accumulation) acc w i Hpos)
      as (a1 & w1 & mb & Hrun1 & Hacc1 & Hmb1 & Hs1 & Hg1).
    rewrite Hrun1. unfold emit.
    set (w2 := record_event ev_inner_step w1).
    destruct (IH a1 w2 (i + tasks * accumulation))
      as (a3 & w3 & evs & Hrun3 & Hacc3 & Hir3 & Hs3).
    { subst w2. simpl. rewrite Hs1. apply lookup_insert_eq. }
    exists a3, w3, (mb ++ ev_inner_step :: evs). split; [exact Hrun3|].
    assert (Hacc2 : accumulates E a1 w1 a1 w2 [ev_inner_step]).
    { subst w2. split; simpl; try done. by rewrite Qplus_0_r. }
    split_and!.
    + replace (mb ++ ev_inner_step :: evs) with ((mb ++ [ev_inner_step]) ++ evs)
        by (by rewrite <- app_assoc).
      eapply accumulates_trans; [|exact Hacc3].
      eapply accumulates_trans; [exact Hacc1 | exact Hacc2].
    + apply inner_rounds_round; [exact Hmb1|].
      subst w2. simpl in Hir3. rewrite (acc_trace _ _ _ _ _ _ Hacc1) in Hir3.
      by rewrite <- app_assoc in Hir3.
    + rewrite Hs3. subst w2. simpl. rewrite Hs1, insert_insert_eq. f_equal. lia.
Qed.

(** C8.  One call to the Reptile [run_train_step] whose task is configured,
    streamed and tracked, with positive accumulation factor, number of
    sampled tasks and number of inner steps: [inner_begin] comes before the
    inner loop, each inner round ends in one [inner_step], [inner_end] comes
    after the loop, exactly one optimizer step follows, and the logged loss
    is the accumulated loss sum divided by
    [gradient_accumulation_steps * num_sampled_tasks * inner_steps]. *)
Theorem reptile_step_brackets_inner_loop (E : Collaborators) (c : JiantTaskContainer)
    (inner_steps num_sampled_tasks : Z) (w : World) (cfg : TaskSpecificConfig)
    (i : nat) (n : Z)
    (Hcfg : task_specific_configs c !! sampler_draw E (sampler_pos w) = Some cfg)
    (Hgas : (0 < gradient_accumulation_steps cfg)%Z)
    (Htasks : (0 < num_sampled_tasks)%Z)
    (Hinner : (0 < inner_steps)%Z)
    (Hpos : stream_pos w !! sampler_draw E (sampler_pos w) = Some i)
    (Hcount : task_steps (train_state w) !! sampler_draw E (sampler_pos w) = Some n) :
  let t := sampler_draw E (sampler_pos w) in
  let k := gradient_accumulation_steps cfg in
  let per_round := Z.to_nat num_sampled_tasks * Z.to_nat k in
  exists w' rounds record,
    let before := [ev_model_train; ev_sampler_pop t; ev_inner_begin] in
    let new := before ++ rounds ++
               [ev_inner_end; ev_optimizer_step; ev_zero_grad;
                ev_write_entry "loss_train" record] in
    ReptileRunner.run_train_step E c inner_steps num_sampled_tasks w = Ok tt w' /\
    trace w' = trace w ++ new /\
    inner_rounds E t k per_round (trace w ++ before) i (Z.to_nat inner_steps) rounds /\
    count_events is_inner_begin new = 1 /\
    count_events is_inner_step new = Z.to_nat inner_steps /\
    count_events is_inner_end new = 1 /\
    count_events is_backpropagate new = Z.to_nat inner_steps * per_round /\
    count_events is_optimizer_step new = 1 /\
    count_events is_write_entry new = 1 /\
    weights_version w' = S (weights_version w) /\
    step t (train_state w) = Return (train_state w') /\
    log_task record = t /\
    log_task_step record = (n + 1)%Z /\
    log_global_step record = (global_steps (train_state w) + 1)%Z /\
    (log_loss_val record ==
       Qsum (returned_losses E new) / inject_Z (k * num_sampled_tasks * inner_steps))%Q.
Proof.
  intros t k per_round.
  assert (Et : t = sampler_draw E (sampler_pos w)) by done.
  assert (Ek : k = gradient_accumulation_steps cfg) by done.
  clearbody t k. subst per_round.
  unfold ReptileRunner.run_train_step, get_config, getitem, task_sampler_pop, emit.
  unfold_monad. simpl. rewrite <- Et in *. rewrite Hcfg. rewrite <- Ek in *.
  set (w1 := record_event ev_inner_begin _).
  destruct (reptile_inner_loop E t k (Z.to_nat num_sampled_tasks) (Z.to_nat k)
              (Z.to_nat inner_steps) 0%Q w1 i)
    as (lv & w2 & evs & Hrun & Hacc & Hir & Hs); [exact Hpos|].
  unfold emit in Hrun. unfold_monad. rewrite Hrun.
  destruct Hacc as [Htr Hloss Hts Hsp Hwv _ _ _].
  unfold optimizer_scheduler_step, zero_grad, train_state_step, get_train_state,
    py_div, write_entry, emit. simpl.
  rewrite Hts. simpl. unfold step. rewrite Hcount. simpl.
  rewrite lookup_insert_eq.
  destruct (Z.eqb_spec k 0) as [|_]; [lia|].
  destruct (Z.eqb_spec num_sampled_tasks 0) as [|_]; [lia|].
  destruct (Z.eqb_spec inner_steps 0) as [|_]; [lia|].
  destruct (inner_rounds_events _ _ _ _ _ _ _ _ Hir)
    as (I1 & I2 & I3 & I4 & I5 & I6 & I7 & I8 & I9).
  set (record := mkLogRecord t (n + 1) (global_steps (train_state w) + 1)
                   (lv / inject_Z k / inject_Z num_sampled_tasks / inject_Z inner_steps)
                   None).
  exists (record_event (ev_write_entry "loss_train" record)
            (set_train_state
               {| global_steps := global_steps (train_state w) + 1;
                  task_steps := <[t := (n + 1)%Z]> (task_steps (train_state w)) |}
               (record_event ev_zero_grad
                  (set_grad_buf []
                     (record_event ev_optimizer_step
                        (set_weights_version (S (weights_version w2))
                           (record_event ev_inner_end w2))))))), evs, record.
  cbv zeta. split; [reflexivity|]. simpl.
  split_and!; try done.
  - rewrite Htr. subst w1. simpl. by rewrite <- !app_assoc.
  - subst w1. simpl in Hir. by rewrite <- !app_assoc in Hir.
  - rewrite count_events_app, I7. done.
  - rewrite count_events_app, I1. simpl. lia.
  - rewrite count_events_app, I8. done.
  - rewrite count_events_app, I2. simpl. lia.
  - rewrite count_events_app, I4. done.
  - rewrite count_events_app, I6. done.
  - by rewrite Hwv.
  - rewrite returned_losses_app. cbn [returned_losses]. rewrite app_nil_r.
    rewrite Hloss, Qplus_0_l, !inject_Z_mult.
    assert (Hk : ~ (inject_Z k == 0)%Q).
    { intros H. apply (inject_Z_injective k 0) in H. lia. }
    assert (Ht : ~ (inject_Z num_sampled_tasks == 0)%Q).
    { intros H. apply (inject_Z_injective num_sampled_tasks 0) in H. lia. }
    assert (Hi : ~ (inject_Z inner_steps == 0)%Q).
    { intros H. apply (inject_Z_injective inner_steps 0) in H. lia. }
    field. split_and!; done.
Qed.

(* ===================================================================== *)
(** * DDS: sampling a non-target task *)
(* ===================================================================== *)

Lemma polled_succ (E : Collaborators) (pos n : nat) :
  polled E pos (S n) = sampler_draw E pos :: polled E (S pos) n.
Proof.
  unfold polled. cbn [seq map]. rewrite Nat.add_0_r. f_equal.
  rewrite <- seq_shift, map_map. apply map_ext. intros j. f_equal. lia.
Qed.

(** The [while True] loop either runs out of polls, all of which drew the
    target, or stops at the first poll that drew another task. *)
Lemma sample_non_target_spec (E : Collaborators) (target : string) (fuel : nat) :
  forall (w : World),
    (DDSRunner.sample_non_target E target fuel w = Diverge /\
     forall j, j < fuel -> sampler_draw E (sampler_pos w + j) = target) \/
    (exists j w',
       j < fuel /\
       (forall j', j' < j -> sampler_draw E (sampler_pos w + j') = target) /\
       sampler_draw E (sampler_pos w + j) ≠ target /\
       DDSRunner.sample_non_target E target fuel w =
         Ok (sampler_draw E (sampler_pos w + j)) w' /\
       trace w' = trace w ++ map ev_sampler_pop (polled E (sampler_pos w) (S j)) /\
       sampler_pos w' = sampler_pos w + S j /\
       train_state w' = train_state w /\
       stream_pos w' = stream_pos w /\
       grad_buf w' = grad_buf w /\
       weights_version w' = weights_version w).
Proof.
  induction fuel as [|fuel IH]; intros w.
  - left. split; [done | lia].
  - cbn [DDSRunner.sample_non_target]. unfold task_sampler_pop. unfold_monad.
    set (t := sampler_draw E (sampler_pos w)).
    set (w1 := record_event (ev_sampler_pop t) _).
    destruct (decide (t = target)) as [Heq|Hne].
    + rewrite bool_decide_eq_false_2 by (by intros H; apply H).
      destruct (IH w1) as [[Hdiv Hall]|(j & w' & Hj & Hbefore & Hj' & Hrun & Htr & Hsp & Hts & Hst & Hg & Hwv)].
      * left. split; [done|]. intros [|j] Hj.
        -- by rewrite Nat.add_0_r.
        -- specialize (Hall j ltac:(lia)). subst w1; simpl in Hall.
           by replace (sampler_pos w + S j) with (S (sampler_pos w + j)) by lia.
      * right. subst w1.
        cbn [sampler_pos trace record_event set_sampler_pos train_state stream_pos
             grad_buf weights_version] in *.
        exists (S j), w'.
        replace (sampler_pos w + S j) with (S (sampler_pos w + j)) by lia.
        split_and!; try done; try lia.
        -- intros [|j'] Hlt; [by rewrite Nat.add_0_r|].
           replace (sampler_pos w + S j') with (S (sampler_pos w + j')) by lia.
           apply Hbefore. lia.
        -- rewrite Htr, (polled_succ E (sampler_pos w)). cbn [map].
           by rewrite <- app_assoc.
    + rewrite bool_decide_eq_true_2 by done.
      right. exists 0, w1. rewrite Nat.add_0_r. subst w1.
      cbn [sampler_pos trace record_event set_sampler_pos train_state stream_pos
           grad_buf weights_version].
      split_and!; try done; try lia.
      unfold polled. cbn [seq map]. by rewrite Nat.add_0_r.
Qed.

Lemma count_sampler_pops (names : list string) :
  count_events is_sampler_pop (map ev_sampler_pop names) = length names.
Proof. induction names as [|t names IH]; simpl; [done | by rewrite IH]. Qed.

(** C5.  In every call to the DDS [run_train_step], the task the step goes
    on to train with is never the target task: the sampler is polled again
    for as long as it draws the target, and the first other name drawn is
    the one handed to the rest of the step.  (The call diverges exactly
    when every poll draws the target.) *)
Theorem dds_step_task_is_not_target (E : Collaborators) (c : JiantTaskContainer)
    (dds_update_freq dds_update_steps : Z) (target_task : string)
    (fuel : nat) (w : World) :
  (DDSRunner.run_train_step E c dds_update_freq dds_update_steps target_task fuel w
     = Diverge /\
   forall j, j < fuel -> sampler_draw E (sampler_pos w + j) = target_task) \/
  (exists j w1,
     let task_name := sampler_draw E (sampler_pos w + j) in
     j < fuel /\
     task_name ≠ target_task /\
     (forall j', j' < j -> sampler_draw E (sampler_pos w + j') = target_task) /\
     trace w1 =
       trace w ++ ev_model_train :: map ev_sampler_pop (polled E (sampler_pos w) (S j)) /\
     count_events is_sampler_pop
       (ev_model_train :: map ev_sampler_pop (polled E (sampler_pos w) (S j))) = S j /\
     DDSRunner.run_train_step E c dds_update_freq dds_update_steps target_task fuel w =
       DDSRunner.after_sampling E c dds_update_freq dds_update_steps target_task
         task_name w1).
Proof.
  unfold DDSRunner.run_train_step, emit. unfold_monad.
  destruct (sample_non_target_spec E target_task fuel (record_event ev_model_train w))
    as [[Hdiv Hall]|(j & w' & Hj & Hbefore & Hj' & Hrun & Htr & _)].
  - left. by rewrite Hdiv.
  - right. exists j, w'. cbv zeta.
    cbn [sampler_pos trace record_event] in *. rewrite Hrun.
    split_and!; try done.
    + rewrite Htr. by rewrite <- app_assoc.
    + cbn [count_events is_sampler_pop].
      rewrite count_sampler_pops. unfold polled. by rewrite length_map, length_seq.
Qed.

(* ===================================================================== *)
(** * DDS: the per-batch routine *)
(* ===================================================================== *)

Lemma quiet_refl (w : World) : quiet w w.
Proof. split; [done|]. exists []. by rewrite app_nil_r. Qed.

Lemma quiet_trans (w1 w2 w3 : World) : quiet w1 w2 -> quiet w2 w3 -> quiet w1 w3.
Proof.
  intros [T1 (e1 & H1 & A1 & B1 & C1)] [T2 (e2 & H2 & A2 & B2 & C2)].
  split; [congruence|]. exists (e1 ++ e2).
  rewrite H2, H1, app_assoc, !count_events_app. split_and!; [done|lia..].
Qed.

Lemma for_range_ok_invariant {S} (R : World -> World -> Prop) (body : S -> M S) :
  (forall w, R w w) ->
  (forall w1 w2 w3, R w1 w2 -> R w2 w3 -> R w1 w3) ->
  (forall acc w acc' w', body acc w = Ok acc' w' -> R w w') ->
  forall n acc w acc' w', for_range n body acc w = Ok acc' w' -> R w w'.
Proof.
  intros Hrefl Htrans Hbody. induction n as [|n IH]; intros acc w acc' w' Hrun.
  - simpl in Hrun. unfold_monad. injection Hrun as _ <-. apply Hrefl.
  - simpl in Hrun. unfold_monad.
    destruct (body acc w) as [a w1|e w1|] eqn:Hb; [|done..].
    eapply Htrans; [by eapply Hbody | by eapply IH].
Qed.

(** A micro-batch of the DDS routine whose unreduced loss has the wrong
    shape: the assertion fails right after the forward pass. *)
Lemma one_micro_batch_mismatch (E : Collaborators) (t : string) (is_target : bool)
    (k : Z) (locals : DDSRunner.batch_locals) (w : World) (i : nat) :
  stream_pos w !! t = Some i ->
  shape (model_loss E (trace w ++ [ev_stream_pop t i]) t (stream_batch E t i) true)
    ≠ [batch_len (stream_batch E t i)] ->
  DDSRunner.one_micro_batch E t is_target k locals w =
  Raise AssertionError
    (record_event (ev_forward t (stream_batch E t i) true)
       (record_event (ev_stream_pop t i)
          (set_stream_pos (<[t := S i]> (stream_pos w)) w))).
Proof.
  intros Hpos Hshape. destruct locals as [[[last ids] ws] lv].
  unfold DDSRunner.one_micro_batch, dataloader_pop, wrap_jiant_forward, py_assert.
  unfold_monad. rewrite Hpos. simpl.
  by rewrite bool_decide_eq_false_2.
Qed.

(** A micro-batch whose unreduced loss has one entry per example goes
    through [complex_backpropagate] once. *)
Lemma one_micro_batch_match (E : Collaborators) (t : string) (is_target : bool)
    (k : Z) (locals : DDSRunner.batch_locals) (w : World) (i : nat) :
  stream_pos w !! t = Some i ->
  shape (model_loss E (trace w ++ [ev_stream_pop t i]) t (stream_batch E t i) true)
    = [batch_len (stream_batch E t i)] ->
  exists locals' w' new,
    DDSRunner.one_micro_batch E t is_target k locals w = Ok locals' w' /\
    trace w' = trace w ++ new /\
    count_events is_backpropagate new = 1 /\
    grad_buf w' = grad_buf w ++ [t].
Proof.
  intros Hpos Hshape. destruct locals as [[[last ids] ws] lv].
  unfold DDSRunner.one_micro_batch, dataloader_pop, wrap_jiant_forward, py_assert,
    DDSRunner.dds_weights_forward, complex_backpropagate.
  unfold_monad. rewrite Hpos. simpl.
  rewrite (bool_decide_eq_true_2 _ Hshape).
  destruct is_target; simpl.
  - eexists _, _, [_; _; _]. split; [reflexivity|]. simpl.
    split_and!; [by rewrite <- !app_assoc | done | done].
  - eexists _, _, [_; _; _; _]. split; [reflexivity|]. simpl.
    split_and!; [by rewrite <- !app_assoc | done | done].
Qed.

Lemma one_micro_batch_quiet (E : Collaborators) (t : string) (is_target : bool)
    (k : Z) (locals locals' : DDSRunner.batch_locals) (w w' : World) :
  DDSRunner.one_micro_batch E t is_target k locals w = Ok locals' w' -> quiet w w'.
Proof.
  destruct locals as [[[last ids] ws] lv].
  unfold DDSRunner.one_micro_batch, dataloader_pop, wrap_jiant_forward, py_assert,
    DDSRunner.dds_weights_forward, complex_backpropagate.
  unfold_monad. destruct (stream_pos w !! t) as [i|]; [|done]. simpl.
  destruct (bool_decide _); [|done].
  destruct is_target; simpl; intros [= _ <-]; (split; [done|]).
  - eexists [_; _; _]. simpl. split_and!; [by rewrite <- !app_assoc | done..].
  - eexists [_; _; _; _]. simpl. split_and!; [by rewrite <- !app_assoc | done..].
Qed.

Lemma dds_run_one_batch_quiet (E : Collaborators) (c : JiantTaskContainer)
    (t : string) (is_target : bool) (r : Batch * list Z * list Q * Q) (w w' : World) :
  DDSRunner.run_one_batch E c t is_target w = Ok r w' -> quiet w w'.
Proof.
  unfold DDSRunner.run_one_batch, get_config, getitem, emit, read_local.
  unfold_monad. destruct (task_specific_configs c !! t) as [cfg|]; [|done].
  set (k := if is_target then 1%Z else gradient_accumulation_steps cfg).
  destruct (for_range _ _ _ _) as [[[[last ids] ws] lv] w1|e w1|] eqn:Hloop; [|done..].
  destruct last as [b|]; [|done]. intros [= _ <-].
  eapply quiet_trans; [|eapply (for_range_ok_invariant quiet);
                         [apply quiet_refl | apply quiet_trans | | exact Hloop]].
  - split; [done|]. exists [ev_weighting_eval]. by simpl.
  - intros. by eapply one_micro_batch_quiet.
Qed.

Lemma one_micro_batch_ok_events (E : Collaborators) (t : string) (is_target : bool)
    (k : Z) (locals locals' : DDSRunner.batch_locals) (w w' : World) :
  DDSRunner.one_micro_batch E t is_target k locals w = Ok locals' w' ->
  exists evs,
    trace w' = trace w ++ evs /\
    count_events is_forward evs = 1 /\
    count_events is_backpropagate evs = 1.
Proof.
  destruct locals as [[[last ids] ws] lv].
  unfold DDSRunner.one_micro_batch, dataloader_pop, wrap_jiant_forward, py_assert,
    DDSRunner.dds_weights_forward, complex_backpropagate.
  unfold_monad. destruct (stream_pos w !! t) as [i|]; [|done]. simpl.
  destruct (bool_decide _); [|done].
  destruct is_target; simpl; intros [= _ <-].
  - eexists [_; _; _]. simpl. split_and!; [by rewrite <- !app_assoc | done..].
  - eexists [_; _; _; _]. simpl. split_and!; [by rewrite <- !app_assoc | done..].
Qed.

(** [j] micro-batches that went through: [j] forward and [j] backward
    passes. *)
Lemma dds_micro_batches_counts (E : Collaborators) (t : string) (is_target : bool)
    (k : Z) (j : nat) :
  forall (locals locals' : DDSRunner.batch_locals) (w w' : World),
    for_range j (DDSRunner.one_micro_batch E t is_target k) locals w = Ok locals' w' ->
    exists evs,
      trace w' = trace w ++ evs /\
      count_events is_forward evs = j /\
      count_events is_backpropagate evs = j.
Proof.
  induction j as [|j IH]; intros locals locals' w w' Hrun.
  - simpl in Hrun. unfold_monad. injection Hrun as _ <-.
    exists []. by rewrite app_nil_r.
  - cbn [for_range] in Hrun. unfold_monad.
    destruct (DDSRunner.one_micro_batch E t is_target k locals w)
      as [l1 w1|e w1|] eqn:Hb; [|done..].
    destruct (one_micro_batch_ok_events _ _ _ _ _ _ _ _ Hb) as (e1 & T1 & F1 & B1).
    destruct (IH _ _ _ _ Hrun) as (e2 & T2 & F2 & B2).
    exists (e1 ++ e2). rewrite T2, T1, app_assoc, !count_events_app.
    split_and!; [done|lia..].
Qed.

(** C9.  In the DDS per-batch routine, the unreduced loss of every
    micro-batch must have shape [(len(batch),)].  Where the micro-batch after
    [j] good ones has another shape, [run_one_batch] raises [AssertionError]
    right after that forward pass: the call has made [j + 1] forward passes
    and [j] backward passes (none at all when the first micro-batch is the
    bad one), the buffers hold no gradient of the bad batch, nothing is
    retried, and the error leaves [run_train_step].  Where the shape is
    right, the micro-batch is backpropagated once. *)
Theorem dds_loss_shape_is_asserted (E : Collaborators) (c : JiantTaskContainer)
    (dds_update_freq dds_update_steps : Z) (target_task : string)
    (t : string) (is_target_task : bool) (cfg : TaskSpecificConfig)
    (w : World) (j : nat) (locals : DDSRunner.batch_locals) (wj : World) (i : nat)
    (Hcfg : task_specific_configs c !! t = Some cfg)
    (Hj : j < Z.to_nat (if is_target_task then 1%Z else gradient_accumulation_steps cfg))
    (Hprefix :
       for_range j
         (DDSRunner.one_micro_batch E t is_target_task
            (if is_target_task then 1%Z else gradient_accumulation_steps cfg))
         (None, [], [], 0%Q) (record_event ev_weighting_eval w) = Ok locals wj)
    (Hpos : stream_pos wj !! t = Some i) :
  let k := if is_target_task then 1%Z else gradient_accumulation_steps cfg in
  let batch := stream_batch E t i in
  let loss := model_loss E (trace wj ++ [ev_stream_pop t i]) t batch true in
  (shape loss ≠ [batch_len batch] ->
   exists w',
     DDSRunner.run_one_batch E c t is_target_task w = Raise AssertionError w' /\
     trace w' = trace wj ++ [ev_stream_pop t i; ev_forward t batch true] /\
     (exists new,
        trace w' = trace w ++ new /\
        count_events is_forward new = S j /\
        count_events is_backpropagate new = j) /\
     grad_buf w' = grad_buf wj /\
     weights_version w' = weights_version wj /\
     (is_target_task = false ->
      forall fuel w0,
        DDSRunner.sample_non_target E target_task fuel (record_event ev_model_train w0)
          = Ok t w ->
        DDSRunner.run_train_step E c dds_update_freq dds_update_steps target_task fuel w0
          = Raise AssertionError w')) /\
  (shape loss = [batch_len batch] ->
   exists locals' w' new,
     DDSRunner.one_micro_batch E t is_target_task k locals wj = Ok locals' w' /\
     trace w' = trace wj ++ new /\
     count_events is_backpropagate new = 1 /\
     grad_buf w' = grad_buf wj ++ [t]).
Proof.
  intros k batch loss. split.
  - intros Hshape.
    assert (Hrun : DDSRunner.run_one_batch E c t is_target_task w =
                   Raise AssertionError
                     (record_event (ev_forward t batch true)
                        (record_event (ev_stream_pop t i)
                           (set_stream_pos (<[t := S i]> (stream_pos wj)) wj)))).
    { unfold DDSRunner.run_one_batch, get_config, getitem, emit. unfold_monad.
      rewrite Hcfg. fold k.
      replace (Z.to_nat k) with (j + S (Z.to_nat k - S j)) by (subst k; lia).
      rewrite for_range_split. fold k in Hprefix. rewrite Hprefix.
      cbn [for_range]. unfold_monad.
      by rewrite (one_micro_batch_mismatch E t is_target_task k locals wj i Hpos Hshape). }
    eexists. split; [exact Hrun|]. simpl. split_and!; try done.
    + by rewrite <- app_assoc.
    + destruct (dds_micro_batches_counts _ _ _ _ _ _ _ _ _ Hprefix) as (evs & T & F & B).
      exists ([ev_weighting_eval] ++ evs ++
              [ev_stream_pop t i; ev_forward t batch true]).
      rewrite T, !count_events_app, F, B. simpl.
      split_and!; [by rewrite <- !app_assoc | lia | lia].
    + intros -> fuel w0 Hsample.
      unfold DDSRunner.run_train_step, DDSRunner.after_sampling, emit, get_config, getitem.
      unfold_monad. rewrite Hsample, Hcfg. by rewrite Hrun.
  - intros Hshape. by apply (one_micro_batch_match E t is_target_task k locals wj i).
Qed.

Lemma dds_loss_shape_is_asserted_witness :
  exists w',
    DDSRunner.run_one_batch Sample.E_scalar Sample.plain_container "mnli" false
      Sample.fresh = Raise AssertionError w' /\
    count_events is_forward (trace w') = 1 /\
    count_events is_backpropagate (trace w') = 0 /\
    grad_buf w' = [].
Proof.
  destruct (dds_loss_shape_is_asserted Sample.E_scalar Sample.plain_container 2 1 "rte"
              "mnli" false (mkTaskSpecificConfig 1) Sample.fresh 0
              (None, [], [], 0%Q) (record_event ev_weighting_eval Sample.fresh) 0)
    as [Hbad _].
  - vm_compute. reflexivity.
  - simpl. lia.
  - reflexivity.
  - vm_compute. reflexivity.
  - destruct Hbad as (w' & Hrun & Htr & _ & Hg & _).
    + simpl. discriminate.
    + exists w'. rewrite Htr, Hg. split_and!; [exact Hrun|reflexivity..].
Defined.

(** C9, as the claim states it, fails: with an accumulation factor of 2
    and a loss that is mis-shaped on the second micro-batch only, the
    assertion fails after the first micro-batch has been backpropagated,
    so a backward pass has run and its gradient is in the buffers. *)
Example dds_loss_shape_late_mismatch :
  exists w',
    DDSRunner.run_one_batch Sample.E_late Sample.container "mnli" false Sample.fresh
      = Raise AssertionError w' /\
    count_events is_forward (trace w') = 2 /\
    count_events is_backpropagate (trace w') = 1 /\
    grad_buf w' = ["mnli"].
Proof.
  eexists. split; [vm_compute; reflexivity|].
  split; [|split]; vm_compute; reflexivity.
Qed.

(* ===================================================================== *)
(** * DDS: the step off and on the update period *)
(* ===================================================================== *)

Lemma sample_non_target_quiet (E : Collaborators) (target : string) (fuel : nat)
    (w w' : World) (t : string) :
  DDSRunner.sample_non_target E target fuel w = Ok t w' -> quiet w w'.
Proof.
  intros Hrun.
  destruct (sample_non_target_spec E target fuel w)
    as [[Hdiv _]|(j & w1 & _ & _ & _ & Hrun1 & Htr & _ & Hts & _)]; [congruence|].
  rewrite Hrun in Hrun1. injection Hrun1 as _ <-.
  split; [done|]. eexists. split; [exact Htr|].
  generalize (polled E (sampler_pos w) (S j)). intros l.
  induction l as [|a l (I1 & I2 & I3)]; simpl; by split_and!.
Qed.

(** C10.  A call to the DDS [run_train_step] that gets as far as counting
    the step (a task sampled, its batch run, the accumulation check passed,
    the task tracked) and whose new global step count is not a multiple of
    a non-zero [dds_update_freq]: it raises [UnboundLocalError] on reading
    [rewards], which only the periodic update assigns.  The optimizer step
    and the [TrainState] advance have happened by then; no
    [dds_details_logs.jsonl] line and no ["loss_train"] entry is written. *)
Theorem dds_step_fails_off_period (E : Collaborators) (c : JiantTaskContainer)
    (dds_update_freq dds_update_steps : Z) (target_task : string)
    (fuel : nat) (w0 : World) (t : string) (w1 : World) (cfg : TaskSpecificConfig)
    (batch : Batch) (example_ids : list Z) (dds_weights : list Q) (loss_val : Q)
    (w2 : World) (n : Z)
    (Hsample :
       DDSRunner.sample_non_target E target_task fuel (record_event ev_model_train w0)
         = Ok t w1)
    (Hcfg : task_specific_configs c !! t = Some cfg)
    (Hbatch :
       DDSRunner.run_one_batch E c t false w1
         = Ok (batch, example_ids, dds_weights, loss_val) w2)
    (Hrows : input_ids_rows batch = length example_ids)
    (Hcount : task_steps (train_state w0) !! t = Some n)
    (Hfreq : dds_update_freq ≠ 0%Z)
    (Hoff : ((global_steps (train_state w0) + 1) mod dds_update_freq ≠ 0)%Z) :
  exists w' new,
    DDSRunner.run_train_step E c dds_update_freq dds_update_steps target_task fuel w0
      = Raise (UnboundLocalError "rewards") w' /\
    trace w' = trace w0 ++ new /\
    count_events is_file_append new = 0 /\
    count_events is_write_entry new = 0 /\
    count_events is_optimizer_step new = 1 /\
    global_steps (train_state w') = (global_steps (train_state w0) + 1)%Z /\
    task_steps (train_state w') !! t = Some (n + 1)%Z.
Proof.
  pose proof (sample_non_target_quiet _ _ _ _ _ _ Hsample) as Hq1.
  pose proof (dds_run_one_batch_quiet _ _ _ _ _ _ _ Hbatch) as Hq2.
  destruct (quiet_trans _ _ _ Hq1 Hq2) as [Hts (evs & Htr & Hw & Hf & Ho)].
  simpl in Hts, Htr.
  unfold DDSRunner.run_train_step, DDSRunner.after_sampling, emit, get_config, getitem.
  unfold_monad. rewrite Hsample, Hcfg, Hbatch.
  unfold py_assert, get_shared_grad, optimizer_scheduler_step, zero_grad,
    train_state_step, get_train_state, py_mod, read_local. simpl.
  rewrite Hrows, Nat.eqb_refl. rewrite Hts. unfold step. rewrite Hcount. simpl.
  destruct (Z.eqb_spec dds_update_freq 0) as [|_]; [done|].
  destruct (Z.eqb_spec ((global_steps (train_state w0) + 1) mod dds_update_freq) 0)
    as [|_]; [done|].
  eexists _, (ev_model_train :: evs ++
              [ev_get_shared_grad true (grad_buf w2); ev_optimizer_step; ev_zero_grad]).
  split; [reflexivity|]. simpl. split_and!; try done.
  - rewrite Htr. by rewrite <- !app_assoc.
  - rewrite count_events_app, Hf. done.
  - rewrite count_events_app, Hw. done.
  - rewrite count_events_app, Ho. done.
  - apply lookup_insert_eq.
Qed.

Lemma dds_step_fails_off_period_witness :
  exists w',
    DDSRunner.run_train_step Sample.E Sample.plain_container 2 1 "rte" 2 Sample.fresh
      = Raise (UnboundLocalError "rewards") w' /\
    count_events is_file_append (trace w') = 0 /\
    count_events is_write_entry (trace w') = 0 /\
    global_steps (train_state w') = 1%Z.
Proof.
  edestruct (dds_step_fails_off_period Sample.E Sample.plain_container 2 1 "rte" 2
               Sample.fresh "mnli")
    as (w' & new & Hrun & Htr & Hf & Hw & _ & Hg & _).
  - vm_compute. reflexivity.
  - vm_compute. reflexivity.
  - vm_compute. reflexivity.
  - reflexivity.
  - vm_compute. reflexivity.
  - discriminate.
  - vm_compute. discriminate.
  - exists w'. rewrite Htr. split_and!; [exact Hrun|exact Hf|exact Hw|exact Hg].
Defined.

(** C6 on the code.  With [dds_update_freq = 2] the first step of a run
    stops at the unbound [rewards] and appends nothing to
    [dds_details_logs.jsonl]; the same step with [dds_update_freq = 1], which
    goes through the periodic update, appends exactly one line and writes
    one ["loss_train"] entry. *)
Theorem dds_details_missing_off_period :
  (exists w',
     DDSRunner.run_train_step Sample.E Sample.plain_container 2 1 "rte" 2 Sample.fresh
       = Raise (UnboundLocalError "rewards") w' /\
     count_events is_optimizer_step (trace w') = 1 /\
     count_events is_file_append (trace w') = 0) /\
  (exists w',
     DDSRunner.run_train_step Sample.E Sample.plain_container 1 1 "rte" 2 Sample.fresh
       = Ok tt w' /\
     count_events is_optimizer_step (trace w') = 1 /\
     count_events is_file_append (trace w') = 1 /\
     count_events is_write_entry (trace w') = 1).
Proof.
  split.
  - eexists. split; [vm_compute; reflexivity|].
    split; vm_compute; reflexivity.
  - eexists. split; [vm_compute; reflexivity|].
    split; [|split]; vm_compute; reflexivity.
Qed.

(* ===================================================================== *)
(** * MultiDDS: probing leaves no gradient behind *)
(* ===================================================================== *)

Lemma multi_run_one_batch_spec (E : Collaborators) (c : JiantTaskContainer)
    (t : string) (w : World) :
  is_Some (task_specific_configs c !! t) ->
  is_Some (stream_pos w !! t) ->
  exists lv w' evs,
    MultiDDSRunner.run_one_batch E c t w = Ok lv w' /\
    accumulates E 0%Q w lv w' evs /\
    Forall (micro_event t) evs /\
    count_events is_backpropagate evs = accumulation_of c t /\
    grad_buf w' = grad_buf w ++ repeat t (accumulation_of c t) /\
    (forall tasks, streams_cover tasks w -> streams_cover tasks w').
Proof.
  intros [cfg Hcfg] [i Hpos].
  unfold MultiDDSRunner.run_one_batch, get_config, getitem, accumulation_of.
  unfold_monad. rewrite Hcfg.
  destruct (micro_loop_spec E t (gradient_accumulation_steps cfg)
              (Z.to_nat (gradient_accumulation_steps cfg)) 0%Q w i Hpos)
    as (lv & w' & evs & Hrun & Hacc & Hmb & Hs & Hg).
  destruct (micro_batches_events _ _ _ _ _ _ _ Hmb) as (Hev & _ & _ & Hb).
  exists lv, w', evs. split_and!; try done.
  intros tasks Hcover t' Ht'. rewrite Hs.
  destruct (decide (t = t')) as [->|Hne].
  - rewrite lookup_insert_eq. eauto.
  - rewrite lookup_insert_ne by done. by apply Hcover.
Qed.

Lemma probe_rounds_events (c : JiantTaskContainer) (tasks : list string)
    (evs : list event) :
  probe_rounds c tasks evs ->
  count_events is_weights_update evs = 0 /\
  count_events is_zero_grad evs = length tasks /\
  shared_grad_reads evs = map (fun t => repeat t (accumulation_of c t)) tasks.
Proof.
  induction 1 as [|t tasks batches evs Hev Hb _ (I1 & I2 & I3)]; [done|].
  assert (Hz : forall p, (forall e, micro_event t e -> p e = false) ->
                         count_events p batches = 0).
  { intros p Hp0. by eapply count_events_excluded. }
  rewrite !count_events_app. cbn [count_events]. rewrite I1, I2.
  rewrite !Hz by (by intros []). split_and!; [done|simpl; lia|].
  clear Hz Hb. induction Hev as [|e batches He _ IHb]; simpl.
  - by rewrite I3.
  - destruct e; simpl in He; try done.
Qed.

(** The probe loop, entered with cleared gradient buffers. *)
Lemma probe_loop_spec (E : Collaborators) (c : JiantTaskContainer) (all : list string)
    (tasks : list string) :
  forall (locals : string * nat) (w : World),
    (forall t, t ∈ tasks -> is_Some (task_specific_configs c !! t) /\ t ∈ all) ->
    streams_cover all w ->
    grad_buf w = [] ->
    exists w' evs,
      for_each tasks (MultiDDSRunner.probe E c) locals w =
        Ok (default (fst locals) (last tasks), snd locals + length tasks) w' /\
      trace w' = trace w ++ evs /\
      probe_rounds c tasks evs /\
      grad_buf w' = [] /\
      weights_version w' = weights_version w /\
      train_state w' = train_state w /\
      streams_cover all w'.
Proof.
  induction tasks as [|t tasks IH]; intros locals w Hcfgs Hcover Hclean.
  - exists w, []. simpl. unfold_monad. rewrite Nat.add_0_r, app_nil_r.
    destruct locals. split_and!; try done. constructor.
  - destruct (Hcfgs t) as [Hcfg Hin]; [left|].
    destruct (multi_run_one_batch_spec E c t w Hcfg (Hcover t Hin))
      as (lv & w1 & batches & Hrun1 & [Htr1 _ Hts1 _ Hwv1 _ _ _] & Hev1 & Hb1 & Hg1 & Hc1).
    set (w2 := record_event ev_zero_grad
                 (set_grad_buf []
                    (record_event ev_grad_sim
                       (record_event (ev_get_shared_grad false (grad_buf w1)) w1)))).
    destruct (IH (t, S (snd locals)) w2) as (w3 & evs & Hrun3 & Htr3 & Hpr3 & Hg3 & Hwv3 & Hts3 & Hc3).
    { intros t' Ht'. apply Hcfgs. by right. }
    { subst w2. intros t' Ht'. simpl. by apply (Hc1 all Hcover). }
    { done. }
    exists w3, (batches ++
                [ev_get_shared_grad false (repeat t (accumulation_of c t)); ev_grad_sim;
                 ev_zero_grad] ++ evs).
    split_and!.
    + cbn [for_each]. unfold_monad. unfold MultiDDSRunner.probe at 1.
      unfold_monad. rewrite Hrun1. unfold get_shared_grad, emit, zero_grad.
      fold w2. rewrite Hrun3. f_equal. f_equal.
      * rewrite (last_cons t tasks). by destruct (last tasks).
      * simpl. lia.
    + rewrite Htr3. subst w2. simpl. rewrite Htr1, Hg1, Hclean. simpl.
      by rewrite <- !app_assoc.
    + by constructor.
    + done.
    + rewrite Hwv3. subst w2. simpl. done.
    + rewrite Hts3. subst w2. simpl. done.
    + done.
Qed.

Lemma shared_grad_reads_app (l1 l2 : list event) :
  shared_grad_reads (l1 ++ l2) = shared_grad_reads l1 ++ shared_grad_reads l2.
Proof.
  induction l1 as [|e l1 IH]; simpl; [done|].
  destruct e; simpl; try done. by rewrite IH.
Qed.

Lemma shared_grad_reads_micro (t : string) (l : list event) :
  Forall (micro_event t) l -> shared_grad_reads l = [].
Proof.
  induction 1 as [|e l He _ IH]; [done|].
  destruct e; simpl in He; try done.
Qed.

(** The sampler-update block, entered with cleared gradient buffers. *)
Lemma sampler_update_spec (E : Collaborators) (c : JiantTaskContainer)
    (target : string) (accumulate : bool) (t0 : string) (w : World) :
  target ∈ sampler_task_dict c ->
  (forall t, t ∈ sampler_task_dict c -> is_Some (task_specific_configs c !! t)) ->
  streams_cover (sampler_task_dict c) w ->
  grad_buf w = [] ->
  exists w' target_batches probes,
    let t_last := default t0 (last (sampler_task_dict c)) in
    MultiDDSRunner.sampler_update E c target accumulate t0 w = Ok t_last w' /\
    trace w' =
      trace w ++ target_batches ++
      [ev_get_shared_grad true (repeat target (accumulation_of c target)); ev_zero_grad] ++
      (if accumulate then [ev_accumulate_target_grad] else []) ++
      probes ++
      [ev_update_sampler;
       ev_file_append "sampling_probabilities_logs.jsonl"
         (SamplingProbabilities t_last (global_steps (train_state w)))] /\
    Forall (micro_event target) target_batches /\
    count_events is_backpropagate target_batches = accumulation_of c target /\
    probe_rounds c (sampler_task_dict c) probes /\
    grad_buf w' = [] /\
    weights_version w' = weights_version w /\
    train_state w' = train_state w.
Proof.
  intros Htarget Hcfgs Hcover Hclean.
  destruct (multi_run_one_batch_spec E c target w (Hcfgs _ Htarget) (Hcover _ Htarget))
    as (lv & w1 & tb & Hrun1 & [Htr1 _ Hts1 _ Hwv1 _ _ _] & Hev1 & Hb1 & Hg1 & Hc1).
  set (w2 := record_event ev_zero_grad
               (set_grad_buf []
                  (record_event (ev_get_shared_grad true (grad_buf w1)) w1))).
  set (w3 := if accumulate then record_event ev_accumulate_target_grad w2 else w2).
  destruct (probe_loop_spec E c (sampler_task_dict c) (sampler_task_dict c) (t0, 0) w3)
    as (w4 & probes & Hrun4 & Htr4 & Hpr4 & Hg4 & Hwv4 & Hts4 & Hc4).
  { intros t Ht. split; [by apply Hcfgs | done]. }
  { intros t Ht. subst w3 w2. destruct accumulate; simpl; by apply (Hc1 _ Hcover). }
  { subst w3 w2. by destruct accumulate. }
  assert (Htr3 : trace w3 =
            trace w ++ tb ++
            [ev_get_shared_grad true (repeat target (accumulation_of c target));
             ev_zero_grad] ++
            (if accumulate then [ev_accumulate_target_grad] else [])).
  { subst w3 w2. destruct accumulate; simpl; rewrite Htr1, Hg1, Hclean; simpl;
      by rewrite <- !app_assoc. }
  assert (Hts3 : train_state w3 = train_state w).
  { subst w3 w2. by destruct accumulate. }
  assert (Hwv3 : weights_version w3 = weights_version w).
  { subst w3 w2. by destruct accumulate. }
  eexists _, tb, probes. cbv zeta. split_and!.
  - unfold MultiDDSRunner.sampler_update, sampler_task_lookup, get_shared_grad, zero_grad.
    unfold_monad. rewrite (bool_decide_eq_true_2 _ Htarget), Hrun1.
    fold w2.
    assert (Hacc : (if accumulate then emit ev_accumulate_target_grad else mret tt) w2
                   = Ok tt w3).
    { subst w3. by destruct accumulate. }
    unfold_monad. rewrite Hacc, Hrun4. cbn [fst snd].
    destruct (0 + length (sampler_task_dict c)) as [|k] eqn:Hlen.
    { destruct (sampler_task_dict c); [by apply elem_of_nil in Htarget | done]. }
    unfold emit, get_train_state, MultiDDSRunner.log_sampling_probabilities, emit.
    reflexivity.
  - simpl. rewrite Htr4, Htr3, Hts4, Hts3. by rewrite <- !app_assoc.
  - done.
  - done.
  - done.
  - done.
  - simpl. by rewrite Hwv4.
  - simpl. by rewrite Hts4.
Qed.

(** C7.  A MultiDDS step whose new global step count is a multiple of a
    non-zero [sampler_update_freq], in a container where the sampled task,
    the target and every task of the sampler have a config and a stream:
    after the ordinary optimizer step, the block runs the target's batch,
    reads its gradient and clears the buffers, then for each task runs its
    batch, reads a gradient made of that task's contributions only, and
    clears the buffers again.  No optimizer step is taken inside the block,
    which leaves the buffers cleared and the weights as the ordinary step
    left them. *)
Theorem multidds_probes_leave_gradients_zeroed (E : Collaborators)
    (c : JiantTaskContainer) (sampler_update_freq : Z) (target_task : string)
    (accumulate_target_grad : bool) (w : World) (cfg : TaskSpecificConfig) (n : Z)
    (Hcfg : task_specific_configs c !! sampler_draw E (sampler_pos w) = Some cfg)
    (Hgas : gradient_accumulation_steps cfg ≠ 0%Z)
    (Hpos : is_Some (stream_pos w !! sampler_draw E (sampler_pos w)))
    (Hcount : task_steps (train_state w) !! sampler_draw E (sampler_pos w) = Some n)
    (Hfreq : sampler_update_freq ≠ 0%Z)
    (Hon : ((global_steps (train_state w) + 1) mod sampler_update_freq = 0)%Z)
    (Htarget : target_task ∈ sampler_task_dict c)
    (Hcfgs : forall t, t ∈ sampler_task_dict c -> is_Some (task_specific_configs c !! t))
    (Hcover : streams_cover (sampler_task_dict c) w)
    (Hlast : forall t, last (sampler_task_dict c) = Some t ->
                       is_Some (task_steps (train_state w) !! t)) :
  let t := sampler_draw E (sampler_pos w) in
  exists w' batches target_batches probes line record,
    let main := [ev_model_train; ev_sampler_pop t] ++ batches ++
                [ev_optimizer_step; ev_zero_grad] in
    let block := target_batches ++
                 [ev_get_shared_grad true
                    (repeat target_task (accumulation_of c target_task));
                  ev_zero_grad] ++
                 (if accumulate_target_grad then [ev_accumulate_target_grad] else []) ++
                 probes ++
                 [ev_update_sampler;
                  ev_file_append "sampling_probabilities_logs.jsonl" line] in
    MultiDDSRunner.run_train_step E c sampler_update_freq target_task
      accumulate_target_grad w = Ok tt w' /\
    trace w' = trace w ++ main ++ block ++ [ev_write_entry "loss_train" record] /\
    Forall (micro_event t) batches /\
    Forall (micro_event target_task) target_batches /\
    count_events is_backpropagate target_batches = accumulation_of c target_task /\
    probe_rounds c (sampler_task_dict c) probes /\
    count_events is_weights_update main = 1 /\
    count_events is_weights_update block = 0 /\
    count_events is_zero_grad block = 1 + length (sampler_task_dict c) /\
    shared_grad_reads block =
      repeat target_task (accumulation_of c target_task) ::
      map (fun t' => repeat t' (accumulation_of c t')) (sampler_task_dict c) /\
    grad_buf w' = [] /\
    weights_version w' = S (weights_version w).
Proof.
  intros t.
  assert (Et : t = sampler_draw E (sampler_pos w)) by done.
  clearbody t. rewrite <- Et in *.
  set (w1 := record_event (ev_sampler_pop t)
               (set_sampler_pos (S (sampler_pos w)) (record_event ev_model_train w))).
  destruct (multi_run_one_batch_spec E c t w1 ltac:(eauto) Hpos)
    as (lv & w2 & batches & Hrun2 & [Htr2 _ Hts2 _ Hwv2 _ _ _] & Hev2 & Hb2 & Hg2 & Hc2).
  set (ts' := {| global_steps := global_steps (train_state w) + 1;
                 task_steps := <[t := (n + 1)%Z]> (task_steps (train_state w)) |}).
  set (w3 := set_train_state ts'
               (record_event ev_zero_grad
                  (set_grad_buf []
                     (record_event ev_optimizer_step
                        (set_weights_version (S (weights_version w2)) w2))))).
  destruct (sampler_update_spec E c target_task accumulate_target_grad t w3
              Htarget Hcfgs)
    as (w4 & tb & probes & Hrun4 & Htr4 & Hev4 & Hb4 & Hpr4 & Hg4 & Hwv4 & Hts4).
  { intros t' Ht'. subst w3. simpl. by apply (Hc2 _ Hcover). }
  { done. }
  cbv zeta in Hrun4, Htr4.
  set (t_last := default t (last (sampler_task_dict c))) in *.
  assert (Hlast' : is_Some (task_steps ts' !! t_last)).
  { subst t_last ts'. simpl. destruct (last (sampler_task_dict c)) as [tl|] eqn:Hl; simpl.
    - destruct (decide (t = tl)) as [->|Hne].
      + rewrite lookup_insert_eq. eauto.
      + rewrite lookup_insert_ne by done. by apply Hlast.
    - rewrite lookup_insert_eq. eauto. }
  destruct Hlast' as [n_last Hn_last].
  destruct (probe_rounds_events _ _ _ Hpr4) as (P1 & P2 & P3).
  assert (Hz : forall t' l p, Forall (micro_event t') l ->
                 (forall e, micro_event t' e -> p e = false) -> count_events p l = 0).
  { intros t' l p Hl Hp0. by eapply count_events_excluded. }
  eexists _, batches, tb, probes, _, _. cbv zeta. split_and!.
  - assert (Hpop : task_sampler_pop E (record_event ev_model_train w) = Ok t w1).
    { unfold task_sampler_pop. cbn [sampler_pos record_event]. by rewrite <- Et. }
    unfold MultiDDSRunner.run_train_step, emit, get_config, getitem.
    unfold_monad. rewrite Hpop, Hcfg, Hrun2.
    unfold optimizer_scheduler_step, zero_grad, train_state_step, get_train_state, py_mod.
    cbn [train_state set_weights_version record_event set_grad_buf].
    rewrite Hts2. subst w1. cbn [train_state set_sampler_pos record_event].
    unfold step. rewrite Hcount. cbn [set_train_state train_state global_steps].
    destruct (Z.eqb_spec sampler_update_freq 0) as [|_]; [done|].
    rewrite Hon. cbn [Z.eqb]. fold ts'. fold w3. rewrite Hrun4.
    cbn [train_state]. rewrite Hts4. subst w3. cbn [train_state set_train_state].
    rewrite Hn_last. unfold py_div.
    destruct (Z.eqb_spec (gradient_accumulation_steps cfg) 0) as [|_]; [done|].
    unfold write_entry, emit. reflexivity.
  - cbn [trace record_event]. rewrite Htr4. subst w3.
    cbn [trace record_event set_train_state set_grad_buf set_weights_version
         train_state].
    rewrite Htr2. subst w1. cbn [trace record_event set_sampler_pos].
    subst ts'. cbn [global_steps]. rewrite <- !app_assoc. reflexivity.
  - done.
  - done.
  - done.
  - done.
  - rewrite !count_events_app. rewrite (Hz t batches) by (done || by intros []). done.
  - rewrite !count_events_app, P1. rewrite (Hz target_task tb) by (done || by intros []).
    by destruct accumulate_target_grad.
  - rewrite !count_events_app, P2. rewrite (Hz target_task tb) by (done || by intros []).
    destruct accumulate_target_grad; simpl; lia.
  - rewrite !shared_grad_reads_app, P3.
    rewrite (shared_grad_reads_micro target_task tb Hev4).
    destruct accumulate_target_grad; cbn [shared_grad_reads app];
      by rewrite app_nil_r.
  - cbn [grad_buf record_event]. exact Hg4.
  - cbn [weights_version record_event]. rewrite Hwv4. subst w3.
    cbn [weights_version set_train_state record_event set_grad_buf set_weights_version].
    by rewrite Hwv2.
Qed.

Lemma sample_two_tasks (P : string -> Prop) :
  P "mnli" -> P "rte" -> forall t, t ∈ ["mnli"; "rte"] -> P t.
Proof.
  intros Hm Hr t Ht.
  apply elem_of_cons in Ht as [->|Ht]; [done|].
  apply elem_of_cons in Ht as [->|Ht]; [done|].
  by apply elem_of_nil in Ht.
Qed.

Lemma multidds_probes_leave_gradients_zeroed_witness :
  exists w',
    MultiDDSRunner.run_train_step Sample.E Sample.container 1 "rte" false Sample.fresh
      = Ok tt w' /\
    grad_buf w' = [] /\
    weights_version w' = 1.
Proof.
  destruct (multidds_probes_leave_gradients_zeroed Sample.E Sample.container 1 "rte"
              false Sample.fresh (mkTaskSpecificConfig 2) 0%Z)
    as (w' & batches & tb & probes & line & record & Hrun & _ & _ & _ & _ & _ & _ & _ &
        _ & _ & Hg & Hwv).
  - vm_compute. reflexivity.
  - simpl. discriminate.
  - exists 0. vm_compute. reflexivity.
  - vm_compute. reflexivity.
  - discriminate.
  - vm_compute. reflexivity.
  - apply list_elem_of_further, list_elem_of_here.
  - apply (sample_two_tasks
             (fun t => is_Some (task_specific_configs Sample.container !! t)));
      eexists; vm_compute; reflexivity.
  - refine (sample_two_tasks (fun t => is_Some (stream_pos Sample.fresh !! t)) _ _);
      eexists; vm_compute; reflexivity.
  - intros t Ht. vm_compute in Ht. injection Ht as <-. eexists. vm_compute. reflexivity.
  - exists w'. split_and!; [exact Hrun | exact Hg | exact Hwv].
Defined.

Lemma reptile_step_brackets_inner_loop_witness :
  exists w' record,
    ReptileRunner.run_train_step Sample.E Sample.container 2 1 Sample.fresh = Ok tt w' /\
    count_events is_inner_step (trace w') = 2 /\
    count_events is_backpropagate (trace w') = 4 /\
    count_events is_optimizer_step (trace w') = 1 /\
    log_global_step record = 1%Z.
Proof.
  destruct (reptile_step_brackets_inner_loop Sample.E Sample.container 2 1 Sample.fresh
              (mkTaskSpecificConfig 2) 0 0%Z)
    as (w' & rounds & record & Hrun & Htr & _ & _ & Hi & _ & Hb & Ho & _ & _ & _ & _ & _ &
        Hg & _).
  - vm_compute. reflexivity.
  - simpl. lia.
  - lia.
  - lia.
  - vm_compute. reflexivity.
  - vm_compute. reflexivity.
  - exists w', record. rewrite Htr. split_and!; [exact Hrun|exact Hi|exact Hb|exact Ho|exact Hg].
Defined.

(* ===================================================================== *)
(** * The base step at its edges *)
(* ===================================================================== *)

(** X1.  With an accumulation factor of 0 the base step pulls no batch, still
    steps the optimizer and advances the [TrainState], and then fails on
    the division that builds the log record: [ZeroDivisionError], with no
    record written. *)
Theorem base_step_zero_accumulation (E : Collaborators) (c : JiantTaskContainer)
    (w : World) (cfg : TaskSpecificConfig) (n : Z)
    (Hcfg : task_specific_configs c !! sampler_draw E (sampler_pos w) = Some cfg)
    (Hgas : gradient_accumulation_steps cfg = 0%Z)
    (Hcount : task_steps (train_state w) !! sampler_draw E (sampler_pos w) = Some n) :
  let t := sampler_draw E (sampler_pos w) in
  exists w',
    JiantRunner.run_train_step E c w = Raise ZeroDivisionError w' /\
    trace w' = trace w ++ [ev_model_train; ev_sampler_pop t; ev_optimizer_step; ev_zero_grad] /\
    stream_pos w' = stream_pos w /\
    weights_version w' = S (weights_version w) /\
    step t (train_state w) = Return (train_state w') /\
    global_steps (train_state w') = (global_steps (train_state w) + 1)%Z.
Proof.
  intros t.
  assert (Et : t = sampler_draw E (sampler_pos w)) by done.
  clearbody t. rewrite <- Et in *.
  unfold JiantRunner.run_train_step, get_config, getitem, task_sampler_pop, emit.
  unfold_monad. cbn [sampler_pos record_event]. rewrite <- Et, Hcfg, Hgas.
  change (Z.to_nat 0) with 0. cbn [for_range]. unfold_monad.
  unfold optimizer_scheduler_step, zero_grad, train_state_step, get_train_state.
  cbn [train_state record_event set_grad_buf set_weights_version set_sampler_pos].
  unfold step. rewrite Hcount.
  cbn [train_state set_train_state task_steps]. rewrite lookup_insert_eq.
  unfold py_div. cbn [Z.eqb].
  eexists. split; [reflexivity|]. simpl. split_and!; try done.
  by rewrite <- !app_assoc.
Qed.

Lemma base_step_zero_accumulation_witness :
  exists w',
    JiantRunner.run_train_step Sample.E
      (mkJiantTaskContainer (Sample.configs 0) ["mnli"; "rte"] 3 ["mnli"; "rte"])
      Sample.fresh = Raise ZeroDivisionError w' /\
    weights_version w' = 1 /\
    global_steps (train_state w') = 1%Z.
Proof.
  destruct (base_step_zero_accumulation Sample.E
              (mkJiantTaskContainer (Sample.configs 0) ["mnli"; "rte"] 3 ["mnli"; "rte"])
              Sample.fresh (mkTaskSpecificConfig 0) 0%Z)
    as (w' & Hrun & _ & _ & Hwv & _ & Hg).
  - vm_compute. reflexivity.
  - reflexivity.
  - vm_compute. reflexivity.
  - exists w'. split_and!; [exact Hrun | exact Hwv | exact Hg].
Defined.

(** X2.  A sampled task with no entry in [task_specific_configs] stops the base
    step with [KeyError] right after the poll: the draw is used up, but no
    batch is pulled, no pass is run and neither the optimizer nor the
    [TrainState] moves. *)
Theorem base_step_unconfigured_task (E : Collaborators) (c : JiantTaskContainer)
    (w : World)
    (Hcfg : task_specific_configs c !! sampler_draw E (sampler_pos w) = None) :
  let t := sampler_draw E (sampler_pos w) in
  exists w',
    JiantRunner.run_train_step E c w = Raise (KeyError t) w' /\
    trace w' = trace w ++ [ev_model_train; ev_sampler_pop t] /\
    sampler_pos w' = S (sampler_pos w) /\
    stream_pos w' = stream_pos w /\
    grad_buf w' = grad_buf w /\
    weights_version w' = weights_version w /\
    train_state w' = train_state w.
Proof.
  intros t.
  assert (Et : t = sampler_draw E (sampler_pos w)) by done.
  clearbody t. rewrite <- Et in *.
  unfold JiantRunner.run_train_step, get_config, getitem, task_sampler_pop, emit.
  unfold_monad. cbn [sampler_pos record_event]. rewrite <- Et, Hcfg.
  eexists. split; [reflexivity|]. simpl. split_and!; try done.
  by rewrite <- !app_assoc.
Qed.

Lemma base_step_unconfigured_task_witness :
  exists w',
    JiantRunner.run_train_step Sample.E
      (mkJiantTaskContainer ∅ ["mnli"; "rte"] 3 ["mnli"; "rte"]) Sample.fresh
      = Raise (KeyError "mnli") w' /\
    weights_version w' = 0 /\
    sampler_pos w' = 1.
Proof.
  destruct (base_step_unconfigured_task Sample.E
              (mkJiantTaskContainer ∅ ["mnli"; "rte"] 3 ["mnli"; "rte"]) Sample.fresh)
    as (w' & Hrun & _ & Hsp & _ & _ & Hwv & _).
  - vm_compute. reflexivity.
  - exists w'. split_and!; [exact Hrun | exact Hwv | exact Hsp].
Defined.

(** X3.  A sampled task that the [TrainState] does not track is only found out
    at [train_state.step]: by then its batches have been backpropagated,
    the optimizer has stepped and the gradients are cleared.  The step ends
    in [KeyError] with the [TrainState] as it was and nothing logged. *)
Theorem base_step_untracked_task (E : Collaborators) (c : JiantTaskContainer)
    (w : World) (cfg : TaskSpecificConfig) (i : nat)
    (Hcfg : task_specific_configs c !! sampler_draw E (sampler_pos w) = Some cfg)
    (Hpos : stream_pos w !! sampler_draw E (sampler_pos w) = Some i)
    (Hcount : task_steps (train_state w) !! sampler_draw E (sampler_pos w) = None) :
  let t := sampler_draw E (sampler_pos w) in
  let k := gradient_accumulation_steps cfg in
  exists w' rounds,
    JiantRunner.run_train_step E c w = Raise (KeyError t) w' /\
    trace w' = trace w ++ [ev_model_train; ev_sampler_pop t] ++ rounds ++
               [ev_optimizer_step; ev_zero_grad] /\
    micro_batches E t k (trace w ++ [ev_model_train; ev_sampler_pop t]) i (Z.to_nat k) rounds /\
    weights_version w' = S (weights_version w) /\
    grad_buf w' = [] /\
    train_state w' = train_state w.
Proof.
  intros t k.
  assert (Et : t = sampler_draw E (sampler_pos w)) by done.
  assert (Ek : k = gradient_accumulation_steps cfg) by done.
  clearbody t k. rewrite <- Et in *.
  unfold JiantRunner.run_train_step, get_config, getitem, task_sampler_pop, emit.
  unfold_monad. cbn [sampler_pos record_event]. rewrite <- Et, Hcfg, <- Ek.
  set (w1 := record_event (ev_sampler_pop t) _).
  destruct (micro_loop_spec E t k (Z.to_nat k) 0%Q w1 i)
    as (lv & w2 & evs & Hrun & [Htr _ Hts _ Hwv _ _ _] & Hmb & Hs & Hg); [exact Hpos|].
  rewrite Hrun.
  unfold optimizer_scheduler_step, zero_grad, train_state_step.
  cbn [train_state record_event set_grad_buf set_weights_version].
  rewrite Hts. subst w1.
  cbn [train_state record_event set_sampler_pos]. unfold step. rewrite Hcount.
  eexists _, evs. split; [reflexivity|]. simpl in *. split_and!; try done.
  - rewrite Htr. by rewrite <- !app_assoc.
  - by rewrite <- !app_assoc in Hmb.
  - by rewrite Hwv.
Qed.

Lemma base_step_untracked_task_witness :
  exists w',
    JiantRunner.run_train_step Sample.E Sample.container
      (Sample.world (from_task_name_list ["rte"]) 0) = Raise (KeyError "mnli") w' /\
    weights_version w' = 1 /\
    global_steps (train_state w') = 0%Z.
Proof.
  destruct (base_step_untracked_task Sample.E Sample.container
              (Sample.world (from_task_name_list ["rte"]) 0) (mkTaskSpecificConfig 2) 0)
    as (w' & rounds & Hrun & _ & _ & Hwv & _ & Hts).
  - vm_compute. reflexivity.
  - vm_compute. reflexivity.
  - vm_compute. reflexivity.
  - exists w'. rewrite Hts. split_and!; [exact Hrun | exact Hwv | reflexivity].
Defined.

(* ===================================================================== *)
(** * MultiDDS away from the update period *)
(* ===================================================================== *)

Lemma micro_batch_train_state (E : Collaborators) (t : string) (k : Z) (acc acc' : Q)
    (w w' : World) :
  JiantRunner.micro_batch E t k acc w = Ok acc' w' -> train_state w' = train_state w.
Proof.
  unfold JiantRunner.micro_batch, dataloader_pop. unfold_monad.
  destruct (stream_pos w !! t); [|done]. simpl. by intros [= _ <-].
Qed.

Lemma micro_loop_train_state (E : Collaborators) (t : string) (k : Z) (n : nat)
    (acc acc' : Q) (w w' : World) :
  for_range n (JiantRunner.micro_batch E t k) acc w = Ok acc' w' ->
  train_state w' = train_state w.
Proof.
  apply (for_range_ok_invariant (fun w w' => train_state w' = train_state w)).
  - done.
  - intros w1 w2 w3 H12 H23. congruence.
  - intros a w1 a' w1'. apply micro_batch_train_state.
Qed.

(** X4.  On a step whose new global step count is not a multiple of a non-zero
    [sampler_update_freq], the MultiDDS step is the base step: same result,
    same calls, same final state - also when the step fails. *)
Theorem multidds_off_period_is_base_step (E : Collaborators) (c : JiantTaskContainer)
    (sampler_update_freq : Z) (target_task : string) (accumulate_target_grad : bool)
    (w : World)
    (Hfreq : sampler_update_freq ≠ 0%Z)
    (Hoff : ((global_steps (train_state w) + 1) mod sampler_update_freq ≠ 0)%Z) :
  MultiDDSRunner.run_train_step E c sampler_update_freq target_task
    accumulate_target_grad w =
  JiantRunner.run_train_step E c w.
Proof.
  unfold MultiDDSRunner.run_train_step, JiantRunner.run_train_step,
    MultiDDSRunner.run_one_batch, get_config, getitem, task_sampler_pop, emit.
  unfold_monad. cbn [sampler_pos record_event].
  set (t := sampler_draw E (sampler_pos w)).
  destruct (task_specific_configs c !! t) as [cfg|]; [|done].
  set (w1 := record_event (ev_sampler_pop t) _).
  destruct (for_range _ _ _ w1) as [lv w2|e w2|] eqn:Hloop; [|done..].
  pose proof (micro_loop_train_state _ _ _ _ _ _ _ _ Hloop) as Hts.
  unfold optimizer_scheduler_step, zero_grad, train_state_step, get_train_state.
  cbn [train_state record_event set_grad_buf set_weights_version].
  rewrite Hts. subst w1. cbn [train_state record_event set_sampler_pos].
  unfold step. destruct (task_steps (train_state w) !! t) as [n|]; [|done].
  cbn [train_state set_train_state global_steps]. unfold py_mod.
  destruct (Z.eqb_spec sampler_update_freq 0) as [|_]; [done|].
  destruct (Z.eqb_spec ((global_steps (train_state w) + 1) mod sampler_update_freq) 0)
    as [|_]; [done|].
  reflexivity.
Qed.

Lemma multidds_off_period_is_base_step_witness :
  MultiDDSRunner.run_train_step Sample.E Sample.container 2 "rte" false Sample.fresh =
  JiantRunner.run_train_step Sample.E Sample.container Sample.fresh.
Proof.
  apply (multidds_off_period_is_base_step Sample.E Sample.container 2 "rte" false
           Sample.fresh).
  - discriminate.
  - vm_compute. discriminate.
Defined.

(* ===================================================================== *)
(** * Evaluation at its edges *)
(* ===================================================================== *)

(** X5.  In the primary role [run_val] fails exactly on an empty stream: there it
    raises [ZeroDivisionError] once the model is in evaluation mode, and on
    every other stream it returns a result. *)
Theorem run_val_fails_exactly_on_empty_stream (E : Collaborators) (task : string)
    (val_dataloader : list Batch) (return_preds : bool) (w : World) :
  match val_dataloader with
  | [] =>
      run_val E val_dataloader task (-1) return_preds w =
      Raise ZeroDivisionError (record_event ev_model_eval w)
  | _ :: _ =>
      exists out w',
        run_val E val_dataloader task (-1) return_preds w = Ok (Some out) w' /\
        has_preds out = return_preds /\
        count_events is_forward (drop (length (trace w)) (trace w')) =
          length val_dataloader
  end.
Proof.
  destruct val_dataloader as [|b dl]; [reflexivity|].
  unfold run_val, emit. cbn [negb Z.eqb Pos.eqb]. unfold_monad.
  destruct (eval_loop_spec E task (b :: dl) 0%Q 0%Z 0%Z (record_event ev_model_eval w))
    as (total & examples & w' & evs & Hrun & Htr & Hrounds & _).
  rewrite Hrun. unfold py_div.
  destruct (Z.eqb_spec (0 + Z.of_nat (length (b :: dl))) 0) as [Hz|_].
  { simpl in Hz. lia. }
  eexists _, w'. split; [reflexivity|]. split; [done|].
  rewrite Htr. cbn [trace record_event]. rewrite <- app_assoc.
  rewrite drop_app_length. cbn [app count_events is_forward].
  by destruct (eval_rounds_losses _ _ _ _ _ Hrounds) as [_ ->].
Qed.

(* ===================================================================== *)
(** * DDS: what a batch run leaves alone *)
(* ===================================================================== *)

Lemma steady_refl (w : World) : steady w w.
Proof. split_and!; try done. exists []. by rewrite app_nil_r. Qed.

Lemma steady_trans (w1 w2 w3 : World) : steady w1 w2 -> steady w2 w3 -> steady w1 w3.
Proof.
  intros (T1 & V1 & e1 & H1 & F1) (T2 & V2 & e2 & H2 & F2).
  split_and!; [congruence..|]. exists (e1 ++ e2).
  rewrite H2, H1, app_assoc. split; [done | by apply Forall_app].
Qed.

Lemma steady_counts (evs : list event) :
  Forall steady_event evs ->
  count_events is_write_entry evs = 0 /\
  count_events is_file_append evs = 0 /\
  count_events is_weights_update evs = 0 /\
  count_events is_optimizer_step evs = 0 /\
  count_events is_dds_optimizer_step evs = 0.
Proof.
  induction 1 as [|e evs (A & B & C) _ (I1 & I2 & I3 & I4 & I5)]; [done|].
  cbn [count_events]. rewrite A, B, C, I1, I2, I3, I4, I5.
  destruct e; simpl in *; try done.
Qed.

Lemma one_micro_batch_steady (E : Collaborators) (t : string) (is_target : bool)
    (k : Z) (locals locals' : DDSRunner.batch_locals) (w w' : World) :
  DDSRunner.one_micro_batch E t is_target k locals w = Ok locals' w' -> steady w w'.
Proof.
  destruct locals as [[[last ids] ws] lv].
  unfold DDSRunner.one_micro_batch, dataloader_pop, wrap_jiant_forward, py_assert,
    DDSRunner.dds_weights_forward, complex_backpropagate.
  unfold_monad. destruct (stream_pos w !! t) as [i|]; [|done]. simpl.
  destruct (bool_decide _); [|done].
  destruct is_target; simpl; intros [= _ <-]; (split; [done|split; [done|]]).
  - eexists [_; _; _]. simpl. split; [by rewrite <- !app_assoc|].
    repeat constructor.
  - eexists [_; _; _; _]. simpl. split; [by rewrite <- !app_assoc|].
    repeat constructor.
Qed.

Lemma dds_run_one_batch_steady (E : Collaborators) (c : JiantTaskContainer)
    (t : string) (is_target : bool) (r : Batch * list Z * list Q * Q) (w w' : World) :
  DDSRunner.run_one_batch E c t is_target w = Ok r w' -> steady w w'.
Proof.
  unfold DDSRunner.run_one_batch, get_config, getitem, emit, read_local.
  unfold_monad. destruct (task_specific_configs c !! t) as [cfg|]; [|done].
  set (k := if is_target then 1%Z else gradient_accumulation_steps cfg).
  destruct (for_range _ _ _ _) as [[[[last ids] ws] lv] w1|e w1|] eqn:Hloop; [|done..].
  destruct last as [b|]; [|done]. intros [= _ <-].
  eapply steady_trans; [|eapply (for_range_ok_invariant steady);
                          [apply steady_refl | apply steady_trans | | exact Hloop]].
  - split; [done|split; [done|]]. exists [ev_weighting_eval]. split; [done|].
    repeat constructor.
  - intros. by eapply one_micro_batch_steady.
Qed.

Lemma sample_non_target_steady (E : Collaborators) (target : string) (fuel : nat)
    (w w' : World) (t : string) :
  DDSRunner.sample_non_target E target fuel w = Ok t w' -> steady w w'.
Proof.
  intros Hrun.
  destruct (sample_non_target_spec E target fuel w)
    as [[Hdiv _]|(j & w1 & _ & _ & _ & Hrun1 & Htr & _ & Hts & _ & _ & Hwv)]; [congruence|].
  rewrite Hrun in Hrun1. injection Hrun1 as _ <-.
  split; [done|split; [done|]]. eexists. split; [exact Htr|].
  generalize (polled E (sampler_pos w) (S j)). intros l.
  induction l as [|a l IH]; simpl; [done|]. constructor; [by repeat split | done].
Qed.

(** [n] micro-batches of the DDS routine on a task whose losses are well
    shaped: they all go through, and [example_ids] collects the ids of the
    [n] batches in order while [batch] ends up as the last one. *)
Lemma dds_micro_loop_spec (E : Collaborators) (t : string) (is_target : bool) (k : Z)
    (n : nat) :
  well_shaped E t ->
  forall (last : option Batch) (ids : list Z) (ws : list Q) (lv : Q) (w : World)
         (i : nat),
    stream_pos w !! t = Some i ->
    exists ws' lv' w' evs,
      for_range n (DDSRunner.one_micro_batch E t is_target k) (last, ids, ws, lv) w =
        Ok (match n with
            | O => last
            | S n' => Some (stream_batch E t (i + n'))
            end, ids ++ stream_example_ids E t i n, ws', lv') w' /\
      trace w' = trace w ++ evs /\
      Forall steady_event evs /\
      count_events is_backpropagate evs = n /\
      count_events is_zero_grad evs = 0 /\
      shared_grad_reads evs = [] /\
      train_state w' = train_state w /\
      weights_version w' = weights_version w /\
      stream_pos w' = <[t := i + n]> (stream_pos w) /\
      grad_buf w' = grad_buf w ++ repeat t n.
Proof.
  intros Hshape. induction n as [|n IH]; intros last ids ws lv w i Hpos.
  - exists ws, lv, w, []. cbn [for_range]. unfold_monad.
    unfold stream_example_ids. cbn [seq map concat]. rewrite !app_nil_r.
    split_and!; try done. rewrite Nat.add_0_r. by rewrite insert_id.
  - cbn [for_range]. unfold_monad.
    destruct (one_micro_batch_match E t is_target k (last, ids, ws, lv) w i Hpos
                (Hshape _ _)) as (l1 & w1 & e1 & Hrun1 & Htr1 & Hb1 & Hg1).
    pose proof (one_micro_batch_steady _ _ _ _ _ _ _ _ Hrun1) as (Hts1 & Hwv1 & e1' & Htr1' & Hst1).
    assert (e1' = e1) as -> by (rewrite Htr1 in Htr1'; by apply app_inv_head in Htr1').
    assert (Hl1 : exists ws1 lv1,
               l1 = (Some (stream_batch E t i), ids ++ example_id (stream_batch E t i),
                     ws1, lv1) /\
               stream_pos w1 = <[t := S i]> (stream_pos w) /\
               count_events is_zero_grad e1 = 0 /\
               shared_grad_reads e1 = []).
    { clear IH Hg1 Hb1 Hts1 Hwv1 Htr1' Hst1. revert Hrun1 Htr1.
      unfold DDSRunner.one_micro_batch, dataloader_pop, wrap_jiant_forward, py_assert,
        DDSRunner.dds_weights_forward, complex_backpropagate.
      unfold_monad. rewrite Hpos. simpl.
      rewrite (bool_decide_eq_true_2 _ (Hshape _ _)).
      destruct is_target; simpl; intros [= <- <-]; simpl; intros Htr1;
        rewrite <- !app_assoc in Htr1; apply app_inv_head in Htr1; subst e1;
        eexists _, _; by split_and!. }
    destruct Hl1 as (ws1 & lv1 & -> & Hs1 & Hz1 & Hr1).
    destruct (IH (Some (stream_batch E t i)) (ids ++ example_id (stream_batch E t i))
                ws1 lv1 w1 (S i))
      as (ws2 & lv2 & w2 & e2 & Hrun2 & Htr2 & Hst2 & Hb2 & Hz2 & Hr2 & Hts2 & Hwv2 & Hs2 & Hg2).
    { rewrite Hs1. apply lookup_insert_eq. }
    rewrite Hrun1. exists ws2, lv2, w2, (e1 ++ e2). split_and!.
    + rewrite Hrun2.
      assert (Hlast : match n with
                      | O => Some (stream_batch E t i)
                      | S n' => Some (stream_batch E t (S i + n'))
                      end = Some (stream_batch E t (i + n))).
      { destruct n; [by rewrite Nat.add_0_r|]. do 2 f_equal. lia. }
      assert (Hids : (ids ++ example_id (stream_batch E t i)) ++
                     stream_example_ids E t (S i) n =
                     ids ++ stream_example_ids E t i (S n)).
      { rewrite <- app_assoc. f_equal. unfold stream_example_ids.
        cbn [seq map concat]. rewrite Nat.add_0_r. f_equal.
        rewrite <- seq_shift, map_map. f_equal. apply map_ext. intros j.
        do 2 f_equal. lia. }
      by rewrite Hlast, Hids.
    + by rewrite Htr2, Htr1, app_assoc.
    + by apply Forall_app.
    + rewrite count_events_app. lia.
    + rewrite count_events_app. lia.
    + by rewrite shared_grad_reads_app, Hr1, Hr2.
    + congruence.
    + congruence.
    + rewrite Hs2, Hs1, insert_insert_eq. f_equal. lia.
    + rewrite Hg2, Hg1, <- app_assoc. done.
Qed.

Lemma stream_example_ids_succ (E : Collaborators) (t : string) (i n : nat) :
  stream_example_ids E t i (S n) =
  stream_example_ids E t i n ++ example_id (stream_batch E t (i + n)).
Proof.
  unfold stream_example_ids. rewrite seq_S, map_app, concat_app. simpl.
  by rewrite app_nil_r.
Qed.

Lemma stream_example_ids_length (E : Collaborators) (t : string) (i n : nat) :
  (forall j, example_id (stream_batch E t j) ≠ []) ->
  n <= length (stream_example_ids E t i n).
Proof.
  intros Hne. induction n as [|n IH]; [simpl; lia|].
  rewrite stream_example_ids_succ, length_app.
  specialize (Hne (i + n)). destruct (example_id (stream_batch E t (i + n))); [done|].
  simpl. lia.
Qed.

(** The DDS per-batch routine on a configured, streamed task with
    well-shaped losses and a positive number of micro-batches. *)
Lemma dds_run_one_batch_spec (E : Collaborators) (c : JiantTaskContainer)
    (t : string) (is_target : bool) (cfg : TaskSpecificConfig) (w : World) (i : nat) :
  task_specific_configs c !! t = Some cfg ->
  well_shaped E t ->
  stream_pos w !! t = Some i ->
  let n := Z.to_nat (if is_target then 1%Z else gradient_accumulation_steps cfg) in
  0 < n ->
  exists ws lv w' evs,
    DDSRunner.run_one_batch E c t is_target w =
      Ok (stream_batch E t (i + (n - 1)), stream_example_ids E t i n, ws, lv) w' /\
    trace w' = trace w ++ evs /\
    Forall steady_event evs /\
    count_events is_backpropagate evs = n /\
    count_events is_zero_grad evs = 0 /\
    shared_grad_reads evs = [] /\
    train_state w' = train_state w /\
    weights_version w' = weights_version w /\
    stream_pos w' = <[t := i + n]> (stream_pos w) /\
    grad_buf w' = grad_buf w ++ repeat t n.
Proof.
  intros Hcfg Hshape Hpos n Hn.
  unfold DDSRunner.run_one_batch, get_config, getitem, emit, read_local.
  unfold_monad. rewrite Hcfg. fold n.
  destruct (dds_micro_loop_spec E t is_target
              (if is_target then 1%Z else gradient_accumulation_steps cfg) n Hshape
              None [] [] 0%Q (record_event ev_weighting_eval w) i Hpos)
    as (ws & lv & w' & evs & Hrun & Htr & Hst & Hb & Hz & Hr & Hts & Hwv & Hs & Hg).
  rewrite Hrun. destruct n as [|n']; [lia|].
  exists ws, lv, w', (ev_weighting_eval :: evs). cbn [app].
  replace (S n' - 1) with n' by lia.
  split_and!; try done.
  - rewrite Htr. simpl. by rewrite <- app_assoc.
  - constructor; [by repeat split | done].
Qed.

(* ===================================================================== *)
(** * DDS: accumulation and the update period *)
(* ===================================================================== *)

Lemma count_events_polls (p : event -> bool) (names : list string) :
  (forall a, p (ev_sampler_pop a) = false) ->
  count_events p (map ev_sampler_pop names) = 0.
Proof.
  intros Hp. induction names as [|a l IH]; simpl; [done | by rewrite Hp, IH].
Qed.

(** X6.  The DDS step's check that "the accumulation is turned off" compares the
    rows of the last micro-batch with the example ids of all of them.  With
    an accumulation factor above 1, on a task whose batches are non-empty
    and carry one id per row, the check fails: [AssertionError] after the
    micro-batches have been backpropagated, with their gradients left in the
    buffers, no optimizer step and the [TrainState] unchanged. *)
Theorem dds_step_needs_accumulation_off (E : Collaborators) (c : JiantTaskContainer)
    (dds_update_freq dds_update_steps : Z) (target_task : string)
    (fuel : nat) (w0 : World) (t : string) (w1 : World) (cfg : TaskSpecificConfig)
    (i : nat)
    (Hsample :
       DDSRunner.sample_non_target E target_task fuel (record_event ev_model_train w0)
         = Ok t w1)
    (Hcfg : task_specific_configs c !! t = Some cfg)
    (Hgas : (1 < gradient_accumulation_steps cfg)%Z)
    (Hshape : well_shaped E t)
    (Hpos : stream_pos w1 !! t = Some i)
    (Hrows : forall j, input_ids_rows (stream_batch E t j) =
                       length (example_id (stream_batch E t j)))
    (Hnonempty : forall j, example_id (stream_batch E t j) ≠ []) :
  let k := Z.to_nat (gradient_accumulation_steps cfg) in
  exists w' new,
    DDSRunner.run_train_step E c dds_update_freq dds_update_steps target_task fuel w0
      = Raise AssertionError w' /\
    trace w' = trace w0 ++ new /\
    count_events is_backpropagate new = k /\
    count_events is_weights_update new = 0 /\
    count_events is_file_append new = 0 /\
    count_events is_write_entry new = 0 /\
    grad_buf w' = grad_buf w0 ++ repeat t k /\
    train_state w' = train_state w0.
Proof.
  intros k.
  destruct (sample_non_target_spec E target_task fuel (record_event ev_model_train w0))
    as [[Hdiv _]|(j & w1' & _ & _ & _ & Hrun1 & Htr1 & _ & Hts1 & _ & Hg1 & _)];
    [congruence|].
  rewrite Hsample in Hrun1. injection Hrun1 as _ <-.
  destruct (dds_run_one_batch_spec E c t false cfg w1 i Hcfg Hshape Hpos ltac:(lia))
    as (ws & lv & w2 & evs & Hrun & Htr & Hst & Hb & Hz & _ & Hts & Hwv & Hs & Hg).
  fold k in Hrun, Hb, Hg.
  unfold DDSRunner.run_train_step, DDSRunner.after_sampling, emit, get_config, getitem.
  unfold_monad. rewrite Hsample, Hcfg, Hrun. unfold py_assert.
  assert (Hneq : (input_ids_rows (stream_batch E t (i + (k - 1))) =?
                  length (stream_example_ids E t i k)) = false).
  { apply Nat.eqb_neq. rewrite Hrows.
    replace k with (S (k - 1)) at 2 by lia.
    rewrite stream_example_ids_succ, length_app.
    pose proof (stream_example_ids_length E t i (k - 1) Hnonempty). lia. }
  rewrite Hneq.
  destruct (steady_counts _ Hst) as (C1 & C2 & C3 & _).
  cbn [trace train_state grad_buf sampler_pos record_event] in Htr1, Hts1, Hg1.
  remember (polled E (sampler_pos w0) (S j)) as names eqn:Hnames. clear Hnames.
  exists w2, (ev_model_train :: map ev_sampler_pop names ++ evs).
  split; [reflexivity|].
  pose proof (fun p => count_events_polls p names) as Hpolls.
  split_and!.
  - rewrite Htr, Htr1, <- !app_assoc. reflexivity.
  - cbn [count_events is_backpropagate]. rewrite count_events_app, Hb, Hpolls; done.
  - cbn [count_events is_weights_update]. rewrite count_events_app, C3, Hpolls; done.
  - cbn [count_events is_file_append]. rewrite count_events_app, C2, Hpolls; done.
  - cbn [count_events is_write_entry]. rewrite count_events_app, C1, Hpolls; done.
  - by rewrite Hg, Hg1.
  - by rewrite Hts, Hts1.
Qed.

Lemma sample_well_shaped (t : string) : well_shaped Sample.E t.
Proof. intros past i. reflexivity. Qed.

Lemma dds_step_needs_accumulation_off_witness :
  exists w',
    DDSRunner.run_train_step Sample.E Sample.container 1 1 "rte" 2 Sample.fresh
      = Raise AssertionError w' /\
    count_events is_backpropagate (trace w') = 2 /\
    grad_buf w' = ["mnli"; "mnli"].
Proof.
  destruct (dds_step_needs_accumulation_off Sample.E Sample.container 1 1 "rte" 2
              Sample.fresh "mnli"
              (record_event (ev_sampler_pop "mnli")
                 (set_sampler_pos 1 (record_event ev_model_train Sample.fresh)))
              (mkTaskSpecificConfig 2) 0)
    as (w' & new & Hrun & Htr & Hb & _ & _ & _ & Hg & _).
  - vm_compute. reflexivity.
  - vm_compute. reflexivity.
  - simpl. lia.
  - apply sample_well_shaped.
  - vm_compute. reflexivity.
  - intros j. reflexivity.
  - intros j. discriminate.
  - exists w'. rewrite Htr. split_and!; [exact Hrun | exact Hb | exact Hg].
Defined.

(** One round of the periodic update. *)
Lemma update_round_spec (E : Collaborators) (c : JiantTaskContainer) (target : string)
    (batch : Batch) (locals : option (list Z) * option Q) (w : World)
    (cfg : TaskSpecificConfig) (i : nat) :
  target ∈ sampler_task_dict c ->
  task_specific_configs c !! target = Some cfg ->
  well_shaped E target ->
  stream_pos w !! target = Some i ->
  exists rl w' evs,
    DDSRunner.update_round E c target batch locals w =
      Ok (Some (label_id batch), Some rl) w' /\
    trace w' = trace w ++ evs /\
    count_events is_dds_optimizer_step evs = 1 /\
    count_events is_optimizer_step evs = 0 /\
    count_events is_write_entry evs = 0 /\
    count_events is_file_append evs = 0 /\
    shared_grad_reads evs = [grad_buf w ++ [target]] /\
    grad_buf w' = [] /\
    weights_version w' = S (weights_version w) /\
    train_state w' = train_state w /\
    stream_pos w' = <[target := S i]> (stream_pos w).
Proof.
  intros Hin Hcfg Hshape Hpos.
  destruct (dds_run_one_batch_spec E c target true cfg w i Hcfg Hshape Hpos ltac:(simpl; lia))
    as (ws & lv & w1 & evs & Hrun & Htr & Hst & Hb & Hz & Hr & Hts & Hwv & Hs & Hg).
  destruct (steady_counts _ Hst) as (C1 & C2 & C3 & C4 & C5).
  unfold DDSRunner.update_round, sampler_task_lookup, get_shared_grad, zero_grad,
    DDSRunner.dds_optimizer_step, DDSRunner.weighting_update, emit.
  unfold_monad. rewrite (bool_decide_eq_true_2 _ Hin), Hrun.
  eexists _, _, (evs ++ [_; _; _; _]). split; [reflexivity|].
  cbn [trace grad_buf weights_version train_state stream_pos record_event set_grad_buf
       set_weights_version].
  rewrite !count_events_app, shared_grad_reads_app, C1, C2, C4, C5, Hr.
  rewrite Htr, Hg.
  split; [by rewrite <- !app_assoc|]. simpl.
  split_and!; try done.
  - by rewrite Hwv.
  - rewrite Hs. by rewrite Nat.add_1_r.
Qed.

(** [n] rounds of the periodic update, one after the other. *)
Lemma update_rounds_spec (E : Collaborators) (c : JiantTaskContainer) (target : string)
    (batch : Batch) (cfg : TaskSpecificConfig) (n : nat) :
  target ∈ sampler_task_dict c ->
  task_specific_configs c !! target = Some cfg ->
  well_shaped E target ->
  forall (locals : option (list Z) * option Q) (w : World) (i : nat),
    stream_pos w !! target = Some i ->
    exists locals' w' evs,
      for_range n (DDSRunner.update_round E c target batch) locals w = Ok locals' w' /\
      match n with
      | O => locals' = locals /\ grad_buf w' = grad_buf w
      | S _ => (exists rl, locals' = (Some (label_id batch), Some rl)) /\ grad_buf w' = []
      end /\
      trace w' = trace w ++ evs /\
      count_events is_dds_optimizer_step evs = n /\
      count_events is_optimizer_step evs = 0 /\
      count_events is_write_entry evs = 0 /\
      count_events is_file_append evs = 0 /\
      length (shared_grad_reads evs) = n /\
      weights_version w' = weights_version w + n /\
      train_state w' = train_state w /\
      stream_pos w' = <[target := i + n]> (stream_pos w).
Proof.
  intros Hin Hcfg Hshape. induction n as [|n IH]; intros locals w i Hpos.
  - exists locals, w, []. cbn [for_range]. unfold_monad. rewrite app_nil_r, !Nat.add_0_r.
    split_and!; try done. by rewrite insert_id.
  - destruct (update_round_spec E c target batch locals w cfg i Hin Hcfg Hshape Hpos)
      as (rl & w1 & e1 & Hrun1 & Htr1 & D1 & O1 & W1 & F1 & R1 & G1 & V1 & T1 & S1).
    destruct (IH (Some (label_id batch), Some rl) w1 (S i))
      as (l2 & w2 & e2 & Hrun2 & Hl2 & Htr2 & D2 & O2 & W2 & F2 & R2 & V2 & T2 & S2).
    { rewrite S1. apply lookup_insert_eq. }
    exists l2, w2, (e1 ++ e2). cbn [for_range]. unfold_monad. rewrite Hrun1.
    rewrite !count_events_app, shared_grad_reads_app, length_app, R1.
    split_and!; try done; try lia; try congruence.
    + destruct n as [|n']; [destruct Hl2 as [-> _]; by exists rl | by destruct Hl2].
    + destruct n as [|n']; [destruct Hl2 as [_ ->]; done | by destruct Hl2].
    + by rewrite Htr2, Htr1, app_assoc.
    + simpl. lia.
    + rewrite S2, S1, insert_insert_eq. f_equal. lia.
Qed.

(** X7.  On a step whose new global step count is a multiple of
    [dds_update_freq], with at least one update round and a target task that
    the sampler knows and that is configured, streamed and well shaped, the
    DDS step completes: after the optimizer step come [dds_update_steps]
    updates of the weighting model and nothing else that moves weights; then
    exactly one line goes to [dds_details_logs.jsonl] and one ["loss_train"]
    entry is written.  The rewards logged are the label ids of the batch the
    step trained on. *)
Theorem dds_step_on_period (E : Collaborators) (c : JiantTaskContainer)
    (dds_update_freq dds_update_steps : Z) (target_task : string)
    (fuel : nat) (w0 : World) (t : string) (w1 : World) (cfg : TaskSpecificConfig)
    (batch : Batch) (example_ids : list Z) (dds_weights : list Q) (loss_val : Q)
    (w2 : World) (n : Z) (target_cfg : TaskSpecificConfig) (i : nat)
    (Hsample :
       DDSRunner.sample_non_target E target_task fuel (record_event ev_model_train w0)
         = Ok t w1)
    (Hcfg : task_specific_configs c !! t = Some cfg)
    (Hgas : gradient_accumulation_steps cfg ≠ 0%Z)
    (Hbatch :
       DDSRunner.run_one_batch E c t false w1
         = Ok (batch, example_ids, dds_weights, loss_val) w2)
    (Hrows : input_ids_rows batch = length example_ids)
    (Hcount : task_steps (train_state w0) !! t = Some n)
    (Hfreq : dds_update_freq ≠ 0%Z)
    (Hon : ((global_steps (train_state w0) + 1) mod dds_update_freq = 0)%Z)
    (Hsteps : (0 < dds_update_steps)%Z)
    (Htarget : target_task ∈ sampler_task_dict c)
    (Htcfg : task_specific_configs c !! target_task = Some target_cfg)
    (Htshape : well_shaped E target_task)
    (Htpos : stream_pos w2 !! target_task = Some i) :
  let g := (global_steps (train_state w0) + 1)%Z in
  exists w' updates rl_loss,
    DDSRunner.run_train_step E c dds_update_freq dds_update_steps target_task fuel w0
      = Ok tt w' /\
    trace w' =
      trace w2 ++
      [ev_get_shared_grad true (grad_buf w2); ev_optimizer_step; ev_zero_grad] ++
      updates ++
      [ev_file_append "dds_details_logs.jsonl"
         (DDSDetails t g example_ids (inject_Z <$> label_id batch) dds_weights rl_loss);
       ev_write_entry "loss_train"
         (mkLogRecord t (n + 1) g
            (loss_val / inject_Z (gradient_accumulation_steps cfg)) (Some rl_loss))] /\
    count_events is_dds_optimizer_step updates = Z.to_nat dds_update_steps /\
    count_events is_optimizer_step updates = 0 /\
    count_events is_write_entry updates = 0 /\
    count_events is_file_append updates = 0 /\
    length (shared_grad_reads updates) = Z.to_nat dds_update_steps /\
    grad_buf w' = [] /\
    weights_version w' = weights_version w0 + 1 + Z.to_nat dds_update_steps /\
    step t (train_state w0) = Return (train_state w') /\
    stream_pos w' = <[target_task := i + Z.to_nat dds_update_steps]> (stream_pos w2).
Proof.
  intros g.
  pose proof (sample_non_target_steady _ _ _ _ _ _ Hsample) as Hq1.
  pose proof (dds_run_one_batch_steady _ _ _ _ _ _ _ Hbatch) as Hq2.
  destruct (steady_trans _ _ _ Hq1 Hq2) as (Hts & Hwv & _).
  cbn [train_state weights_version record_event] in Hts, Hwv.
  set (ts' := {| global_steps := g;
                 task_steps := <[t := (n + 1)%Z]> (task_steps (train_state w0)) |}).
  set (w3 := set_train_state ts'
               (record_event ev_zero_grad
                  (set_grad_buf []
                     (record_event ev_optimizer_step
                        (set_weights_version (S (weights_version w2))
                           (record_event (ev_get_shared_grad true (grad_buf w2)) w2)))))).
  destruct (update_rounds_spec E c target_task batch target_cfg
              (Z.to_nat dds_update_steps) Htarget Htcfg Htshape (None, None) w3 i)
    as (l4 & w4 & updates & Hrun4 & Hl4 & Htr4 & D4 & O4 & W4 & F4 & R4 & V4 & T4 & S4).
  { exact Htpos. }
  destruct (Z.to_nat dds_update_steps) as [|k] eqn:Hk; [lia|].
  destruct Hl4 as [[rl ->] Hg4].
  exists (record_event
            (ev_write_entry "loss_train"
               (mkLogRecord t (n + 1) g
                  (loss_val / inject_Z (gradient_accumulation_steps cfg)) (Some rl)))
            (record_event
               (ev_file_append "dds_details_logs.jsonl"
                  (DDSDetails t g example_ids (inject_Z <$> label_id batch) dds_weights rl))
               w4)), updates, rl.
  split_and!; try done.
  - unfold DDSRunner.run_train_step, DDSRunner.after_sampling, emit, get_config, getitem.
    unfold_monad. rewrite Hsample, Hcfg, Hbatch.
    unfold py_assert, get_shared_grad, optimizer_scheduler_step, zero_grad,
      train_state_step, get_train_state, py_mod.
    rewrite Hrows, Nat.eqb_refl.
    cbn [train_state weights_version record_event set_grad_buf set_weights_version].
    rewrite Hts. unfold step. rewrite Hcount.
    cbn [train_state set_train_state global_steps].
    destruct (Z.eqb_spec dds_update_freq 0) as [|_]; [done|].
    rewrite Hon. cbn [Z.eqb]. fold g. fold ts'. fold w3. rewrite Hk, Hrun4.
    unfold read_local, DDSRunner.log_dds_details, emit.
    cbn [train_state record_event]. rewrite T4. subst w3.
    cbn [train_state set_train_state]. subst ts'. cbn [global_steps task_steps].
    rewrite lookup_insert_eq. unfold py_div.
    destruct (Z.eqb_spec (gradient_accumulation_steps cfg) 0) as [|_]; [done|].
    reflexivity.
  - cbn [trace record_event]. rewrite Htr4. subst w3.
    cbn [trace record_event set_train_state set_grad_buf set_weights_version].
    by rewrite <- !app_assoc.
  - cbn [weights_version record_event]. rewrite V4. subst w3.
    cbn [weights_version record_event set_train_state set_grad_buf set_weights_version].
    rewrite Hwv. lia.
  - cbn [train_state record_event]. rewrite T4. subst w3.
    cbn [train_state set_train_state]. unfold step. by rewrite Hcount.
Qed.

Lemma dds_step_on_period_witness :
  exists w',
    DDSRunner.run_train_step Sample.E Sample.plain_container 1 2 "rte" 2 Sample.fresh
      = Ok tt w' /\
    weights_version w' = 3 /\
    grad_buf w' = [].
Proof.
  edestruct (dds_step_on_period Sample.E Sample.plain_container 1 2 "rte" 2
               Sample.fresh "mnli")
    as (w' & updates & rl & Hrun & _ & _ & _ & _ & _ & _ & Hg & Hwv & _).
  - vm_compute. reflexivity.
  - vm_compute. reflexivity.
  - simpl. discriminate.
  - vm_compute. reflexivity.
  - reflexivity.
  - vm_compute. reflexivity.
  - discriminate.
  - vm_compute. reflexivity.
  - lia.
  - apply list_elem_of_further, list_elem_of_here.
  - vm_compute. reflexivity.
  - apply sample_well_shaped.
  - vm_compute. reflexivity.
  - exists w'. split_and!; [exact Hrun | exact Hwv | exact Hg].
Defined.

(** X8.  When [dds_update_steps] is not positive, the periodic update assigns
    neither [rewards] nor [rl_loss] even on a step that falls on the period:
    every DDS step that gets as far as counting itself then ends in
    [UnboundLocalError], with the optimizer stepped, the [TrainState]
    advanced and nothing logged. *)
Theorem dds_step_fails_without_update_rounds (E : Collaborators)
    (c : JiantTaskContainer) (dds_update_freq dds_update_steps : Z)
    (target_task : string) (fuel : nat) (w0 : World) (t : string) (w1 : World)
    (cfg : TaskSpecificConfig) (batch : Batch) (example_ids : list Z)
    (dds_weights : list Q) (loss_val : Q) (w2 : World) (n : Z)
    (Hsample :
       DDSRunner.sample_non_target E target_task fuel (record_event ev_model_train w0)
         = Ok t w1)
    (Hcfg : task_specific_configs c !! t = Some cfg)
    (Hbatch :
       DDSRunner.run_one_batch E c t false w1
         = Ok (batch, example_ids, dds_weights, loss_val) w2)
    (Hrows : input_ids_rows batch = length example_ids)
    (Hcount : task_steps (train_state w0) !! t = Some n)
    (Hfreq : dds_update_freq ≠ 0%Z)
    (Hsteps : (dds_update_steps <= 0)%Z) :
  exists w',
    DDSRunner.run_train_step E c dds_update_freq dds_update_steps target_task fuel w0
      = Raise (UnboundLocalError "rewards") w' /\
    trace w' =
      trace w2 ++ [ev_get_shared_grad true (grad_buf w2); ev_optimizer_step; ev_zero_grad] /\
    weights_version w' = S (weights_version w0) /\
    step t (train_state w0) = Return (train_state w').
Proof.
  pose proof (sample_non_target_steady _ _ _ _ _ _ Hsample) as Hq1.
  pose proof (dds_run_one_batch_steady _ _ _ _ _ _ _ Hbatch) as Hq2.
  destruct (steady_trans _ _ _ Hq1 Hq2) as (Hts & Hwv & _).
  cbn [train_state weights_version record_event] in Hts, Hwv.
  unfold DDSRunner.run_train_step, DDSRunner.after_sampling, emit, get_config, getitem.
  unfold_monad. rewrite Hsample, Hcfg, Hbatch.
  unfold py_assert, get_shared_grad, optimizer_scheduler_step, zero_grad,
    train_state_step, get_train_state, py_mod, read_local.
  rewrite Hrows, Nat.eqb_refl.
  cbn [train_state weights_version record_event set_grad_buf set_weights_version].
  rewrite Hts. unfold step. rewrite Hcount.
  cbn [train_state set_train_state global_steps].
  destruct (Z.eqb_spec dds_update_freq 0) as [|_]; [done|].
  replace (Z.to_nat dds_update_steps) with 0 by lia. cbn [for_range]. unfold_monad.
  eexists. split.
  - by destruct (_ =? 0)%Z.
  - cbn [trace weights_version train_state record_event set_train_state set_grad_buf
         set_weights_version].
    split_and!; [by rewrite <- !app_assoc | by rewrite Hwv | done].
Qed.

Lemma dds_step_fails_without_update_rounds_witness :
  exists w',
    DDSRunner.run_train_step Sample.E Sample.plain_container 1 0 "rte" 2 Sample.fresh
      = Raise (UnboundLocalError "rewards") w' /\
    weights_version w' = 1.
Proof.
  edestruct (dds_step_fails_without_update_rounds Sample.E Sample.plain_container 1 0
               "rte" 2 Sample.fresh "mnli")
    as (w' & Hrun & _ & Hwv & _).
  - vm_compute. reflexivity.
  - vm_compute. reflexivity.
  - vm_compute. reflexivity.
  - reflexivity.
  - vm_compute. reflexivity.
  - discriminate.
  - lia.
  - exists w'. split; [exact Hrun | exact Hwv].
Defined.

(* ===================================================================== *)
(** * MultiDDS: which task the update step reports *)
(* ===================================================================== *)

(** X9.  The probe loop of the MultiDDS update rebinds [task_name].  So on an
    update step the ["loss_train"] record and the sampling-probabilities
    line name the last task of the sampler's [task_dict], and the record
    carries that task's step count - next to the loss of the task that was
    sampled and trained on.  When the two tasks differ, the sampled task's
    step is counted but reported under the other name. *)
Theorem multidds_update_step_reports_last_task (E : Collaborators)
    (c : JiantTaskContainer) (sampler_update_freq : Z) (target_task : string)
    (accumulate_target_grad : bool) (w : World) (cfg : TaskSpecificConfig) (n : Z)
    (t_last : string) (n_last : Z)
    (Hcfg : task_specific_configs c !! sampler_draw E (sampler_pos w) = Some cfg)
    (Hgas : gradient_accumulation_steps cfg ≠ 0%Z)
    (Hpos : is_Some (stream_pos w !! sampler_draw E (sampler_pos w)))
    (Hcount : task_steps (train_state w) !! sampler_draw E (sampler_pos w) = Some n)
    (Hfreq : sampler_update_freq ≠ 0%Z)
    (Hon : ((global_steps (train_state w) + 1) mod sampler_update_freq = 0)%Z)
    (Htarget : target_task ∈ sampler_task_dict c)
    (Hcfgs : forall t, t ∈ sampler_task_dict c -> is_Some (task_specific_configs c !! t))
    (Hcover : streams_cover (sampler_task_dict c) w)
    (Hlast : last (sampler_task_dict c) = Some t_last)
    (Hother : t_last ≠ sampler_draw E (sampler_pos w))
    (Hcount_last : task_steps (train_state w) !! t_last = Some n_last) :
  let t := sampler_draw E (sampler_pos w) in
  exists w' before loss_val,
    MultiDDSRunner.run_train_step E c sampler_update_freq target_task
      accumulate_target_grad w = Ok tt w' /\
    trace w' =
      trace w ++ before ++
      [ev_update_sampler;
       ev_file_append "sampling_probabilities_logs.jsonl"
         (SamplingProbabilities t_last (global_steps (train_state w) + 1));
       ev_write_entry "loss_train"
         (mkLogRecord t_last n_last (global_steps (train_state w) + 1) loss_val None)] /\
    count_events is_write_entry before = 0 /\
    task_steps (train_state w') !! t = Some (n + 1)%Z /\
    task_steps (train_state w') !! t_last = Some n_last.
Proof.
  intros t.
  assert (Et : t = sampler_draw E (sampler_pos w)) by done.
  clearbody t. rewrite <- Et in *.
  set (w1 := record_event (ev_sampler_pop t)
               (set_sampler_pos (S (sampler_pos w)) (record_event ev_model_train w))).
  destruct (multi_run_one_batch_spec E c t w1 ltac:(eauto) Hpos)
    as (lv & w2 & batches & Hrun2 & [Htr2 _ Hts2 _ Hwv2 _ _ _] & Hev2 & Hb2 & Hg2 & Hc2).
  set (ts' := {| global_steps := global_steps (train_state w) + 1;
                 task_steps := <[t := (n + 1)%Z]> (task_steps (train_state w)) |}).
  set (w3 := set_train_state ts'
               (record_event ev_zero_grad
                  (set_grad_buf []
                     (record_event ev_optimizer_step
                        (set_weights_version (S (weights_version w2)) w2))))).
  destruct (sampler_update_spec E c target_task accumulate_target_grad t w3
              Htarget Hcfgs)
    as (w4 & tb & probes & Hrun4 & Htr4 & Hev4 & Hb4 & Hpr4 & Hg4 & Hwv4 & Hts4).
  { intros t' Ht'. subst w3. simpl. by apply (Hc2 _ Hcover). }
  { done. }
  cbv zeta in Hrun4, Htr4. rewrite Hlast in Hrun4, Htr4.
  cbn [default from_option] in Hrun4, Htr4. unfold id in Hrun4, Htr4.
  assert (Hz : forall t' l p, Forall (micro_event t') l ->
                 (forall e, micro_event t' e -> p e = false) -> count_events p l = 0).
  { intros t' l p Hl Hp0. by eapply count_events_excluded. }
  assert (Hprobes : count_events is_write_entry probes = 0).
  { clear -Hpr4 Hz. induction Hpr4 as [|t0 tasks b evs Hb _ _ IH]; [done|].
    rewrite !count_events_app, IH, (Hz t0 b) by (done || by intros []). done. }
  eexists _,
    ([ev_model_train; ev_sampler_pop t] ++ batches ++ [ev_optimizer_step; ev_zero_grad] ++
     tb ++
     [ev_get_shared_grad true (repeat target_task (accumulation_of c target_task));
      ev_zero_grad] ++
     (if accumulate_target_grad then [ev_accumulate_target_grad] else []) ++ probes),
    (lv / inject_Z (gradient_accumulation_steps cfg))%Q.
  split_and!.
  - assert (Hpop : task_sampler_pop E (record_event ev_model_train w) = Ok t w1).
    { unfold task_sampler_pop. cbn [sampler_pos record_event]. by rewrite <- Et. }
    unfold MultiDDSRunner.run_train_step, emit, get_config, getitem.
    unfold_monad. rewrite Hpop, Hcfg, Hrun2.
    unfold optimizer_scheduler_step, zero_grad, train_state_step, get_train_state, py_mod.
    cbn [train_state set_weights_version record_event set_grad_buf].
    rewrite Hts2. subst w1. cbn [train_state set_sampler_pos record_event].
    unfold step. rewrite Hcount. cbn [set_train_state train_state global_steps].
    destruct (Z.eqb_spec sampler_update_freq 0) as [|_]; [done|].
    rewrite Hon. cbn [Z.eqb]. fold ts'. fold w3. rewrite Hrun4.
    cbn [train_state]. rewrite Hts4. subst w3. cbn [train_state set_train_state].
    subst ts'. cbn [task_steps global_steps].
    rewrite lookup_insert_ne by done. rewrite Hcount_last. unfold py_div.
    destruct (Z.eqb_spec (gradient_accumulation_steps cfg) 0) as [|_]; [done|].
    unfold write_entry, emit. reflexivity.
  - cbn [trace record_event]. rewrite Htr4. subst w3.
    cbn [trace record_event set_train_state set_grad_buf set_weights_version
         train_state].
    rewrite Htr2. subst w1. cbn [trace record_event set_sampler_pos].
    subst ts'. cbn [global_steps]. rewrite <- !app_assoc. reflexivity.
  - rewrite !count_events_app, Hprobes.
    rewrite (Hz t batches), (Hz target_task tb) by (done || by intros []).
    by destruct accumulate_target_grad.
  - cbn [train_state record_event]. rewrite Hts4. subst w3 ts'.
    cbn [train_state set_train_state task_steps]. apply lookup_insert_eq.
  - cbn [train_state record_event]. rewrite Hts4. subst w3 ts'.
    cbn [train_state set_train_state task_steps]. by rewrite lookup_insert_ne.
Qed.

Lemma multidds_update_step_reports_last_task_witness :
  exists w' before loss_val,
    MultiDDSRunner.run_train_step Sample.E Sample.container 1 "rte" false Sample.fresh
      = Ok tt w' /\
    trace w' =
      before ++ [ev_write_entry "loss_train" (mkLogRecord "rte" 0 1 loss_val None)] /\
    task_steps (train_state w') !! "mnli" = Some 1%Z.
Proof.
  destruct (multidds_update_step_reports_last_task Sample.E Sample.container 1 "rte"
              false Sample.fresh (mkTaskSpecificConfig 2) 0%Z "rte" 0%Z)
    as (w' & before & lv & Hrun & Htr & _ & Hm & _).
  - vm_compute. reflexivity.
  - simpl. discriminate.
  - exists 0. vm_compute. reflexivity.
  - vm_compute. reflexivity.
  - discriminate.
  - vm_compute. reflexivity.
  - apply list_elem_of_further, list_elem_of_here.
  - apply (sample_two_tasks
             (fun t => is_Some (task_specific_configs Sample.container !! t)));
      eexists; vm_compute; reflexivity.
  - refine (sample_two_tasks (fun t => is_Some (stream_pos Sample.fresh !! t)) _ _);
      eexists; vm_compute; reflexivity.
  - reflexivity.
  - discriminate.
  - vm_compute. reflexivity.
  - eexists w', _, lv. split_and!; [exact Hrun | | exact Hm].
    rewrite Htr.
    change [ev_update_sampler;
            ev_file_append "sampling_probabilities_logs.jsonl"
              (SamplingProbabilities "rte" (global_steps (train_state Sample.fresh) + 1));
            ev_write_entry "loss_train"
              (mkLogRecord "rte" 0 (global_steps (train_state Sample.fresh) + 1) lv None)]
      with ([ev_update_sampler;
             ev_file_append "sampling_probabilities_logs.jsonl"
               (SamplingProbabilities "rte" 1)] ++
            [ev_write_entry "loss_train" (mkLogRecord "rte" 0 1 lv None)]).
    rewrite !app_assoc. reflexivity.
Defined.

(* ===================================================================== *)
(** * Reptile at its edges *)
(* ===================================================================== *)

(** X10.  When the accumulation factor, [num_sampled_tasks] or [inner_steps] is 0,
    the Reptile step still goes through its inner-loop brackets, steps the
    optimizer and advances the [TrainState], and only then fails on the
    division that normalises the logged loss: [ZeroDivisionError], with no
    record written. *)
Theorem reptile_step_zero_factor (E : Collaborators) (c : JiantTaskContainer)
    (inner_steps num_sampled_tasks : Z) (w : World) (cfg : TaskSpecificConfig)
    (i : nat) (n : Z)
    (Hcfg : task_specific_configs c !! sampler_draw E (sampler_pos w) = Some cfg)
    (Hzero : gradient_accumulation_steps cfg = 0%Z \/ num_sampled_tasks = 0%Z \/
             inner_steps = 0%Z)
    (Hpos : stream_pos w !! sampler_draw E (sampler_pos w) = Some i)
    (Hcount : task_steps (train_state w) !! sampler_draw E (sampler_pos w) = Some n) :
  let t := sampler_draw E (sampler_pos w) in
  exists w' rounds,
    ReptileRunner.run_train_step E c inner_steps num_sampled_tasks w
      = Raise ZeroDivisionError w' /\
    trace w' =
      trace w ++ [ev_model_train; ev_sampler_pop t; ev_inner_begin] ++ rounds ++
      [ev_inner_end; ev_optimizer_step; ev_zero_grad] /\
    count_events is_write_entry rounds = 0 /\
    count_events is_optimizer_step rounds = 0 /\
    weights_version w' = S (weights_version w) /\
    step t (train_state w) = Return (train_state w').
Proof.
  intros t.
  assert (Et : t = sampler_draw E (sampler_pos w)) by done.
  clearbody t. rewrite <- Et in *.
  set (k := gradient_accumulation_steps cfg) in *.
  unfold ReptileRunner.run_train_step, get_config, getitem, task_sampler_pop, emit.
  unfold_monad. simpl. rewrite <- Et. rewrite Hcfg. fold k.
  set (w1 := record_event ev_inner_begin _).
  destruct (reptile_inner_loop E t k (Z.to_nat num_sampled_tasks) (Z.to_nat k)
              (Z.to_nat inner_steps) 0%Q w1 i)
    as (lv & w2 & evs & Hrun & Hacc & Hir & Hs); [exact Hpos|].
  unfold emit in Hrun. unfold_monad. rewrite Hrun.
  destruct Hacc as [Htr Hloss Hts Hsp Hwv _ _ _].
  destruct (inner_rounds_events _ _ _ _ _ _ _ _ Hir)
    as (_ & _ & _ & I4 & _ & I6 & _).
  unfold optimizer_scheduler_step, zero_grad, train_state_step, get_train_state,
    py_div, write_entry, emit. simpl.
  rewrite Hts. simpl. unfold step. rewrite Hcount. simpl.
  rewrite lookup_insert_eq.
  set (w3 := set_train_state _ _).
  exists w3, evs. split.
  { destruct (Z.eqb_spec k 0); [done|].
    destruct (Z.eqb_spec num_sampled_tasks 0); [done|].
    destruct (Z.eqb_spec inner_steps 0); [done|].
    exfalso. destruct Hzero as [?|[?|?]]; done. }
  subst w3. simpl. split_and!; try done.
  - rewrite Htr. subst w1. simpl. by rewrite <- !app_assoc.
  - by rewrite Hwv.
Qed.

Lemma reptile_step_zero_factor_witness :
  exists w',
    ReptileRunner.run_train_step Sample.E Sample.container 0 1 Sample.fresh
      = Raise ZeroDivisionError w' /\
    weights_version w' = 1.
Proof.
  destruct (reptile_step_zero_factor Sample.E Sample.container 0 1 Sample.fresh
              (mkTaskSpecificConfig 2) 0 0%Z)
    as (w' & rounds & Hrun & _ & _ & _ & Hwv & _).
  - vm_compute. reflexivity.
  - right. right. reflexivity.
  - vm_compute. reflexivity.
  - vm_compute. reflexivity.
  - exists w'. split; [exact Hrun | exact Hwv].
Defined.

(* ===================================================================== *)
(** * Training contexts with nothing to do, or nothing to load *)
(* ===================================================================== *)

(** X11.  Resuming from a state that has already reached [max_steps] takes no
    step, whatever the runner's step algorithm: with every training task
    configured and present in the tables with its ["train"] cache, the
    context builds its streams, yields nothing, and leaves the
    [TrainState], the weights and the trace as they were. *)
Theorem resume_train_context_finished_run (c : JiantTaskContainer)
    (tables : EvalTaskContainer) (run_train_step : M unit) (w : World) (fuel : nat)
    (Hcfgs : forall t, t ∈ train_task_list c -> is_Some (task_specific_configs c !! t))
    (Hdata : train_data_present c tables)
    (Hdone : (max_steps c <= global_steps (train_state w))%Z) :
  exists w',
    for_generator (S fuel) (JiantRunner.resume_train_context c tables run_train_step)
      gen_created 0 w = Ok 0 w' /\
    train_state w' = train_state w /\
    weights_version w' = weights_version w /\
    grad_buf w' = grad_buf w /\
    sampler_pos w' = sampler_pos w /\
    trace w' = trace w.
Proof.
  eexists (set_stream_pos _ w). split; [|done].
  cbn [for_generator JiantRunner.resume_train_context]. unfold_monad.
  unfold JiantRunner.get_train_dataloader_dict. unfold_monad.
  rewrite train_dataloader_loop_ok.
  - unfold put_dataloaders, get_train_state. cbn [train_state set_stream_pos].
    replace (Z.to_nat (max_steps c - global_steps (train_state w))) with 0 by lia.
    reflexivity.
  - intros t Ht. apply train_entry_complete; [done..|by apply Hcfgs].
Qed.

Lemma resume_train_context_finished_run_witness :
  exists w',
    for_generator 1
      (JiantRunner.resume_train_context Sample.container Sample.tables
         (JiantRunner.run_train_step Sample.E Sample.container))
      gen_created 0
      (Sample.world {| global_steps := 3;
                       task_steps := <["mnli" := 2%Z]> (<["rte" := 1%Z]> ∅) |} 3)
      = Ok 0 w' /\
    global_steps (train_state w') = 3%Z /\
    trace w' = [].
Proof.
  destruct (resume_train_context_finished_run Sample.container Sample.tables
              (JiantRunner.run_train_step Sample.E Sample.container)
              (Sample.world {| global_steps := 3;
                               task_steps := <["mnli" := 2%Z]> (<["rte" := 1%Z]> ∅) |} 3)
              0)
    as (w' & Hrun & Hts & _ & _ & _ & Htr).
  - apply (sample_two_tasks
             (fun t => is_Some (task_specific_configs Sample.container !! t)));
      eexists; vm_compute; reflexivity.
  - exact sample_train_data_present.
  - simpl. lia.
  - exists w'. rewrite Hts, Htr. split_and!; [exact Hrun | reflexivity..].
Defined.

(** X12.  The first advance of [run_train_context] stops at the first
    training task for which the container has a gap: a task missing from
    [task_dict], from [task_cache_dict] or from [task_specific_configs]
    raises [KeyError] for its name, a missing ["train"] cache raises
    [KeyError] for ["train"].  No training step has run, no [TrainState]
    has been created, and the runner has no streams: what was built for
    the tasks before it is dropped with the local dict. *)
Theorem run_train_context_missing_entry (c : JiantTaskContainer)
    (tables : EvalTaskContainer) (run_train_step : M unit) (w : World)
    (before after : list string) (t k : string)
    (Hlist : train_task_list c = before ++ t :: after)
    (Hbefore : forall t', t' ∈ before -> train_entry_gap c tables t' = None)
    (Hgap : train_entry_gap c tables t = Some k) :
  JiantRunner.run_train_context c tables run_train_step gen_created w
    = Raise (KeyError k) w /\
  (k = t \/ k = "train").
Proof.
  split.
  - cbn [JiantRunner.run_train_context]. unfold JiantRunner.get_train_dataloader_dict.
    unfold_monad. rewrite Hlist.
    assert (Hloop : forall l (d : gmap string nat),
               (forall t', t' ∈ l -> train_entry_gap c tables t' = None) ->
               for_each (l ++ t :: after) (JiantRunner.train_dataloader_entry c tables)
                 d w = Raise (KeyError k) w).
    { induction l as [|a l IH]; intros d Hl; cbn [app for_each]; unfold_monad.
      - by rewrite (train_dataloader_entry_gap c tables t k d w Hgap).
      - rewrite train_dataloader_entry_ok by (apply Hl; left).
        apply IH. intros t' Ht'. apply Hl. by right. }
    by rewrite Hloop.
  - unfold train_entry_gap in Hgap.
    destruct (task_dict tables !! t); [|left; congruence].
    destruct (task_cache_dict tables !! t) as [caches|]; [|left; congruence].
    destruct (caches !! "train"); [|right; congruence].
    destruct (task_specific_configs c !! t); [done|left; congruence].
Qed.

Lemma run_train_context_missing_entry_witness :
  JiantRunner.run_train_context
    (mkJiantTaskContainer (Sample.configs 1) ["mnli"; "sst"; "rte"] 3 ["mnli"; "rte"])
    Sample.tables
    (JiantRunner.run_train_step Sample.E Sample.container) gen_created Sample.fresh
  = Raise (KeyError "sst") Sample.fresh.
Proof.
  apply (run_train_context_missing_entry
           (mkJiantTaskContainer (Sample.configs 1) ["mnli"; "sst"; "rte"] 3
              ["mnli"; "rte"])
           Sample.tables
           (JiantRunner.run_train_step Sample.E Sample.container) Sample.fresh
           ["mnli"] ["rte"] "sst" "sst").
  - reflexivity.
  - intros t' Ht'. apply list_elem_of_singleton in Ht' as ->.
    vm_compute. reflexivity.
  - vm_compute. reflexivity.
Defined.

(* ===================================================================== *)
(** * Evaluation over the container's tasks *)
(* ===================================================================== *)

Lemma evaluates_refl (w : World) : evaluates w w [].
Proof. constructor; try done. by rewrite app_nil_r. Qed.

Lemma evaluates_trans (w1 w2 w3 : World) (evs1 evs2 : list event) :
  evaluates w1 w2 evs1 -> evaluates w2 w3 evs2 -> evaluates w1 w3 (evs1 ++ evs2).
Proof.
  intros [A1 A2 A3 A4 A5 A6 A7] [B1 B2 B3 B4 B5 B6 B7]. constructor; try congruence.
  - by rewrite B1, A1, app_assoc.
  - by rewrite forallb_app, A2, B2.
Qed.

Lemma evaluates_event (e : event) (w : World) :
  is_eval_event e = true -> evaluates w (record_event e w) [e].
Proof. intros He. constructor; try done. simpl. by rewrite He. Qed.

Lemma eval_loop_evaluates (E : Collaborators) (task : string) (batches : list Batch) :
  forall (total : Q) (steps examples : Z) (w : World),
    exists total' examples' w' evs,
      for_each batches (eval_body E task) (total, steps, examples) w =
        Ok (total', (steps + Z.of_nat (length batches))%Z, examples') w' /\
      evaluates w w' evs /\
      count_events is_model_eval evs = 0.
Proof.
  induction batches as [|b batches IH]; intros total steps examples w.
  - exists total, examples, w, []. split; [|split; [apply evaluates_refl|done]].
    simpl. unfold_monad. do 3 f_equal. lia.
  - cbn [for_each]. unfold_monad. rewrite eval_body_run.
    set (batch_loss := mean (model_loss E (trace w) task b false)).
    set (w1 := record_event (ev_accumulator_update b batch_loss) _).
    destruct (IH (total + batch_loss)%Q (steps + 1)%Z
                (examples + Z.of_nat (batch_len b))%Z w1)
      as (total' & examples' & w' & evs & Hrun & Hev & Hcount).
    exists total', examples', w',
      ([ev_forward task b false] ++ [ev_accumulator_update b batch_loss] ++ evs).
    split; [|split].
    + rewrite Hrun. do 3 f_equal. cbn [length]. lia.
    + eapply evaluates_trans; [by apply evaluates_event|].
      eapply evaluates_trans; [by apply evaluates_event|]. exact Hev.
    + simpl. exact Hcount.
Qed.

Lemma run_val_evaluates (E : Collaborators) (task : string) (val_dataloader : list Batch)
    (return_preds : bool) (w : World) :
  val_dataloader ≠ [] ->
  exists out w' evs,
    run_val E val_dataloader task (-1) return_preds w = Ok (Some out) w' /\
    has_preds out = return_preds /\
    evaluates w w' evs /\
    count_events is_model_eval evs = 1.
Proof.
  intros Hne. unfold run_val, emit. cbn [negb Z.eqb Pos.eqb]. unfold_monad.
  destruct (eval_loop_evaluates E task val_dataloader 0%Q 0%Z 0%Z
              (record_event ev_model_eval w))
    as (total & examples & w' & evs & Hrun & Hev & Hcount).
  rewrite Hrun. unfold py_div.
  destruct (Z.eqb_spec (0 + Z.of_nat (length val_dataloader)) 0) as [Hz|_].
  { destruct val_dataloader; [done|]. simpl in Hz. lia. }
  eexists _, w', ([ev_model_eval] ++ evs). split; [reflexivity|].
  split; [done|]. split.
  - eapply evaluates_trans; [by apply evaluates_event|]. exact Hev.
  - simpl. by rewrite Hcount.
Qed.

Lemma test_body_run (task : string) (b : Batch) (u : unit) (w : World) :
  test_body task b u w =
  Ok tt (record_event (ev_accumulator_update b 0%Q)
           (record_event (ev_forward task b false) w)).
Proof. reflexivity. Qed.

Lemma test_loop_evaluates (task : string) (batches : list Batch) :
  forall w, exists w',
    for_each batches (test_body task) tt w = Ok tt w' /\
    evaluates w w' (test_rounds task batches).
Proof.
  induction batches as [|b batches IH]; intros w.
  - exists w. split; [done|apply evaluates_refl].
  - cbn [for_each]. unfold_monad. rewrite test_body_run.
    set (w1 := record_event (ev_accumulator_update b 0%Q) _).
    destruct (IH w1) as (w' & Hrun & Hev). exists w'. split; [done|].
    change (test_rounds task (b :: batches))
      with ([ev_forward task b false] ++ [ev_accumulator_update b 0%Q] ++
            test_rounds task batches).
    eapply evaluates_trans; [by apply evaluates_event|].
    eapply evaluates_trans; [by apply evaluates_event|]. exact Hev.
Qed.

Lemma test_rounds_no_mode_switch (task : string) (batches : list Batch) :
  count_events is_model_eval (test_rounds task batches) = 0.
Proof. induction batches as [|b batches IH]; [done|]. simpl. exact IH. Qed.

Lemma run_test_run (task : string) (test_dataloader : list Batch) (return_preds : bool)
    (w : World) :
  exists w',
    run_test test_dataloader task (-1) return_preds w =
      Ok (Some {| test_has_preds := return_preds |}) w' /\
    evaluates w w' (ev_model_eval :: test_rounds task test_dataloader).
Proof.
  unfold run_test, emit. cbn [negb Z.eqb Pos.eqb]. unfold_monad.
  destruct (test_loop_evaluates task test_dataloader (record_event ev_model_eval w))
    as (w' & Hrun & Hev).
  rewrite Hrun. exists w'. split; [done|].
  change (ev_model_eval :: test_rounds task test_dataloader)
    with ([ev_model_eval] ++ test_rounds task test_dataloader).
  eapply evaluates_trans; [by apply evaluates_event|]. exact Hev.
Qed.

(** X13.  In the primary role module-level [run_test] succeeds on every stream,
    the empty one included (where [run_val] divides by zero): it switches
    the model to evaluation mode, runs one forward pass per batch, hands
    the accumulator a loss of 0 each time, and touches nothing else. *)
Theorem run_test_succeeds_on_every_stream (task : string) (test_dataloader : list Batch)
    (return_preds : bool) (w : World) :
  exists w',
    run_test test_dataloader task (-1) return_preds w =
      Ok (Some {| test_has_preds := return_preds |}) w' /\
    evaluates w w' (ev_model_eval :: test_rounds task test_dataloader) /\
    count_events is_forward (test_rounds task test_dataloader) = length test_dataloader /\
    Forall (fun loss => loss = 0%Q) (batch_losses (test_rounds task test_dataloader)).
Proof.
  destruct (run_test_run task test_dataloader return_preds w) as (w' & Hrun & Hev).
  exists w'. split; [done|]. split; [done|]. split.
  - clear. induction test_dataloader as [|b dl IH]; [done|]. simpl. by rewrite IH.
  - clear. induction test_dataloader as [|b dl IH]; [constructor|].
    simpl. by constructor.
Qed.

(** Loops that fill a dict from the container's tables, one entry per task
    name, and raise [KeyError] where a table has a gap. *)
Section Tables.
Context {V : Type} (entry : string -> gmap string V -> M (gmap string V)).
Context (f : string -> option V).
Hypothesis entry_some : forall t v d w, f t = Some v -> entry t d w = Ok (<[t := v]> d) w.
Hypothesis entry_none : forall t d w, f t = None -> exists k, entry t d w = Raise (KeyError k) w.

Lemma table_loop_ok (l : list string) :
  forall d w,
    (forall t, t ∈ l -> is_Some (f t)) ->
    exists d',
      for_each l entry d w = Ok d' w /\
      forall t, d' !! t = if bool_decide (t ∈ l) then f t else d !! t.
Proof.
  induction l as [|a l IH]; intros d w Hall.
  - exists d. split; [done|]. intros t. case_bool_decide as Ht; [|done].
    by apply elem_of_nil in Ht.
  - destruct (Hall a) as (v & Hv); [left|].
    cbn [for_each]. unfold_monad. rewrite (entry_some _ _ _ _ Hv).
    destruct (IH (<[a := v]> d) w) as (d' & Hrun & Hd').
    { intros t Ht. apply Hall. by right. }
    exists d'. split; [done|]. intros t. rewrite Hd'.
    case_bool_decide as Ht.
    + rewrite bool_decide_true; [done|by right].
    + destruct (decide (t = a)) as [->|Hne].
      * rewrite bool_decide_true by left. by rewrite lookup_insert_eq.
      * rewrite bool_decide_false.
        -- by rewrite lookup_insert_ne.
        -- intros [?|?]%elem_of_cons; done.
Qed.

Lemma table_loop_missing (l : list string) :
  forall d w t,
    t ∈ l -> f t = None ->
    exists k, for_each l entry d w = Raise (KeyError k) w.
Proof.
  induction l as [|a l IH]; intros d w t Hin Hnone.
  - by apply elem_of_nil in Hin.
  - cbn [for_each]. unfold_monad. destruct (f a) as [v|] eqn:Ha.
    + rewrite (entry_some _ _ _ _ Ha). apply (IH _ _ t); [|done].
      apply elem_of_cons in Hin as [->|Hin]; [congruence|done].
    + destruct (entry_none a d w Ha) as (k & ->). by exists k.
Qed.

Lemma table_loop_cases (l : list string) (d : gmap string V) (w : World) :
  (forall t, t ∈ l -> is_Some (f t)) \/
  (exists k, for_each l entry d w = Raise (KeyError k) w).
Proof.
  induction l as [|a l IH] in d |- *.
  - left. intros t Ht. by apply elem_of_nil in Ht.
  - destruct (f a) as [v|] eqn:Ha.
    + destruct (IH (<[a := v]> d)) as [Hall|(k & Hk)].
      * left. intros t [->|Ht]%elem_of_cons; [by rewrite Ha|by apply Hall].
      * right. exists k. cbn [for_each]. unfold_monad.
        by rewrite (entry_some _ _ _ _ Ha).
    + right. destruct (entry_none a d w Ha) as (k & Hk). exists k.
      cbn [for_each]. unfold_monad. by rewrite Hk.
Qed.
End Tables.

Lemma eval_dataloader_entry_some (R : CacheReaders) (c : EvalTaskContainer)
    (phase : string) (use_subset : bool) (t : string) (dl : list Batch)
    (d : gmap string (list Batch)) (w : World) :
  eval_dataloader_of R c phase use_subset t = Some dl ->
  JiantRunnerEvaluation.eval_dataloader_entry R c phase use_subset t d w =
  Ok (<[t := dl]> d) w.
Proof.
  unfold eval_dataloader_of, JiantRunnerEvaluation.eval_dataloader_entry, getitem.
  unfold_monad.
  destruct (task_dict c !! t); [|done].
  destruct (task_cache_dict c !! t) as [caches|]; [|done].
  destruct (eval_specific_configs c !! t); [|done].
  destruct (caches !! phase); [|done]. by intros [= <-].
Qed.

Lemma eval_dataloader_entry_none (R : CacheReaders) (c : EvalTaskContainer)
    (phase : string) (use_subset : bool) (t : string)
    (d : gmap string (list Batch)) (w : World) :
  eval_dataloader_of R c phase use_subset t = None ->
  exists k,
    JiantRunnerEvaluation.eval_dataloader_entry R c phase use_subset t d w =
    Raise (KeyError k) w.
Proof.
  unfold eval_dataloader_of, JiantRunnerEvaluation.eval_dataloader_entry, getitem.
  unfold_monad.
  destruct (task_dict c !! t); [|by eexists].
  destruct (task_cache_dict c !! t) as [caches|]; [|by eexists].
  destruct (caches !! phase); [|by eexists].
  destruct (eval_specific_configs c !! t); [done|by eexists].
Qed.

Lemma val_labels_entry_some (R : CacheReaders) (c : EvalTaskContainer)
    (use_subset : bool) (t : string) (labels : list Z)
    (d : gmap string (list Z)) (w : World) :
  val_labels_of R c use_subset t = Some labels ->
  JiantRunnerEvaluation.val_labels_entry R c use_subset t d w = Ok (<[t := labels]> d) w.
Proof.
  unfold val_labels_of, JiantRunnerEvaluation.val_labels_entry, getitem. unfold_monad.
  destruct (eval_specific_configs c !! t); [|done].
  destruct (task_cache_dict c !! t) as [caches|]; [|done].
  destruct (caches !! "val_labels"); [|done]. by intros [= <-].
Qed.

Lemma val_labels_entry_none (R : CacheReaders) (c : EvalTaskContainer)
    (use_subset : bool) (t : string) (d : gmap string (list Z)) (w : World) :
  val_labels_of R c use_subset t = None ->
  exists k,
    JiantRunnerEvaluation.val_labels_entry R c use_subset t d w = Raise (KeyError k) w.
Proof.
  unfold val_labels_of, JiantRunnerEvaluation.val_labels_entry, getitem. unfold_monad.
  destruct (eval_specific_configs c !! t); [|by eexists].
  destruct (task_cache_dict c !! t) as [caches|]; [|by eexists].
  destruct (caches !! "val_labels"); [done|by eexists].
Qed.

Lemma eval_dataloader_of_task (R : CacheReaders) (c : EvalTaskContainer)
    (phase : string) (use_subset : bool) (t : string) :
  is_Some (eval_dataloader_of R c phase use_subset t) -> is_Some (task_dict c !! t).
Proof.
  unfold eval_dataloader_of. destruct (task_dict c !! t); [done|]. by intros [? ?].
Qed.

(** X14.  The method [run_val] looks every listed task up in the container's
    tables before it evaluates any: when one of them lacks a task, a
    validation cache, a labels cache or a config, the call raises
    [KeyError] and nothing has been run, in whichever role. *)
Theorem runner_run_val_checks_tables_first (E : Collaborators) (R : CacheReaders)
    (c : EvalTaskContainer) (local_rank : Z) (task_name_list : list string)
    (use_subset return_preds : bool) (w : World) (t : string)
    (Hin : t ∈ task_name_list)
    (Hgap : eval_dataloader_of R c "val" use_subset t = None \/
            val_labels_of R c use_subset t = None) :
  exists k,
    JiantRunnerEvaluation.run_val E R c local_rank task_name_list use_subset
      return_preds w = Raise (KeyError k) w.
Proof.
  unfold JiantRunnerEvaluation.run_val, JiantRunnerEvaluation.get_val_dataloader_dict,
    JiantRunnerEvaluation._get_eval_dataloader_dict,
    JiantRunnerEvaluation.get_val_labels_dict.
  unfold_monad.
  destruct (table_loop_cases
              (JiantRunnerEvaluation.eval_dataloader_entry R c "val" use_subset)
              (eval_dataloader_of R c "val" use_subset)
              (eval_dataloader_entry_some R c "val" use_subset)
              (eval_dataloader_entry_none R c "val" use_subset)
              task_name_list ∅ w) as [Hall|(k & Hk)].
  - destruct (table_loop_ok _ _ (eval_dataloader_entry_some R c "val" use_subset)
                task_name_list ∅ w Hall) as (dls & -> & _).
    destruct Hgap as [Hgap|Hgap].
    { destruct (Hall t Hin) as (? & ?). congruence. }
    destruct (table_loop_missing _ _ (val_labels_entry_some R c use_subset)
                (val_labels_entry_none R c use_subset) task_name_list ∅ w t Hin Hgap)
      as (k & ->).
    by exists k.
  - exists k. by rewrite Hk.
Qed.

Lemma runner_run_val_checks_tables_first_witness :
  exists k,
    JiantRunnerEvaluation.run_val Sample.E_val Sample.R Sample.eval_container (-1)
      ["mnli"; "sst"] false true Sample.fresh = Raise (KeyError k) Sample.fresh.
Proof.
  apply (runner_run_val_checks_tables_first Sample.E_val Sample.R Sample.eval_container
           (-1) ["mnli"; "sst"] false true Sample.fresh "sst").
  - right. left.
  - left. vm_compute. reflexivity.
Defined.

Lemma run_val_loop (E : Collaborators) (c : EvalTaskContainer)
    (dls : gmap string (list Batch)) (labels : gmap string (list Z))
    (return_preds : bool) (l : list string) :
  forall d w,
    (forall t, t ∈ l ->
       is_Some (task_dict c !! t) /\ is_Some (labels !! t) /\
       exists dl, dls !! t = Some dl /\ dl ≠ []) ->
    exists d' w' evs,
      for_each l (JiantRunnerEvaluation.run_val_entry E c (-1) dls labels return_preds)
        d w = Ok d' w' /\
      evaluates w w' evs /\
      count_events is_model_eval evs = length l /\
      (forall t, t ∈ l ->
         exists out, d' !! t = Some (Some out) /\ has_preds out = return_preds) /\
      (forall t, t ∉ l -> d' !! t = d !! t).
Proof.
  induction l as [|a l IH]; intros d w Hall.
  - exists d, w, []. split; [done|]. split; [apply evaluates_refl|].
    split; [done|]. split; [|done]. intros t Ht. by apply elem_of_nil in Ht.
  - destruct (Hall a) as ((task & Htask) & (lab & Hlab) & dl & Hdl & Hne); [left|].
    cbn [for_each]. unfold_monad.
    unfold JiantRunnerEvaluation.run_val_entry at 1. unfold getitem. unfold_monad.
    rewrite Htask, Hdl, Hlab.
    destruct (run_val_evaluates E task dl return_preds w Hne)
      as (out & w1 & evs1 & -> & Hpreds & Hev1 & Hc1).
    destruct (IH (<[a := Some out]> d) w1) as (d' & w' & evs & Hrun & Hev & Hc & Hin & Hout).
    { intros t Ht. apply Hall. by right. }
    exists d', w', (evs1 ++ evs). split; [done|].
    split; [by eapply evaluates_trans|].
    split; [rewrite count_events_app, Hc1, Hc; done|]. split.
    + intros t Ht. destruct (decide (t ∈ l)) as [Hl|Hl]; [by apply Hin|].
      apply elem_of_cons in Ht as [->|Ht]; [|done].
      exists out. by rewrite (Hout a Hl), lookup_insert_eq.
    + intros t Ht. rewrite Hout.
      * rewrite lookup_insert_ne; [done|]. intros ->. apply Ht. left.
      * intros Hl. apply Ht. by right.
Qed.

(** X15.  When the container has every table entry for the listed tasks and
    their validation streams are non-empty, the method [run_val] succeeds
    in the primary role: its dict has exactly the listed names as keys,
    each value carries predictions exactly when they were asked for, the
    model was switched to evaluation mode once per listed name, and the
    [TrainState], weights, gradient buffers, sampler and training streams
    are untouched. *)
Theorem runner_run_val_covers_task_list (E : Collaborators) (R : CacheReaders)
    (c : EvalTaskContainer) (task_name_list : list string)
    (use_subset return_preds : bool) (w : World)
    (Hready : forall t, t ∈ task_name_list ->
       is_Some (val_labels_of R c use_subset t) /\
       exists dl, eval_dataloader_of R c "val" use_subset t = Some dl /\ dl ≠ []) :
  exists d w' evs,
    JiantRunnerEvaluation.run_val E R c (-1) task_name_list use_subset return_preds w
      = Ok d w' /\
    evaluates w w' evs /\
    count_events is_model_eval evs = length task_name_list /\
    (forall t, is_Some (d !! t) <-> t ∈ task_name_list) /\
    (forall t out, d !! t = Some out ->
       exists o, out = Some o /\ has_preds o = return_preds).
Proof.
  unfold JiantRunnerEvaluation.run_val, JiantRunnerEvaluation.get_val_dataloader_dict,
    JiantRunnerEvaluation._get_eval_dataloader_dict,
    JiantRunnerEvaluation.get_val_labels_dict.
  unfold_monad.
  destruct (table_loop_ok _ _ (eval_dataloader_entry_some R c "val" use_subset)
              task_name_list ∅ w) as (dls & -> & Hdls).
  { intros t Ht. destruct (Hready t Ht) as (_ & dl & -> & _). by eexists. }
  destruct (table_loop_ok _ _ (val_labels_entry_some R c use_subset)
              task_name_list ∅ w) as (labels & -> & Hlabels).
  { intros t Ht. by destruct (Hready t Ht) as (? & _). }
  destruct (run_val_loop E c dls labels return_preds task_name_list ∅ w)
    as (d & w' & evs & Hrun & Hev & Hc & Hin & Hout).
  { intros t Ht. destruct (Hready t Ht) as (Hlab & dl & Hdl & Hne). split; [|split].
    - apply (eval_dataloader_of_task R c "val" use_subset). by rewrite Hdl.
    - rewrite Hlabels. by rewrite bool_decide_true.
    - exists dl. rewrite Hdls. by rewrite bool_decide_true. }
  exists d, w', evs. split; [done|]. split; [done|]. split; [done|]. split.
  - intros t. split.
    + intros Hsome. destruct (decide (t ∈ task_name_list)) as [?|Hn]; [done|].
      rewrite (Hout t Hn), lookup_empty in Hsome. by destruct Hsome.
    + intros Ht. destruct (Hin t Ht) as (out & -> & _). by eexists.
  - intros t out Ht. destruct (decide (t ∈ task_name_list)) as [Hl|Hn].
    + destruct (Hin t Hl) as (o & Ho & Hp). exists o. split; [congruence|done].
    + by rewrite (Hout t Hn), lookup_empty in Ht.
Qed.

Lemma runner_run_val_covers_task_list_witness :
  exists d w',
    JiantRunnerEvaluation.run_val Sample.E_val Sample.R Sample.eval_container (-1)
      ["rte"; "mnli"] true true Sample.fresh = Ok d w' /\
    train_state w' = train_state Sample.fresh /\
    is_Some (d !! "mnli").
Proof.
  destruct (runner_run_val_covers_task_list Sample.E_val Sample.R Sample.eval_container
              ["rte"; "mnli"] true true Sample.fresh)
    as (d & w' & evs & Hrun & Hev & _ & Hdom & _).
  - intros t Ht.
    assert (Hcases : t = "rte" \/ t = "mnli").
    { apply elem_of_cons in Ht as [->|Ht]; [by left|].
      apply list_elem_of_singleton in Ht as ->. by right. }
    destruct Hcases as [-> | ->].
    + split; [eexists; vm_compute; reflexivity|].
      eexists. split; [vm_compute; reflexivity|discriminate].
    + split; [eexists; vm_compute; reflexivity|].
      eexists. split; [vm_compute; reflexivity|discriminate].
  - exists d, w'. split; [exact Hrun|]. split; [exact (evl_train_state _ _ _ Hev)|].
    apply Hdom. right. left.
Defined.

Lemma for_each_app {X S} (body : X -> S -> M S) (l1 l2 : list X) :
  forall acc w,
    for_each (l1 ++ l2) body acc w =
    match for_each l1 body acc w with
    | Ok acc' w' => for_each l2 body acc' w'
    | Raise e w' => Raise e w'
    | Diverge => Diverge
    end.
Proof.
  induction l1 as [|a l1 IH]; intros acc w; [done|].
  cbn [app for_each]. unfold_monad. destruct (body a acc w); [apply IH|done..].
Qed.

Lemma run_val_loop_secondary (E : Collaborators) (c : EvalTaskContainer)
    (local_rank : Z) (dls : gmap string (list Batch)) (labels : gmap string (list Z))
    (return_preds : bool) (l : list string) :
  local_rank ≠ (-1)%Z ->
  forall d w,
    (forall t, t ∈ l ->
       is_Some (task_dict c !! t) /\ is_Some (labels !! t) /\ is_Some (dls !! t)) ->
    exists d',
      for_each l
        (JiantRunnerEvaluation.run_val_entry E c local_rank dls labels return_preds)
        d w = Ok d' w /\
      forall t, d' !! t = if bool_decide (t ∈ l) then Some None else d !! t.
Proof.
  intros Hrank. induction l as [|a l IH]; intros d w Hall.
  - exists d. split; [done|]. intros t. rewrite bool_decide_false; [done|].
    apply not_elem_of_nil.
  - destruct (Hall a) as ((task & Htask) & (lab & Hlab) & dl & Hdl); [left|].
    cbn [for_each]. unfold_monad.
    unfold JiantRunnerEvaluation.run_val_entry at 1. unfold getitem. unfold_monad.
    rewrite Htask, Hdl, Hlab. unfold run_val at 1.
    destruct (Z.eqb_spec local_rank (-1)) as [?|_]; [done|]. cbn [negb]. unfold_monad.
    destruct (IH (<[a := None]> d) w) as (d' & Hrun & Hd').
    { intros t Ht. apply Hall. by right. }
    exists d'. split; [done|]. intros t. rewrite Hd'. case_bool_decide as Ht.
    + rewrite bool_decide_true; [done|by right].
    + destruct (decide (t = a)) as [->|Hne].
      * rewrite bool_decide_true by left. by rewrite lookup_insert_eq.
      * rewrite bool_decide_false.
        -- by rewrite lookup_insert_ne.
        -- intros [?|?]%elem_of_cons; done.
Qed.

(** X16.  In any other role than the primary one the method [run_val] still
    needs every table entry of the listed tasks, but evaluates nothing: it
    returns a dict that maps each listed name to [None] and leaves the
    world, trace included, as it was. *)
Theorem runner_run_val_secondary_role (E : Collaborators) (R : CacheReaders)
    (c : EvalTaskContainer) (local_rank : Z) (task_name_list : list string)
    (use_subset return_preds : bool) (w : World)
    (Hrank : local_rank ≠ (-1)%Z)
    (Hready : forall t, t ∈ task_name_list ->
       is_Some (val_labels_of R c use_subset t) /\
       is_Some (eval_dataloader_of R c "val" use_subset t)) :
  exists d,
    JiantRunnerEvaluation.run_val E R c local_rank task_name_list use_subset
      return_preds w = Ok d w /\
    forall t, d !! t = if bool_decide (t ∈ task_name_list) then Some None else None.
Proof.
  unfold JiantRunnerEvaluation.run_val, JiantRunnerEvaluation.get_val_dataloader_dict,
    JiantRunnerEvaluation._get_eval_dataloader_dict,
    JiantRunnerEvaluation.get_val_labels_dict.
  unfold_monad.
  destruct (table_loop_ok _ _ (eval_dataloader_entry_some R c "val" use_subset)
              task_name_list ∅ w) as (dls & -> & Hdls).
  { intros t Ht. by destruct (Hready t Ht) as (_ & ?). }
  destruct (table_loop_ok _ _ (val_labels_entry_some R c use_subset)
              task_name_list ∅ w) as (labels & -> & Hlabels).
  { intros t Ht. by destruct (Hready t Ht) as (? & _). }
  destruct (run_val_loop_secondary E c local_rank dls labels return_preds
              task_name_list Hrank ∅ w) as (d & Hrun & Hd).
  { intros t Ht. destruct (Hready t Ht) as (Hlab & Hdl). split; [|split].
    - by apply (eval_dataloader_of_task R c "val" use_subset).
    - rewrite Hlabels. by rewrite bool_decide_true.
    - rewrite Hdls. by rewrite bool_decide_true. }
  exists d. split; [done|]. intros t. rewrite Hd. by rewrite lookup_empty.
Qed.

Lemma runner_run_val_secondary_role_witness :
  exists d,
    JiantRunnerEvaluation.run_val Sample.E_val Sample.R Sample.eval_container 0
      ["rte"] false true Sample.fresh = Ok d Sample.fresh /\
    d !! "rte" = Some None.
Proof.
  destruct (runner_run_val_secondary_role Sample.E_val Sample.R Sample.eval_container 0
              ["rte"] false true Sample.fresh) as (d & Hrun & Hd).
  - discriminate.
  - intros t Ht. apply list_elem_of_singleton in Ht as ->.
    split; eexists; vm_compute; reflexivity.
  - exists d. split; [exact Hrun|]. rewrite Hd. reflexivity.
Defined.

Lemma run_test_loop (c : EvalTaskContainer) (dls : gmap string (list Batch))
    (l : list string) :
  forall d w,
    (forall t, t ∈ l -> is_Some (task_dict c !! t) /\ is_Some (dls !! t)) ->
    exists d' w' evs,
      for_each l (JiantRunnerEvaluation.run_test_entry c (-1) dls) d w = Ok d' w' /\
      evaluates w w' evs /\
      count_events is_model_eval evs = length l /\
      forall t, d' !! t = if bool_decide (t ∈ l)
                          then Some (Some {| test_has_preds := true |})
                          else d !! t.
Proof.
  induction l as [|a l IH]; intros d w Hall.
  - exists d, w, []. split; [done|]. split; [apply evaluates_refl|].
    split; [done|]. intros t. rewrite bool_decide_false; [done|].
    apply not_elem_of_nil.
  - destruct (Hall a) as ((task & Htask) & dl & Hdl); [left|].
    cbn [for_each]. unfold_monad.
    unfold JiantRunnerEvaluation.run_test_entry at 1. unfold getitem. unfold_monad.
    rewrite Htask, Hdl.
    destruct (run_test_run task dl true w) as (w1 & -> & Hev1).
    destruct (IH (<[a := Some {| test_has_preds := true |}]> d) w1)
      as (d' & w' & evs & Hrun & Hev & Hc & Hd').
    { intros t Ht. apply Hall. by right. }
    exists d', w', ((ev_model_eval :: test_rounds task dl) ++ evs).
    split; [done|]. split; [by eapply evaluates_trans|]. split.
    { rewrite count_events_app, Hc. cbn [count_events is_model_eval].
      by rewrite test_rounds_no_mode_switch. }
    intros t. rewrite Hd'. case_bool_decide as Ht.
    + rewrite bool_decide_true; [done|by right].
    + destruct (decide (t = a)) as [->|Hne].
      * rewrite bool_decide_true by left. by rewrite lookup_insert_eq.
      * rewrite bool_decide_false.
        -- by rewrite lookup_insert_ne.
        -- intros [?|?]%elem_of_cons; done.
Qed.

(** X17.  The method [run_test] builds streams for the container's
    [test_task_list] only.  With complete tables for those tasks, a call
    that lists nothing else succeeds in the primary role whatever the
    streams hold: every listed name gets a result with predictions, and only
    evaluation events happen. *)
Theorem runner_run_test_returns_predictions (R : CacheReaders) (c : EvalTaskContainer)
    (PHASE_TEST : string) (task_name_list : list string) (w : World)
    (Hready : forall t, t ∈ test_task_list c ->
       is_Some (eval_dataloader_of R c PHASE_TEST false t))
    (Hlisted : forall t, t ∈ task_name_list -> t ∈ test_task_list c) :
  exists d w' evs,
    JiantRunnerEvaluation.run_test R c PHASE_TEST (-1) task_name_list w = Ok d w' /\
    evaluates w w' evs /\
    count_events is_model_eval evs = length task_name_list /\
    forall t, d !! t = if bool_decide (t ∈ task_name_list)
                       then Some (Some {| test_has_preds := true |})
                       else None.
Proof.
  unfold JiantRunnerEvaluation.run_test, JiantRunnerEvaluation.get_test_dataloader_dict,
    JiantRunnerEvaluation._get_eval_dataloader_dict.
  unfold_monad.
  destruct (table_loop_ok _ _ (eval_dataloader_entry_some R c PHASE_TEST false)
              (test_task_list c) ∅ w Hready) as (dls & -> & Hdls).
  destruct (run_test_loop c dls task_name_list ∅ w)
    as (d & w' & evs & Hrun & Hev & Hc & Hd).
  { intros t Ht. split.
    - apply (eval_dataloader_of_task R c PHASE_TEST false), Hready, Hlisted, Ht.
    - rewrite Hdls, bool_decide_true by by apply Hlisted. by apply Hready, Hlisted. }
  exists d, w', evs. split; [done|]. split; [done|]. split; [done|].
  intros t. rewrite Hd. by rewrite lookup_empty.
Qed.

Lemma runner_run_test_returns_predictions_witness :
  exists d w',
    JiantRunnerEvaluation.run_test Sample.R Sample.eval_container "test" (-1)
      ["rte"] Sample.fresh = Ok d w' /\
    d !! "rte" = Some (Some {| test_has_preds := true |}).
Proof.
  destruct (runner_run_test_returns_predictions Sample.R Sample.eval_container "test"
              ["rte"] Sample.fresh) as (d & w' & evs & Hrun & _ & _ & Hd).
  - intros t Ht. apply list_elem_of_singleton in Ht as ->.
    eexists. vm_compute. reflexivity.
  - intros t Ht. exact Ht.
  - exists d, w'. split; [exact Hrun|]. rewrite Hd. reflexivity.
Defined.

(** X18.  A name outside [test_task_list] makes the method [run_test] raise
    [KeyError] for that name, but only when the loop reaches it: the tasks
    listed before it have been run through the model by then. *)
Theorem runner_run_test_outside_test_list (R : CacheReaders) (c : EvalTaskContainer)
    (PHASE_TEST : string) (before after : list string) (t : string) (w : World)
    (Hready : forall t', t' ∈ test_task_list c ->
       is_Some (eval_dataloader_of R c PHASE_TEST false t'))
    (Hbefore : forall t', t' ∈ before -> t' ∈ test_task_list c)
    (Hout : t ∉ test_task_list c) :
  exists w' evs,
    JiantRunnerEvaluation.run_test R c PHASE_TEST (-1) (before ++ t :: after) w
      = Raise (KeyError t) w' /\
    evaluates w w' evs /\
    count_events is_model_eval evs = length before.
Proof.
  unfold JiantRunnerEvaluation.run_test, JiantRunnerEvaluation.get_test_dataloader_dict,
    JiantRunnerEvaluation._get_eval_dataloader_dict.
  unfold_monad.
  destruct (table_loop_ok _ _ (eval_dataloader_entry_some R c PHASE_TEST false)
              (test_task_list c) ∅ w Hready) as (dls & -> & Hdls).
  destruct (run_test_loop c dls before ∅ w)
    as (d & w' & evs & Hrun & Hev & Hc & Hd).
  { intros t' Ht'. split.
    - apply (eval_dataloader_of_task R c PHASE_TEST false), Hready, Hbefore, Ht'.
    - rewrite Hdls, bool_decide_true by by apply Hbefore. by apply Hready, Hbefore. }
  exists w', evs. split; [|done].
  rewrite for_each_app, Hrun. cbn [for_each]. unfold_monad.
  unfold JiantRunnerEvaluation.run_test_entry at 1. unfold getitem. unfold_monad.
  destruct (task_dict c !! t); [|done].
  rewrite Hdls, bool_decide_false by done. by rewrite lookup_empty.
Qed.

Lemma runner_run_test_outside_test_list_witness :
  exists w',
    JiantRunnerEvaluation.run_test Sample.R Sample.eval_container "test" (-1)
      ["rte"; "mnli"] Sample.fresh = Raise (KeyError "mnli") w' /\
    train_state w' = train_state Sample.fresh.
Proof.
  destruct (runner_run_test_outside_test_list Sample.R Sample.eval_container "test"
              ["rte"] [] "mnli" Sample.fresh) as (w' & evs & Hrun & Hev & _).
  - intros t Ht. apply list_elem_of_singleton in Ht as ->.
    eexists. vm_compute. reflexivity.
  - intros t Ht. exact Ht.
  - intros Hin. apply list_elem_of_singleton in Hin. discriminate.
  - exists w'. split; [exact Hrun|exact (evl_train_state _ _ _ Hev)].
Defined.


(* ===================================================================== *)
(** * CheckpointSaver *)
(* ===================================================================== *)

Lemma string_app_cons (a : Ascii.ascii) (s t : string) :
  String a s +:+ t = String a (s +:+ t).
Proof. reflexivity. Qed.

Lemma string_length_app (s t : string) :
  String.length (s +:+ t) = String.length s + String.length t.
Proof.
  induction s as [|a s IH]; [done|].
  rewrite string_app_cons. cbn [String.length]. by rewrite IH.
Qed.

Lemma string_app_inj_r (t s1 s2 : string) : s1 +:+ t = s2 +:+ t -> s1 = s2.
Proof.
  revert s2. induction s1 as [|a s1 IH]; intros [|b s2] H; [done| | |].
  - apply (f_equal String.length) in H.
    rewrite string_app_cons in H. cbn [String.length] in H.
    rewrite !string_length_app in H. cbn [String.length] in H. lia.
  - apply (f_equal String.length) in H.
    rewrite string_app_cons in H. cbn [String.length] in H.
    rewrite !string_length_app in H. cbn [String.length] in H. lia.
  - rewrite !string_app_cons in H. injection H as -> H. f_equal. by apply IH.
Qed.

Lemma path_join_inj (a b1 b2 : string) :
  String.prefix "/" b1 = false -> String.prefix "/" b2 = false ->
  path_join a b1 = path_join a b2 -> b1 = b2.
Proof.
  unfold path_join. intros -> ->.
  destruct (String.eqb a "" || endswith_sep a).
  - by intros ?%(inj (String.app a)).
  - by intros ?%(inj (String.app a))%(inj (String.app "/")).
Qed.

Lemma numbered_path_inj (dir : string) (n m : Z) :
  numbered_path dir n = numbered_path dir m -> n = m.
Proof.
  unfold numbered_path. intros H%path_join_inj; [|reflexivity..].
  apply (inj (String.app "checkpoint_")) in H.
  apply string_app_inj_r in H. by apply (inj pretty) in H.
Qed.

Section CheckpointFacts.
Context {State Metadata : Type}.
Implicit Types (self : CheckpointSaver Metadata) (files : gmap string (Checkpoint State Metadata)).

Lemma save_all_cons self (rs ms : State) (l : list (State * State)) files :
  save_all self ((rs, ms) :: l) files =
  save_all (save self rs ms files).1 l (save self rs ms files).2.
Proof. unfold save_all. cbn [foldl]. by destruct (save self rs ms files). Qed.

Lemma save_all_numbered (l : list (State * State)) :
  forall self files,
    multiple_checkpoints self = true ->
    exists files',
      save_all self l files =
        ({| metadata := metadata self; output_dir := output_dir self;
            multiple_checkpoints := true;
            save_count := save_count self + Z.of_nat (length l) |}, files') /\
      (forall i rs ms, l !! i = Some (rs, ms) ->
         files' !! numbered_path (output_dir self) (save_count self + Z.of_nat i) =
         Some (mkCheckpoint rs ms (metadata self))) /\
      (forall p,
         (forall i, i < length l ->
            p ≠ numbered_path (output_dir self) (save_count self + Z.of_nat i)) ->
         files' !! p = files !! p).
Proof.
  induction l as [|[rs ms] l IH]; intros self files Hmulti.
  - exists files. split; [|split; [|done]].
    + destruct self as [m d b n]. simpl in *. subst b. unfold save_all. simpl.
      do 2 f_equal. lia.
    + intros i rs ms Hi. by rewrite lookup_nil in Hi.
  - rewrite save_all_cons. unfold save at 1 2. rewrite Hmulti. cbn [fst snd].
    fold (numbered_path (output_dir self) (save_count self)).
    set (self1 := mkCheckpointSaver _ _ _ _ _).
    set (files1 := safe_save _ _ _ _ _).
    destruct (IH self1 files1) as (files' & Hrun & Hkept & Hframe); [done|].
    exists files'. subst self1. cbn [metadata output_dir multiple_checkpoints save_count] in *.
    split; [|split].
    + rewrite Hrun. do 2 f_equal. cbn [length]. lia.
    + intros [|i] rs' ms' Hi.
      * injection Hi as -> ->. rewrite Hframe.
        -- subst files1. unfold safe_save.
           rewrite Z.add_0_r. by rewrite lookup_insert_eq.
        -- intros j _ Heq%numbered_path_inj. lia.
      * replace (save_count self + Z.of_nat (S i))%Z
          with (save_count self + 1 + Z.of_nat i)%Z by lia.
        by apply Hkept.
    + intros p Hp. rewrite Hframe.
      * subst files1. unfold safe_save. rewrite lookup_insert_ne; [done|].
        intros <-. apply (Hp 0); [cbn [length]; lia|]. by rewrite Z.add_0_r.
      * intros i Hi.
        replace (save_count self + 1 + Z.of_nat i)%Z
          with (save_count self + Z.of_nat (S i))%Z by lia.
        apply Hp. cbn [length]. lia.
Qed.

(** X19.  With [multiple_checkpoints], [k] saves with a new saver write the [k]
    files [checkpoint_0.p] ... [checkpoint_(k-1).p] of the output
    directory: the [i]-th holds the states of the [i]-th save, whatever was
    at that path before, and no later save replaces it since the numbered
    paths are pairwise distinct. *)
Theorem numbered_checkpoints_are_all_kept (meta : Metadata) (dir : string)
    (states : list (State * State)) files (i : nat) (rs ms : State)
    (Hi : states !! i = Some (rs, ms)) :
  let result := save_all (CheckpointSaver_init meta dir true) states files in
  save_count result.1 = Z.of_nat (length states) /\
  result.2 !! numbered_path dir (Z.of_nat i) = Some (mkCheckpoint rs ms meta) /\
  forall j, j ≠ i -> numbered_path dir (Z.of_nat j) ≠ numbered_path dir (Z.of_nat i).
Proof.
  intros result.
  destruct (save_all_numbered states (CheckpointSaver_init meta dir true) files)
    as (files' & Hrun & Hkept & _); [done|].
  subst result. rewrite Hrun. cbn [fst snd save_count CheckpointSaver_init].
  split; [done|]. split.
  - apply (Hkept i rs ms Hi).
  - intros j Hj Heq%numbered_path_inj. lia.
Qed.

(** X20.  Without [multiple_checkpoints] every save goes to the one file
    [checkpoint.p] of the output directory: after any number of saves that
    file holds the states of the last one, no other file has changed, and
    the saver counts nothing. *)
Theorem rolling_checkpoint_holds_latest (meta : Metadata) (dir : string)
    (states : list (State * State)) (rs ms : State) files :
  save_all (CheckpointSaver_init meta dir false) (states ++ [(rs, ms)]) files =
  (CheckpointSaver_init meta dir false,
   <[path_join dir "checkpoint.p" := mkCheckpoint rs ms meta]> files).
Proof.
  revert files. induction states as [|[rs0 ms0] states IH]; intros files.
  - reflexivity.
  - cbn [app]. rewrite save_all_cons. unfold save at 1 2.
    cbn [CheckpointSaver_init multiple_checkpoints output_dir metadata fst snd].
    fold (CheckpointSaver_init meta dir false). rewrite IH.
    unfold safe_save. by rewrite insert_insert_eq.
Qed.
End CheckpointFacts.

Lemma numbered_checkpoints_are_all_kept_witness :
  (save_all (CheckpointSaver_init "run" "out" true) [(1, 2); (3, 4)] ∅).2
    !! "out/checkpoint_1.p" = Some (mkCheckpoint 3 4 "run").
Proof.
  destruct (numbered_checkpoints_are_all_kept "run" "out" [(1, 2); (3, 4)] ∅ 1 3 4)
    as (_ & Hfile & _).
  - reflexivity.
  - exact Hfile.
Defined.


(* ===================================================================== *)
(** * The counters of a run add up *)
(* ===================================================================== *)

Lemma sum_steps_fresh (m : gmap string Z) (t : string) (n : Z) :
  m !! t = None ->
  map_fold (fun _ n acc => (n + acc)%Z) 0%Z (<[t := n]> m) =
  (n + map_fold (fun _ n acc => (n + acc)%Z) 0%Z m)%Z.
Proof.
  intros Hm. apply (map_fold_insert_L (fun _ n acc => (n + acc)%Z)); [|done].
  intros. lia.
Qed.

Lemma sum_steps_update (m : gmap string Z) (t : string) (n n' : Z) :
  m !! t = Some n ->
  map_fold (fun _ n acc => (n + acc)%Z) 0%Z (<[t := n']> m) =
  (map_fold (fun _ n acc => (n + acc)%Z) 0%Z m + (n' - n))%Z.
Proof.
  intros Hm. rewrite <- (insert_delete_id m t n Hm) at 2.
  rewrite <- (insert_delete_eq m t n').
  rewrite !sum_steps_fresh by apply lookup_delete_eq. lia.
Qed.

Lemma sum_steps_zero (m : gmap string Z) :
  (forall k v, m !! k = Some v -> v = 0%Z) ->
  map_fold (fun _ n acc => (n + acc)%Z) 0%Z m = 0%Z.
Proof.
  induction m as [|i x m Hi IH] using map_ind; intros Hzero.
  - by rewrite map_fold_empty.
  - rewrite sum_steps_fresh by done.
    rewrite (Hzero i x) by apply lookup_insert_eq. rewrite IH; [done|].
    intros k v Hk. apply (Hzero k v). rewrite lookup_insert_ne; [done|].
    intros ->. congruence.
Qed.

Lemma created_over_balanced (T : list string) (ts : TrainState) :
  created_over T ts ->
  total_task_steps ts = global_steps ts /\
  forall t n, task_steps ts !! t = Some n -> (0 <= n)%Z.
Proof.
  induction 1 as [|ts t ts' _ [IHsum IHpos] Hstep].
  - split.
    + unfold total_task_steps. apply sum_steps_zero. intros k v.
      rewrite from_task_name_list_lookup. by case_bool_decide; intros [= <-].
    + intros t n. rewrite from_task_name_list_lookup.
      case_bool_decide; [|done]. intros [= <-]. lia.
  - unfold step in Hstep. destruct (task_steps ts !! t) as [n|] eqn:Hn; [|done].
    injection Hstep as <-. split.
    + unfold total_task_steps in *. cbn [task_steps global_steps].
      rewrite (sum_steps_update _ _ _ _ Hn), IHsum. lia.
    + intros t' n'. cbn [task_steps]. destruct (decide (t = t')) as [<-|Hne].
      * rewrite lookup_insert_eq. intros [= <-]. specialize (IHpos t n Hn). lia.
      * rewrite lookup_insert_ne by done. apply IHpos.
Qed.

(** X21.  After an uninterrupted [run_train] on a well-configured container
    whose tables hold the task and the ["train"] cache of every training
    task, the [TrainState] is consistent: it counts exactly the training tasks, no
    count is negative, and the per-task counts add up to [global_steps],
    which is [max_steps]. *)
Theorem run_train_counts_add_up (E : Collaborators) (c : JiantTaskContainer)
    (tables : EvalTaskContainer) (w : World) (fuel : nat)
    (Hwf : well_configured E c)
    (Hdata : train_data_present c tables)
    (Hmax : (0 <= max_steps c)%Z)
    (Hfuel : Z.to_nat (max_steps c) + 1 < fuel) :
  exists w',
    JiantRunner.run_train E c tables fuel w = Ok (Z.to_nat (max_steps c)) w' /\
    global_steps (train_state w') = max_steps c /\
    total_task_steps (train_state w') = max_steps c /\
    forall t,
      match task_steps (train_state w') !! t with
      | Some n => t ∈ train_task_list c /\ (0 <= n)%Z
      | None => t ∉ train_task_list c
      end.
Proof.
  destruct fuel as [|fuel]; [lia|].
  destruct (get_train_dataloader_dict_spec E c tables w Hwf Hdata) as (d & Hd & Hdall).
  set (w1 := set_train_state (from_task_name_list (train_task_list c))
               (set_stream_pos d w)).
  assert (Htr : training c w1).
  { intros t Ht. subst w1; simpl. split.
    - rewrite (Hdall t Ht). eauto.
    - rewrite foldl_insert_lookup, bool_decide_eq_true_2 by done. eauto. }
  destruct (drain_loop E c
              (JiantRunner.run_train_context c tables (JiantRunner.run_train_step E c))
              (fun _ => eq_refl) Hwf (Z.to_nat (max_steps c)) fuel w1 0 Htr ltac:(lia))
    as (w' & Hrun & Hadv).
  assert (Hcreated : created_over (train_task_list c) (train_state w')).
  { apply (adv_created _ _ _ _ Hadv). subst w1. cbn [train_state set_train_state].
    constructor. }
  destruct (created_over_balanced _ _ Hcreated) as [Hsum Hpos].
  assert (Hglobal : global_steps (train_state w') = max_steps c).
  { rewrite (adv_global _ _ _ _ Hadv). subst w1; simpl. lia. }
  exists w'. split; [|split; [done|split; [congruence|]]].
  - unfold JiantRunner.run_train.
    cbn [for_generator JiantRunner.run_train_context]. unfold_monad.
    rewrite Hd. unfold put_train_state. fold w1. exact Hrun.
  - intros t. pose proof (created_over_tracked _ _ t Hcreated) as Htracked.
    destruct (task_steps (train_state w') !! t) as [n|] eqn:Hn.
    + split; [apply Htracked; eauto|by eapply Hpos].
    + intros Ht. apply Htracked in Ht. by destruct Ht.
Qed.

Lemma run_train_counts_add_up_witness :
  exists w',
    JiantRunner.run_train Sample.E Sample.container Sample.tables 5 Sample.fresh = Ok 3 w' /\
    total_task_steps (train_state w') = 3%Z.
Proof.
  destruct (run_train_counts_add_up Sample.E Sample.container Sample.tables
              Sample.fresh 5)
    as (w' & Hrun & _ & Hsum & _).
  - exact sample_well_configured.
  - exact sample_train_data_present.
  - simpl. lia.
  - simpl. lia.
  - exists w'. split; [exact Hrun|exact Hsum].
Defined.


(* ===================================================================== *)
(** * Further edges: a zero update period, an empty validation stream *)
(* ===================================================================== *)

(** X22.  With [sampler_update_freq = 0] no MultiDDS step completes: a step
    whose task is configured, streamed and tracked runs its micro-batches,
    steps the optimizer, clears the gradients and advances the
    [TrainState], and then fails on the period test with
    [ZeroDivisionError]; nothing is logged. *)
Theorem multidds_zero_update_freq (E : Collaborators) (c : JiantTaskContainer)
    (target_task : string) (accumulate_target_grad : bool) (w : World)
    (cfg : TaskSpecificConfig) (i : nat) (n : Z)
    (Hcfg : task_specific_configs c !! sampler_draw E (sampler_pos w) = Some cfg)
    (Hpos : stream_pos w !! sampler_draw E (sampler_pos w) = Some i)
    (Hcount : task_steps (train_state w) !! sampler_draw E (sampler_pos w) = Some n) :
  let t := sampler_draw E (sampler_pos w) in
  let k := gradient_accumulation_steps cfg in
  exists w' rounds,
    MultiDDSRunner.run_train_step E c 0 target_task accumulate_target_grad w
      = Raise ZeroDivisionError w' /\
    trace w' = trace w ++ [ev_model_train; ev_sampler_pop t] ++ rounds ++
               [ev_optimizer_step; ev_zero_grad] /\
    micro_batches E t k (trace w ++ [ev_model_train; ev_sampler_pop t]) i (Z.to_nat k) rounds /\
    weights_version w' = S (weights_version w) /\
    grad_buf w' = [] /\
    step t (train_state w) = Return (train_state w').
Proof.
  intros t k.
  assert (Et : t = sampler_draw E (sampler_pos w)) by done.
  assert (Ek : k = gradient_accumulation_steps cfg) by done.
  clearbody t k. rewrite <- Et in *.
  unfold MultiDDSRunner.run_train_step, MultiDDSRunner.run_one_batch, get_config,
    getitem, task_sampler_pop, emit.
  unfold_monad. cbn [sampler_pos record_event]. rewrite <- Et, Hcfg, <- Ek.
  set (w1 := record_event (ev_sampler_pop t) _).
  destruct (micro_loop_spec E t k (Z.to_nat k) 0%Q w1 i)
    as (lv & w2 & evs & Hrun & [Htr _ Hts _ Hwv _ _ _] & Hmb & Hs & Hg); [exact Hpos|].
  rewrite Hrun.
  unfold optimizer_scheduler_step, zero_grad, train_state_step, get_train_state, py_mod.
  cbn [train_state record_event set_grad_buf set_weights_version].
  rewrite Hts. subst w1.
  cbn [train_state record_event set_sampler_pos]. unfold step. rewrite Hcount.
  cbn [Z.eqb].
  eexists _, evs. split; [reflexivity|]. simpl in *. split_and!; try done.
  - rewrite Htr. by rewrite <- !app_assoc.
  - by rewrite <- !app_assoc in Hmb.
  - by rewrite Hwv.
Qed.

Lemma multidds_zero_update_freq_witness :
  exists w',
    MultiDDSRunner.run_train_step Sample.E Sample.container 0 "rte" false Sample.fresh
      = Raise ZeroDivisionError w' /\
    weights_version w' = 1.
Proof.
  destruct (multidds_zero_update_freq Sample.E Sample.container "rte" false Sample.fresh
              (mkTaskSpecificConfig 2) 0 0%Z)
    as (w' & rounds & Hrun & _ & _ & Hwv & _).
  - vm_compute. reflexivity.
  - vm_compute. reflexivity.
  - vm_compute. reflexivity.
  - exists w'. split; [exact Hrun | exact Hwv].
Defined.

(** X23.  An empty validation stream makes the method [run_val] fail with
    [ZeroDivisionError] when its loop reaches that task: the tables were
    complete, the tasks listed before it have been evaluated, the model
    has been switched to evaluation mode for the empty task too, and no
    result is returned for any of them. *)
Theorem runner_run_val_empty_stream (E : Collaborators) (R : CacheReaders)
    (c : EvalTaskContainer) (before after : list string) (t : string)
    (use_subset return_preds : bool) (w : World)
    (Hready : forall t', t' ∈ before ++ t :: after ->
       is_Some (val_labels_of R c use_subset t') /\
       is_Some (eval_dataloader_of R c "val" use_subset t'))
    (Hbefore : forall t', t' ∈ before ->
       eval_dataloader_of R c "val" use_subset t' ≠ Some [])
    (Hempty : eval_dataloader_of R c "val" use_subset t = Some []) :
  exists w' evs,
    JiantRunnerEvaluation.run_val E R c (-1) (before ++ t :: after) use_subset
      return_preds w = Raise ZeroDivisionError w' /\
    evaluates w w' evs /\
    count_events is_model_eval evs = S (length before).
Proof.
  unfold JiantRunnerEvaluation.run_val, JiantRunnerEvaluation.get_val_dataloader_dict,
    JiantRunnerEvaluation._get_eval_dataloader_dict,
    JiantRunnerEvaluation.get_val_labels_dict.
  unfold_monad.
  destruct (table_loop_ok _ _ (eval_dataloader_entry_some R c "val" use_subset)
              (before ++ t :: after) ∅ w) as (dls & -> & Hdls).
  { intros t' Ht'. by destruct (Hready t' Ht') as (_ & ?). }
  destruct (table_loop_ok _ _ (val_labels_entry_some R c use_subset)
              (before ++ t :: after) ∅ w) as (labels & -> & Hlabels).
  { intros t' Ht'. by destruct (Hready t' Ht') as (? & _). }
  assert (Hin : forall t', t' ∈ before ∨ t' = t -> t' ∈ before ++ t :: after).
  { intros t' [?| ->]; apply elem_of_app; [by left|right; left]. }
  assert (Hentry : forall t', t' ∈ before ∨ t' = t ->
            is_Some (task_dict c !! t') /\ is_Some (labels !! t') /\
            dls !! t' = eval_dataloader_of R c "val" use_subset t').
  { intros t' Ht'. destruct (Hready t' (Hin t' Ht')) as (Hlab & Hdl). split; [|split].
    - by apply (eval_dataloader_of_task R c "val" use_subset).
    - rewrite Hlabels. by rewrite bool_decide_true by by apply Hin.
    - rewrite Hdls. by rewrite bool_decide_true by by apply Hin. }
  destruct (run_val_loop E c dls labels return_preds before ∅ w)
    as (d & w1 & evs & Hrun & Hev & Hc & _).
  { intros t' Ht'. destruct (Hentry t' (or_introl Ht')) as (Htask & Hlab & Hdl).
    split; [done|]. split; [done|].
    destruct (Hready t' (Hin t' (or_introl Ht'))) as (_ & dl & Hsome).
    exists dl. split; [congruence|]. intros ->. by apply (Hbefore t' Ht'). }
  destruct (Hentry t (or_intror eq_refl)) as ((task & Htask) & (lab & Hlab) & Hdl).
  exists (record_event ev_model_eval w1), (evs ++ [ev_model_eval]). split; [|split].
  - rewrite for_each_app, Hrun. cbn [for_each]. unfold_monad.
    unfold JiantRunnerEvaluation.run_val_entry at 1. unfold getitem. unfold_monad.
    by rewrite Htask, Hdl, Hempty, Hlab.
  - eapply evaluates_trans; [exact Hev|]. by apply evaluates_event.
  - rewrite count_events_app, Hc. simpl. lia.
Qed.

Lemma runner_run_val_empty_stream_witness :
  exists w',
    JiantRunnerEvaluation.run_val Sample.E_val
      (mkCacheReaders
         (fun cache task _ _ => match cache with 0 => [] | _ => [Sample.batch task 0] end)
         (fun _ => []))
      Sample.eval_container (-1) ["rte"; "mnli"] false false Sample.fresh
      = Raise ZeroDivisionError w' /\
    train_state w' = train_state Sample.fresh.
Proof.
  destruct (runner_run_val_empty_stream Sample.E_val
              (mkCacheReaders
                 (fun cache task _ _ =>
                    match cache with 0 => [] | _ => [Sample.batch task 0] end)
                 (fun _ => []))
              Sample.eval_container ["rte"] [] "mnli" false false Sample.fresh)
    as (w' & evs & Hrun & Hev & _).
  - intros t' Ht'.
    assert (Hcases : t' = "rte" \/ t' = "mnli").
    { apply elem_of_cons in Ht' as [->|Ht']; [by left|].
      apply list_elem_of_singleton in Ht' as ->. by right. }
    destruct Hcases as [-> | ->]; split; eexists; vm_compute; reflexivity.
  - intros t' Ht'. apply list_elem_of_singleton in Ht' as ->. vm_compute. discriminate.
  - vm_compute. reflexivity.
  - exists w'. split; [exact Hrun|exact (evl_train_state _ _ _ Hev)].
Defined.
